(** * The DSCR underwriting pipeline: DSCR calculator, rules engine, pricing
      engine and decision service

    A shallow embedding of [api/app/services/dscr.py], [rules.py], [pricing.py]
    and [decision.py], with the milestone workflow of [workflow.py] and the value
    reconciliation of [valuation.py].  Python [int] is [Z]; Python [float] is the kernel's
    binary64 [float], so every arithmetic step below rounds as the interpreter
    does; exceptions are an error monad; [uuid4()] and [datetime.utcnow()]
    read an explicit [World]. *)

From Stdlib Require Import ZArith List String Bool Lia.
From Stdlib Require Import Floats.PrimFloat Floats.SpecFloat Floats.FloatOps.
From Stdlib Require Floats.FloatAxioms.
Import ListNotations.

Set Warnings "-inexact-float".
Open Scope string_scope.
Open Scope list_scope.
Open Scope Z_scope.

(** ** The Python runtime the services rely on *)

Module Py.

(** The built-in exceptions the services meet: those their arithmetic can
    raise, and the one an ill-typed operand raises. *)
Inductive exc : Type :=
  | ZeroDivisionError
  | OverflowError
  | ValueError
  | TypeError.

(** A computation either returns or raises. *)
Inductive result (A : Type) : Type :=
  | Ok (a : A)
  | Raise (e : exc).
Arguments Ok {A} a.
Arguments Raise {A} e.

Definition bind {A B : Type} (m : result A) (k : A -> result B) : result B :=
  match m with
  | Ok a => k a
  | Raise e => Raise e
  end.

Definition returns {A : Type} (m : result A) : bool :=
  match m with Ok _ => true | Raise _ => false end.

Declare Scope py_scope.
Delimit Scope py_scope with py.
Notation "x <- m ;; k" := (bind m (fun x => k))
  (at level 61, m at next level, right associativity) : py_scope.
Notation "' p <- m ;; k" := (bind m (fun x => let p := x in k))
  (at level 61, p pattern, m at next level, right associativity) : py_scope.
Open Scope py_scope.

(** *** Floats *)

Definition inf : float := infinity.

(** [float(n)] for an int [n]: the nearest double, ties to even;
    [OverflowError] when [n] is too large. *)
Definition float_of_int (n : Z) : result float :=
  match binary_normalize prec emax n 0 false with
  | S754_infinity _ => Raise OverflowError
  | sf => Ok (SF2Prim sf)
  end.

(** [int(x)]: truncation toward zero; [OverflowError] on an infinity,
    [ValueError] on a NaN. *)
Definition int_of_float (x : float) : result Z :=
  match Prim2SF x with
  | S754_nan => Raise ValueError
  | S754_infinity _ => Raise OverflowError
  | S754_zero _ => Ok 0
  | S754_finite s m e =>
      let v := if 0 <=? e then Z.shiftl (Zpos m) e else Z.shiftr (Zpos m) (- e) in
      Ok (if s then - v else v)
  end.

(** The double nearest to [n / d] for naturals [n] and [d > 0], with sign [s]:
    the quotient is taken with three guard bits and a sticky bit, then
    rounded once. *)
Definition round_quotient (s : bool) (n d : Z) (e : Z) : spec_float :=
  let k := Z.max 0 (Z.log2 d + 56 - Z.log2 n) in
  let q := Z.shiftl n k / d in
  let sticky := if Z.shiftl n k mod d =? 0 then 0 else 1 in
  binary_normalize prec emax (cond_Zopp s (2 * q + sticky)) (e - k - 1) s.

(** [a / b] on ints (true division): correctly rounded. *)
Definition int_truediv (a b : Z) : result float :=
  if b =? 0 then Raise ZeroDivisionError
  else
    match round_quotient (xorb (a <? 0) (b <? 0)) (Z.abs a) (Z.abs b) 0 with
    | S754_infinity _ => Raise OverflowError
    | sf => Ok (SF2Prim sf)
    end.

(** [x / y] on floats. *)
Definition float_truediv (x y : float) : result float :=
  if PrimFloat.eqb y 0 then Raise ZeroDivisionError else Ok (x / y)%float.

(** *** The numeric tower: a value that is an int or a float *)

Inductive number : Type :=
  | Int (n : Z)
  | Float (x : float).

Definition to_float (v : number) : result float :=
  match v with
  | Int n => float_of_int n
  | Float x => Ok x
  end.

(** [a * v] for an int [a]. *)
Definition int_mul (a : Z) (v : number) : result number :=
  match v with
  | Int b => Ok (Int (a * b))
  | Float y => x <- float_of_int a ;; Ok (Float (x * y)%float)
  end.

(** [a / v] for an int [a]. *)
Definition int_div (a : Z) (v : number) : result number :=
  match v with
  | Int b => q <- int_truediv a b ;; Ok (Float q)
  | Float y => x <- float_of_int a ;; q <- float_truediv x y ;; Ok (Float q)
  end.

(** [int(v)]. *)
Definition int_ (v : number) : result Z :=
  match v with
  | Int n => Ok n
  | Float x => int_of_float x
  end.

(** Comparison of an int with a float is exact in Python: the int is not
    rounded first. [None] when the float is a NaN. *)
Definition compare_int_float (n : Z) (x : float) : option comparison :=
  match Prim2SF x with
  | S754_nan => None
  | S754_infinity s => Some (if s then Gt else Lt)
  | S754_zero _ => Some (n ?= 0)
  | S754_finite s m e =>
      let v := if s then Zneg m else Zpos m in
      Some (if 0 <=? e then n ?= v * 2 ^ e else n * 2 ^ (- e) ?= v)
  end.

Definition ltb (a b : number) : bool :=
  match a, b with
  | Int m, Int n => m <? n
  | Float x, Float y => PrimFloat.ltb x y
  | Int m, Float y =>
      match compare_int_float m y with Some Lt => true | _ => false end
  | Float x, Int n =>
      match compare_int_float n x with Some Gt => true | _ => false end
  end.

Definition leb (a b : number) : bool :=
  match a, b with
  | Int m, Int n => m <=? n
  | Float x, Float y => PrimFloat.leb x y
  | Int m, Float y =>
      match compare_int_float m y with Some Lt | Some Eq => true | _ => false end
  | Float x, Int n =>
      match compare_int_float n x with Some Gt | Some Eq => true | _ => false end
  end.

Definition eqb (a b : number) : bool :=
  match a, b with
  | Int m, Int n => m =? n
  | Float x, Float y => PrimFloat.eqb x y
  | Int m, Float y =>
      match compare_int_float m y with Some Eq => true | _ => false end
  | Float x, Int n =>
      match compare_int_float n x with Some Eq => true | _ => false end
  end.

(** Truthiness of a float, as in [x or default]: false only for a zero. *)
Definition truthy (x : float) : bool := negb (PrimFloat.eqb x 0).

(** [x or default] for an [Optional[float]]. *)
Definition float_or (x : option float) (default : float) : float :=
  match x with
  | Some v => if truthy v then v else default
  | None => default
  end.

(** [x or default] for an optional object that is always truthy when present. *)
Definition obj_or {A : Type} (x : option A) (default : A) : A :=
  match x with
  | Some v => v
  | None => default
  end.

(** *** [math.pow] with an int exponent

    CPython passes finite arguments to the C library's [pow]; that function is
    taken here as correctly rounded (the exact power, rounded once), and the
    special cases and the raised errors are those of [math_pow_impl].  A C
    library whose [pow] is only faithful may return the neighbouring double,
    one unit in the last place away: a value computed below through a power
    is the interpreter's where its library rounds correctly, which the usual
    ones do on the inputs evaluated in this file. *)

Definition pow_finite (s : bool) (m : positive) (e : Z) (n : Z) : spec_float :=
  let sr := s && Z.odd n in
  if 0 <=? n then
    binary_normalize prec emax (cond_Zopp sr (Zpos m ^ n)) (e * n) false
  else
    round_quotient sr 1 (Zpos m ^ (- n)) (e * n).

Definition math_pow (x : float) (n : Z) : result float :=
  y <- float_of_int n ;;
  k <- int_of_float y ;;
  match Prim2SF x with
  | S754_nan => Ok (if k =? 0 then 1%float else x)
  | S754_infinity s =>
      Ok (if 0 <? k then (if Z.odd k then x else abs x)
          else if k =? 0 then 1%float
          else (if s && Z.odd k then neg_zero else zero))
  | S754_zero s =>
      if 0 <? k then Ok (if Z.odd k then x else zero)
      else if k =? 0 then Ok 1%float
      else Raise ValueError
  | S754_finite s m e =>
      match pow_finite s m e k with
      | S754_infinity _ => Raise OverflowError
      | sf => Ok (SF2Prim sf)
      end
  end.

(** *** [round(x, ndigits)] for [ndigits >= 0]

    The exact binary value is rounded half-even to [ndigits] decimals and the
    decimal is read back as the nearest double. *)
Definition round_ (x : float) (ndigits : Z) : result float :=
  match Prim2SF x with
  | S754_finite s m e =>
      let num := Zpos m * 10 ^ ndigits * 2 ^ Z.max e 0 in
      let den := 2 ^ Z.max (- e) 0 in
      let q := num / den in
      let r := match 2 * (num mod den) ?= den with
               | Lt => q
               | Eq => if Z.even q then q else q + 1
               | Gt => q + 1
               end in
      match round_quotient s r (10 ^ ndigits) 0 with
      | S754_infinity _ => Raise OverflowError
      | sf => Ok (SF2Prim sf)
      end
  | _ => Ok x
  end.

(** *** Formatted strings

    An f-string is kept as its sequence of literal pieces and formatted
    values; the values are evaluated, the rendering to characters is not
    modelled. *)
Inductive segment : Type :=
  | Lit (s : string)              (* literal text, or a str value *)
  | Fixed (digits : nat) (x : float)   (* {x:.Nf} *)
  | Grouped (x : float)           (* {x:,.0f} *)
  | Str (v : number)              (* {v} for an int or a float *)
  | ExcText (e : exc).            (* {str(e)} for a caught exception *)

Definition fstring : Type := list segment.

(** *** Rendering an int: [str(n)], and [{n}] in an f-string

    CPython converts an int of at most [sys.get_int_max_str_digits()] = 4300
    decimal digits and raises ValueError for a longer one, whatever its sign.
    As 2^14284 < 10^4300 < 2^14285, only an int of bit length 14285 needs
    the comparison with 10^4300. *)
Definition MAX_STR_DIGITS : Z := 4300.

Definition within_str_digits (n : Z) : bool :=
  let bits := Z.log2 (Z.abs n) in
  if bits <? 14284 then true
  else if 14284 <? bits then false
  else Z.abs n <? 10 ^ MAX_STR_DIGITS.

Definition str_int (n : Z) : result segment :=
  if within_str_digits n then Ok (Str (Int n)) else Raise ValueError.

(** *** The process environment: the random source behind [uuid4()] and the
    clock behind [datetime.utcnow()] *)
Record World : Type := {
  entropy : nat -> string;   (* the successive values of str(uuid4()) *)
  drawn : nat;
  clock : nat -> Z;          (* the successive readings of utcnow() *)
  read : nat
}.

Definition uuid4 (w : World) : string * World :=
  (entropy w (drawn w),
   {| entropy := entropy w; drawn := S (drawn w); clock := clock w; read := read w |}).

Definition utcnow (w : World) : Z * World :=
  (clock w (read w),
   {| entropy := entropy w; drawn := drawn w; clock := clock w; read := S (read w) |}).

End Py.

(** ** dscr.py: the DSCR calculator *)

Module DSCR.
Import Py.

Inductive WarningSeverity : Type := INFO | WARNING | ERROR.

(** Money value in cents. *)
Record Money : Type := { amount : Z; currency : string }.

(** [Money(a)]: the currency defaults to USD. *)
Definition Money_ (a : Z) : Money := {| amount := a; currency := "USD" |}.

Record RentRollEntry : Type := {
  unit_number : option string;
  unit_type : string;
  bedrooms : Z;
  bathrooms : float;
  square_feet : option Z;
  monthly_rent : Money;
  is_vacant : bool;
  lease_expiration : option Z
}.

Record DSCRWarning : Type := {
  code : string;
  message : fstring;
  severity : WarningSeverity
}.

Record DSCRCalculationInput : Type := {
  application_id : string;
  property_id : string;
  (* Rental income *)
  gross_monthly_rent : option Money;
  rent_roll : option (list RentRollEntry);
  vacancy_rate : option float;
  other_income : option Money;
  (* Expenses *)
  annual_property_tax : option Money;
  annual_insurance : option Money;
  monthly_hoa : option Money;
  management_fee_rate : option float;
  monthly_flood_insurance : option Money;
  other_monthly_expenses : option Money;
  (* Loan terms *)
  loan_amount : Money;
  interest_rate : float;
  term_months : Z;
  interest_only_months : option Z;
  (* STR specific *)
  is_short_term_rental : bool;
  str_annualized_income : option Money
}.

Record DSCRIncomeBreakdown : Type := {
  income_gross_monthly_rent : Money;
  income_vacancy_rate : float;
  effective_gross_rent : Money;
  income_other_income : option Money
}.

Record DSCRExpenseBreakdown : Type := {
  property_tax_monthly : Money;
  insurance_monthly : Money;
  hoa_monthly : Money;
  management_fee_monthly : Money;
  flood_insurance_monthly : Money;
  other_expenses : Money;
  total_expenses : Money
}.

Record DSCRNOIBreakdown : Type := { monthly : Money; annual : Money }.

Record DSCRDebtServiceBreakdown : Type := {
  principal_and_interest : Money;
  total_pitia : Money
}.

(** The dict built by [_sanitize_inputs], one field per key. *)
Record SanitizedInputs : Type := {
  in_application_id : string;
  in_property_id : string;
  in_gross_monthly_rent : option Z;
  in_rent_roll_units : Z;
  in_vacancy_rate : option float;
  in_loan_amount : Z;
  in_interest_rate : float;
  in_term_months : Z;
  in_interest_only_months : option Z;
  in_is_short_term_rental : bool
}.

Record DSCRCalculationResult : Type := {
  id : string;
  res_application_id : string;
  res_property_id : string;
  income : DSCRIncomeBreakdown;
  expenses : DSCRExpenseBreakdown;
  noi : DSCRNOIBreakdown;
  debt_service : DSCRDebtServiceBreakdown;
  dscr_ratio : float;
  calculated_at : Z;
  calculator_version : string;
  inputs : SanitizedInputs;
  formula : string;
  warnings : list DSCRWarning;
  meets_minimum : bool;
  minimum_required : float
}.

(** DSCR scenario for comparison; [adjustments] is the dict of the changed
    values, in insertion order. *)
Record DSCRScenario : Type := {
  name : string;
  description : string;
  adjustments : list (string * float);
  dscr_result : float
}.

Definition CALCULATOR_VERSION : string := "2.0.0".
Definition DEFAULT_VACANCY_RATE : float := 0.05.
Definition DEFAULT_MANAGEMENT_FEE_RATE : float := 0.08.
Definition MINIMUM_DSCR : float := 1.0.
Definition PREFERRED_DSCR : float := 1.25.

(** *** Money utility methods *)

Definition _add_money (a b : Money) : Money :=
  {| amount := amount a + amount b; currency := currency a |}.

Definition _subtract_money (a b : Money) : Money :=
  {| amount := amount a - amount b; currency := currency a |}.

Definition _multiply_money (a : Money) (factor : number) : result Money :=
  p <- int_mul (amount a) factor ;;
  n <- int_ p ;;
  Ok {| amount := n; currency := currency a |}.

Definition _divide_money (a : Money) (divisor : number) : result Money :=
  if Py.eqb divisor (Int 0) then Ok {| amount := 0; currency := currency a |}
  else
    q <- int_div (amount a) divisor ;;
    n <- int_ q ;;
    Ok {| amount := n; currency := currency a |}.

(** *** Private methods *)

(** The sum over the non-vacant entries of the rent roll. *)
Definition rent_roll_total (entries : list RentRollEntry) : Money :=
  fold_left
    (fun total entry =>
       if negb (is_vacant entry) then _add_money total (monthly_rent entry) else total)
    entries (Money_ 0).

(** The warnings list is passed in and returned with what was appended. *)
Definition _calculate_gross_rent (input_data : DSCRCalculationInput)
    (warnings : list DSCRWarning) : result (Money * list DSCRWarning) :=
  match is_short_term_rental input_data, str_annualized_income input_data with
  | true, Some str_income =>
      m <- _divide_money str_income (Int 12) ;; Ok (m, warnings)
  | _, _ =>
      match rent_roll input_data with
      | Some (entry :: entries) =>
          let total := rent_roll_total (entry :: entries) in
          match gross_monthly_rent input_data with
          | Some stated =>
              let diff := Z.abs (amount total - amount stated) in
              if 0 <? amount stated then
                pct_diff <- int_truediv diff (amount stated) ;;
                if PrimFloat.ltb 0.1 pct_diff then
                  total_dollars <- int_truediv (amount total) 100 ;;
                  stated_dollars <- int_truediv (amount stated) 100 ;;
                  Ok (total,
                      warnings ++
                      [{| code := "RENT_DISCREPANCY";
                          message := [Lit "Rent roll total ($"; Fixed 2 total_dollars;
                                      Lit ") differs from stated rent ($";
                                      Fixed 2 stated_dollars; Lit ") by ";
                                      Fixed 1 (pct_diff * 100)%float; Lit "%"];
                          severity := WARNING |}])
                else Ok (total, warnings)
              else Ok (total, warnings)
          | None => Ok (total, warnings)
          end
      | _ =>
          match gross_monthly_rent input_data with
          | Some stated => Ok (stated, warnings)
          | None =>
              Ok (Money_ 0,
                  warnings ++
                  [{| code := "NO_RENT_DATA";
                      message := [Lit "No rental income data provided"];
                      severity := ERROR |}])
          end
      end
  end.

Definition _apply_vacancy (gross_rent : Money) (vacancy_rate : float) : result Money :=
  p <- int_mul (amount gross_rent) (Float (1 - vacancy_rate)%float) ;;
  n <- int_ p ;;
  Ok {| amount := n; currency := currency gross_rent |}.

(** [self._divide_money(m, 12) if m else Money(0)] *)
Definition monthly_of_annual (m : option Money) : result Money :=
  match m with
  | Some a => _divide_money a (Int 12)
  | None => Ok (Money_ 0)
  end.

Definition _calculate_expenses (input_data : DSCRCalculationInput)
    (total_gross_income : Money) (warnings : list DSCRWarning)
    : result (DSCRExpenseBreakdown * list DSCRWarning) :=
  property_tax_monthly <- monthly_of_annual (annual_property_tax input_data) ;;
  insurance_monthly <- monthly_of_annual (annual_insurance input_data) ;;
  let hoa_monthly := obj_or (monthly_hoa input_data) (Money_ 0) in
  let mgmt_rate := float_or (management_fee_rate input_data) DEFAULT_MANAGEMENT_FEE_RATE in
  management_fee_monthly <- _multiply_money total_gross_income (Float mgmt_rate) ;;
  let flood_insurance_monthly := obj_or (monthly_flood_insurance input_data) (Money_ 0) in
  let other_expenses := obj_or (other_monthly_expenses input_data) (Money_ 0) in
  (* Validate expense ratio *)
  let expense_sum :=
    amount property_tax_monthly + amount insurance_monthly
    + amount hoa_monthly + amount management_fee_monthly in
  warnings <-
    (if 0 <? amount total_gross_income then
       expense_ratio <- int_truediv expense_sum (amount total_gross_income) ;;
       if PrimFloat.ltb 0.5 expense_ratio then
         Ok (warnings ++
             [{| code := "HIGH_EXPENSE_RATIO";
                 message := [Lit "Operating expense ratio of ";
                             Fixed 1 (expense_ratio * 100)%float;
                             Lit "% is unusually high"];
                 severity := WARNING |}])
       else Ok warnings
     else Ok warnings) ;;
  (* Total expenses *)
  let total := property_tax_monthly in
  let total := _add_money total insurance_monthly in
  let total := _add_money total hoa_monthly in
  let total := _add_money total management_fee_monthly in
  let total := _add_money total flood_insurance_monthly in
  let total := _add_money total other_expenses in
  Ok ({| property_tax_monthly := property_tax_monthly;
         insurance_monthly := insurance_monthly;
         hoa_monthly := hoa_monthly;
         management_fee_monthly := management_fee_monthly;
         flood_insurance_monthly := flood_insurance_monthly;
         other_expenses := other_expenses;
         total_expenses := total |}, warnings).

(** Calculate fixed expenses (excluding management fee). *)
Definition _calculate_fixed_expenses (input_data : DSCRCalculationInput) : result Money :=
  property_tax_monthly <- monthly_of_annual (annual_property_tax input_data) ;;
  insurance_monthly <- monthly_of_annual (annual_insurance input_data) ;;
  let hoa_monthly := obj_or (monthly_hoa input_data) (Money_ 0) in
  let flood_insurance_monthly := obj_or (monthly_flood_insurance input_data) (Money_ 0) in
  let total := property_tax_monthly in
  let total := _add_money total insurance_monthly in
  let total := _add_money total hoa_monthly in
  let total := _add_money total flood_insurance_monthly in
  Ok total.

(** [input_data.interest_only_months and input_data.interest_only_months > 0] *)
Definition interest_only (input_data : DSCRCalculationInput) : bool :=
  match interest_only_months input_data with
  | Some n => negb (n =? 0) && (0 <? n)
  | None => false
  end.

Definition _calculate_debt_service (input_data : DSCRCalculationInput)
    : result DSCRDebtServiceBreakdown :=
  loan_dollars <- int_truediv (amount (loan_amount input_data)) 100 ;;
  let monthly_rate := (interest_rate input_data / 12)%float in
  let num_payments := term_months input_data in
  monthly_pi <-
    (if interest_only input_data then
       (* Interest-only payment *)
       Ok (loan_dollars * monthly_rate)%float
     else
       (* Fully amortizing *)
       if PrimFloat.ltb 0 monthly_rate then
         factor <- math_pow (1 + monthly_rate)%float num_payments ;;
         float_truediv (loan_dollars * monthly_rate * factor)%float (factor - 1)%float
       else
         n <- float_of_int num_payments ;;
         float_truediv loan_dollars n) ;;
  cents <- int_of_float (monthly_pi * 100)%float ;;
  let principal_and_interest := Money_ cents in
  (* Add T&I for PITIA *)
  property_tax_monthly <- monthly_of_annual (annual_property_tax input_data) ;;
  insurance_monthly <- monthly_of_annual (annual_insurance input_data) ;;
  let hoa_monthly := obj_or (monthly_hoa input_data) (Money_ 0) in
  let total_pitia := principal_and_interest in
  let total_pitia := _add_money total_pitia property_tax_monthly in
  let total_pitia := _add_money total_pitia insurance_monthly in
  let total_pitia := _add_money total_pitia hoa_monthly in
  Ok {| principal_and_interest := principal_and_interest;
        total_pitia := total_pitia |}.

Definition _calculate_ratio (noi debt_service : Money) : result float :=
  if amount debt_service =? 0 then Ok inf
  else int_truediv (amount noi) (amount debt_service).

(** Appends to the warnings list; formatting a float never raises. *)
Definition _validate_result (dscr_ratio : float) (warnings : list DSCRWarning)
    : list DSCRWarning :=
  let warnings :=
    if PrimFloat.ltb dscr_ratio MINIMUM_DSCR then
      warnings ++
      [{| code := "BELOW_MINIMUM_DSCR";
          message := [Lit "DSCR of "; Fixed 3 dscr_ratio;
                      Lit " is below minimum requirement of "; Str (Float MINIMUM_DSCR)];
          severity := ERROR |}]
    else if PrimFloat.ltb dscr_ratio PREFERRED_DSCR then
      warnings ++
      [{| code := "BELOW_PREFERRED_DSCR";
          message := [Lit "DSCR of "; Fixed 3 dscr_ratio;
                      Lit " is below preferred level of "; Str (Float PREFERRED_DSCR)];
          severity := WARNING |}]
    else warnings in
  if PrimFloat.ltb 3.0 dscr_ratio then
    warnings ++
    [{| code := "UNUSUALLY_HIGH_DSCR";
        message := [Lit "DSCR of "; Fixed 3 dscr_ratio;
                    Lit " is unusually high - verify income data"];
        severity := INFO |}]
  else warnings.

Definition _sanitize_inputs (input_data : DSCRCalculationInput) : SanitizedInputs :=
  {| in_application_id := application_id input_data;
     in_property_id := property_id input_data;
     in_gross_monthly_rent := option_map amount (gross_monthly_rent input_data);
     in_rent_roll_units :=
       match rent_roll input_data with
       | Some (entry :: entries) => Z.of_nat (List.length (entry :: entries))
       | _ => 0
       end;
     in_vacancy_rate := vacancy_rate input_data;
     in_loan_amount := amount (loan_amount input_data);
     in_interest_rate := interest_rate input_data;
     in_term_months := term_months input_data;
     in_interest_only_months := interest_only_months input_data;
     in_is_short_term_rental := is_short_term_rental input_data |}.

Definition _get_formula : string :=
  "DSCR = NOI / Debt Service

Where:
  NOI = Effective Gross Income - Operating Expenses
  Effective Gross Income = Gross Rent × (1 - Vacancy Rate) + Other Income
  Operating Expenses = Management Fee + Property Tax + Insurance + HOA
  Debt Service = P&I + Property Tax + Insurance + HOA (PITIA)

Note: For DSCR loans, we use NOI / PITIA (not just P&I)".

(** *** The public methods *)

Definition calculate (input_data : DSCRCalculationInput) (w : World)
    : result (DSCRCalculationResult * World) :=
  let warnings := [] in
  (* 1. Calculate Gross Rent *)
  '(gross_monthly_rent, warnings) <- _calculate_gross_rent input_data warnings ;;
  (* 2. Apply vacancy rate *)
  let vacancy_rate := float_or (vacancy_rate input_data) DEFAULT_VACANCY_RATE in
  effective_gross_rent <- _apply_vacancy gross_monthly_rent vacancy_rate ;;
  (* 3. Add other income *)
  let other_income := obj_or (other_income input_data) (Money_ 0) in
  let total_gross_income := _add_money effective_gross_rent other_income in
  (* 4. Calculate expenses *)
  '(expenses, warnings) <- _calculate_expenses input_data total_gross_income warnings ;;
  (* 5. Calculate NOI *)
  let noi_monthly := _subtract_money total_gross_income (total_expenses expenses) in
  noi_annual <- _multiply_money noi_monthly (Int 12) ;;
  (* 6. Calculate debt service *)
  debt_service <- _calculate_debt_service input_data ;;
  (* 7. Calculate DSCR *)
  dscr_ratio <- _calculate_ratio noi_monthly (total_pitia debt_service) ;;
  (* Validate and add warnings *)
  let warnings := _validate_result dscr_ratio warnings in
  let '(new_id, w) := uuid4 w in
  let '(now, w) := utcnow w in
  Ok ({| id := new_id;
         res_application_id := application_id input_data;
         res_property_id := property_id input_data;
         income := {| income_gross_monthly_rent := gross_monthly_rent;
                      income_vacancy_rate := vacancy_rate;
                      effective_gross_rent := effective_gross_rent;
                      income_other_income := DSCR.other_income input_data |};
         expenses := expenses;
         noi := {| monthly := noi_monthly; annual := noi_annual |};
         debt_service := debt_service;
         dscr_ratio := dscr_ratio;
         calculated_at := now;
         calculator_version := CALCULATOR_VERSION;
         inputs := _sanitize_inputs input_data;
         formula := _get_formula;
         warnings := warnings;
         meets_minimum := PrimFloat.leb MINIMUM_DSCR dscr_ratio;
         minimum_required := MINIMUM_DSCR |}, w).

Definition calculate_required_rent (input_data : DSCRCalculationInput)
    (target_dscr : option float) : result Money :=
  let target := float_or target_dscr MINIMUM_DSCR in
  (* Calculate debt service *)
  debt_service <- _calculate_debt_service input_data ;;
  (* Required NOI = DSCR * PITIA *)
  required_noi <- _multiply_money (total_pitia debt_service) (Float target) ;;
  (* Add back fixed expenses *)
  fixed_expenses <- _calculate_fixed_expenses input_data ;;
  let required_gross_before_vacancy := _add_money required_noi fixed_expenses in
  (* Gross up for vacancy *)
  let vacancy_rate := float_or (vacancy_rate input_data) DEFAULT_VACANCY_RATE in
  required_gross_rent <-
    _divide_money required_gross_before_vacancy (Float (1 - vacancy_rate)%float) ;;
  (* Gross up for management fee *)
  let mgmt_rate := float_or (management_fee_rate input_data) DEFAULT_MANAGEMENT_FEE_RATE in
  final_required_rent <- _divide_money required_gross_rent (Float (1 - mgmt_rate)%float) ;;
  Ok final_required_rent.

(** The input rebuilt from [input_data.__dict__] with the key vacancy_rate
    overridden. *)
Definition replace_vacancy_rate (i : DSCRCalculationInput) (v : float)
    : DSCRCalculationInput :=
  {| application_id := application_id i;
     property_id := property_id i;
     gross_monthly_rent := gross_monthly_rent i;
     rent_roll := rent_roll i;
     vacancy_rate := Some v;
     other_income := other_income i;
     annual_property_tax := annual_property_tax i;
     annual_insurance := annual_insurance i;
     monthly_hoa := monthly_hoa i;
     management_fee_rate := management_fee_rate i;
     monthly_flood_insurance := monthly_flood_insurance i;
     other_monthly_expenses := other_monthly_expenses i;
     loan_amount := loan_amount i;
     interest_rate := interest_rate i;
     term_months := term_months i;
     interest_only_months := interest_only_months i;
     is_short_term_rental := is_short_term_rental i;
     str_annualized_income := str_annualized_income i |}.

(** The input rebuilt from [input_data.__dict__] with the key interest_rate
    overridden. *)
Definition replace_interest_rate (i : DSCRCalculationInput) (r : float)
    : DSCRCalculationInput :=
  {| application_id := application_id i;
     property_id := property_id i;
     gross_monthly_rent := gross_monthly_rent i;
     rent_roll := rent_roll i;
     vacancy_rate := vacancy_rate i;
     other_income := other_income i;
     annual_property_tax := annual_property_tax i;
     annual_insurance := annual_insurance i;
     monthly_hoa := monthly_hoa i;
     management_fee_rate := management_fee_rate i;
     monthly_flood_insurance := monthly_flood_insurance i;
     other_monthly_expenses := other_monthly_expenses i;
     loan_amount := loan_amount i;
     interest_rate := r;
     term_months := term_months i;
     interest_only_months := interest_only_months i;
     is_short_term_rental := is_short_term_rental i;
     str_annualized_income := str_annualized_income i |}.

(** The input rebuilt from [input_data.__dict__] with the key gross_monthly_rent
    overridden. *)
Definition replace_gross_monthly_rent (i : DSCRCalculationInput) (m : Money)
    : DSCRCalculationInput :=
  {| application_id := application_id i;
     property_id := property_id i;
     gross_monthly_rent := Some m;
     rent_roll := rent_roll i;
     vacancy_rate := vacancy_rate i;
     other_income := other_income i;
     annual_property_tax := annual_property_tax i;
     annual_insurance := annual_insurance i;
     monthly_hoa := monthly_hoa i;
     management_fee_rate := management_fee_rate i;
     monthly_flood_insurance := monthly_flood_insurance i;
     other_monthly_expenses := other_monthly_expenses i;
     loan_amount := loan_amount i;
     interest_rate := interest_rate i;
     term_months := term_months i;
     interest_only_months := interest_only_months i;
     is_short_term_rental := is_short_term_rental i;
     str_annualized_income := str_annualized_income i |}.

(** Calculate multiple scenarios for comparison.  Each scenario is a run of
    [calculate], which draws an id and reads the clock. *)
Definition calculate_scenarios (input_data : DSCRCalculationInput) (w : World)
    : result (list DSCRScenario * World) :=
  let scenarios := [] in
  (* Base case *)
  '(base_result, w) <- calculate input_data w ;;
  let scenarios :=
    scenarios ++ [{| name := "Base Case";
                     description := "Current inputs";
                     adjustments := [];
                     dscr_result := dscr_ratio base_result |}] in
  (* Stress test: Higher vacancy *)
  let high_vacancy_input := replace_vacancy_rate input_data 0.10 in
  '(high_vacancy, w) <- calculate high_vacancy_input w ;;
  let scenarios :=
    scenarios ++ [{| name := "High Vacancy";
                     description := "10% vacancy rate";
                     adjustments := [("vacancy_rate", 0.10%float)];
                     dscr_result := dscr_ratio high_vacancy |}] in
  (* Stress test: Rate increase *)
  let rate_increase_input :=
    replace_interest_rate input_data (interest_rate input_data + 0.01)%float in
  '(rate_increase, w) <- calculate rate_increase_input w ;;
  let scenarios :=
    scenarios ++ [{| name := "Rate +1%";
                     description := "Interest rate increase of 1%";
                     adjustments := [("interest_rate", (interest_rate input_data + 0.01)%float)];
                     dscr_result := dscr_ratio rate_increase |}] in
  (* Stress test: Rent decrease; a Money object is always truthy *)
  match gross_monthly_rent input_data with
  | Some stated =>
      p <- int_mul (amount stated) (Float 0.90) ;;
      n <- int_ p ;;
      let reduced_rent := Money_ n in
      let rent_decrease_input := replace_gross_monthly_rent input_data reduced_rent in
      '(rent_decrease, w) <- calculate rent_decrease_input w ;;
      Ok (scenarios ++ [{| name := "Rent -10%";
                           description := "Rent decrease of 10%";
                           adjustments := [("rent_adjustment", (-0.10)%float)];
                           dscr_result := dscr_ratio rent_decrease |}], w)
  | None => Ok (scenarios, w)
  end.

(** Calculate maximum loan amount for given DSCR target. *)
Definition calculate_max_loan_amount (input_data : DSCRCalculationInput)
    (target_dscr : option float) : result Money :=
  let target := float_or target_dscr MINIMUM_DSCR in
  (* Calculate NOI *)
  let gross_monthly_rent := obj_or (gross_monthly_rent input_data) (Money_ 0) in
  let vacancy_rate := float_or (vacancy_rate input_data) DEFAULT_VACANCY_RATE in
  effective_gross_rent <- _apply_vacancy gross_monthly_rent vacancy_rate ;;
  '(expenses, _) <- _calculate_expenses input_data effective_gross_rent [] ;;
  let noi_monthly := _subtract_money effective_gross_rent (total_expenses expenses) in
  (* Max PITIA = NOI / targetDSCR *)
  max_pitia <- _divide_money noi_monthly (Float target) ;;
  (* Subtract T&I to get max P&I *)
  let ti_monthly :=
    _add_money (property_tax_monthly expenses)
      (_add_money (insurance_monthly expenses) (hoa_monthly expenses)) in
  let max_pi := _subtract_money max_pitia ti_monthly in
  if amount max_pi <=? 0 then Ok (Money_ 0)
  else
    (* Back-calculate loan amount from P&I *)
    let monthly_rate := (interest_rate input_data / 12)%float in
    let num_payments := term_months input_data in
    loan_amount_cents <-
      (if PrimFloat.ltb 0 monthly_rate then
         factor <- math_pow (1 + monthly_rate)%float num_payments ;;
         pi <- float_of_int (amount max_pi) ;;
         q <- float_truediv (pi * (factor - 1))%float (monthly_rate * factor)%float ;;
         Ok (Float q)
       else Ok (Int (amount max_pi * num_payments))) ;;
    n <- int_ loan_amount_cents ;;
    Ok (Money_ n).

End DSCR.

(** ** rules.py: the rules engine *)

Module Rules.
Import Py.

Module RuleCategory.
Inductive t : Type := ELIGIBILITY | CREDIT | PROPERTY | INCOME | COLLATERAL.
End RuleCategory.

Module RuleSeverity.
Inductive t : Type :=
  | HARD_STOP            (* Automatic decline *)
  | EXCEPTION_REQUIRED   (* Needs exception approval *)
  | WARNING              (* Informational, proceed with caution *)
  | INFO.                (* Just informational *)

Definition eqb (a b : t) : bool :=
  match a, b with
  | HARD_STOP, HARD_STOP | EXCEPTION_REQUIRED, EXCEPTION_REQUIRED
  | WARNING, WARNING | INFO, INFO => true
  | _, _ => false
  end.
End RuleSeverity.

Module RuleStatus.
Inductive t : Type := PASS | FAIL | WARNING | NOT_APPLICABLE.

Definition eqb (a b : t) : bool :=
  match a, b with
  | PASS, PASS | FAIL, FAIL | WARNING, WARNING
  | NOT_APPLICABLE, NOT_APPLICABLE => true
  | _, _ => false
  end.
End RuleStatus.

Record RuleResult : Type := {
  rule_id : string;
  rule_name : string;
  category : RuleCategory.t;
  status : RuleStatus.t;
  severity : RuleSeverity.t;
  message : fstring;
  details : list (string * string);
  exception_eligible : bool
}.

Record RulesEvaluationResult : Type := {
  id : string;
  res_application_id : string;
  evaluated_at : Z;
  overall_status : RuleStatus.t;
  rule_results : list RuleResult;
  hard_stops : list RuleResult;
  exceptions_required : list RuleResult;
  warnings : list RuleResult;
  passed_count : Z;
  failed_count : Z;
  warning_count : Z
}.

Record LoanData : Type := {
  application_id : string;
  dscr : float;
  ltv : float;
  cltv : float;
  credit_score : Z;
  property_type : string;
  property_state : string;
  loan_amount : Z;  (* cents *)
  loan_purpose : string;
  occupancy_type : string;
  units : Z;
  is_rural : bool;
  months_reserves : Z;
  prior_bankruptcies : Z;
  prior_foreclosures : Z;
  current_delinquencies : Z
}.

(** One entry of the rule table: the dict with keys id, name, category,
    severity, check and message.  The two callables may raise. *)
Module Rule.
Record t : Type := {
  id : string;
  name : string;
  category : RuleCategory.t;
  severity : RuleSeverity.t;
  check : LoanData -> result bool;
  message : LoanData -> bool -> result fstring
}.
End Rule.

Record RulesEngine : Type := { rules : list Rule.t }.

(** [x in xs] on strings. *)
Definition str_in (x : string) (xs : list string) : bool :=
  existsb (String.eqb x) xs.

(** ['a' if p else 'b'] *)
Definition pick (p : bool) (a b : string) : segment := Lit (if p then a else b).

Definition _init_rules : list Rule.t :=
  [ (* DSCR Rules *)
    {| Rule.id := "DSCR-001";
       Rule.name := "Minimum DSCR";
       Rule.category := RuleCategory.INCOME;
       Rule.severity := RuleSeverity.HARD_STOP;
       Rule.check := fun d => Ok (PrimFloat.leb 0.75 (dscr d));
       Rule.message := fun d p =>
         Ok [Lit "DSCR of "; Fixed 2 (dscr d); Lit " "; pick p "meets" "does not meet";
             Lit " minimum 0.75 requirement"] |};
    {| Rule.id := "DSCR-002";
       Rule.name := "DSCR Below 1.0";
       Rule.category := RuleCategory.INCOME;
       Rule.severity := RuleSeverity.EXCEPTION_REQUIRED;
       Rule.check := fun d => Ok (PrimFloat.leb 1.0 (dscr d));
       Rule.message := fun d p =>
         Ok [Lit "DSCR of "; Fixed 2 (dscr d); Lit " is "; pick p "above" "below";
             Lit " 1.0 threshold"] |};
    (* LTV Rules *)
    {| Rule.id := "LTV-001";
       Rule.name := "Maximum LTV";
       Rule.category := RuleCategory.COLLATERAL;
       Rule.severity := RuleSeverity.HARD_STOP;
       Rule.check := fun d => Ok (Py.leb (Float (ltv d)) (Int 80));
       Rule.message := fun d p =>
         Ok [Lit "LTV of "; Fixed 1 (ltv d); Lit "% "; pick p "is within" "exceeds";
             Lit " 80% maximum"] |};
    {| Rule.id := "LTV-002";
       Rule.name := "High LTV Warning";
       Rule.category := RuleCategory.COLLATERAL;
       Rule.severity := RuleSeverity.WARNING;
       Rule.check := fun d => Ok (Py.leb (Float (ltv d)) (Int 75));
       Rule.message := fun d p =>
         Ok [Lit "LTV of "; Fixed 1 (ltv d); Lit "% "; pick p "is" "is not";
             Lit " within preferred 75% threshold"] |};
    (* Credit Rules *)
    {| Rule.id := "CREDIT-001";
       Rule.name := "Minimum Credit Score";
       Rule.category := RuleCategory.CREDIT;
       Rule.severity := RuleSeverity.HARD_STOP;
       Rule.check := fun d => Ok (660 <=? credit_score d);
       Rule.message := fun d p =>
         score <- str_int (credit_score d) ;;
         Ok [Lit "Credit score of "; score; Lit " ";
             pick p "meets" "does not meet"; Lit " minimum 660 requirement"] |};
    {| Rule.id := "CREDIT-002";
       Rule.name := "Credit Score Warning";
       Rule.category := RuleCategory.CREDIT;
       Rule.severity := RuleSeverity.WARNING;
       Rule.check := fun d => Ok (700 <=? credit_score d);
       Rule.message := fun d p =>
         score <- str_int (credit_score d) ;;
         Ok [Lit "Credit score of "; score; Lit " ";
             pick p "is" "is not"; Lit " above preferred 700 threshold"] |};
    {| Rule.id := "CREDIT-003";
       Rule.name := "Recent Bankruptcy";
       Rule.category := RuleCategory.CREDIT;
       Rule.severity := RuleSeverity.HARD_STOP;
       Rule.check := fun d => Ok (prior_bankruptcies d =? 0);
       Rule.message := fun d p =>
         if p then Ok [Lit "No bankruptcy seasoning issues"]
         else
           count <- str_int (prior_bankruptcies d) ;;
           Ok [Lit "Borrower has "; count; Lit " prior bankruptcy(ies)"] |};
    {| Rule.id := "CREDIT-004";
       Rule.name := "Recent Foreclosure";
       Rule.category := RuleCategory.CREDIT;
       Rule.severity := RuleSeverity.HARD_STOP;
       Rule.check := fun d => Ok (prior_foreclosures d =? 0);
       Rule.message := fun d p =>
         if p then Ok [Lit "No foreclosure seasoning issues"]
         else
           count <- str_int (prior_foreclosures d) ;;
           Ok [Lit "Borrower has "; count; Lit " prior foreclosure(s)"] |};
    (* Property Rules *)
    {| Rule.id := "PROP-001";
       Rule.name := "Eligible Property Type";
       Rule.category := RuleCategory.PROPERTY;
       Rule.severity := RuleSeverity.HARD_STOP;
       Rule.check := fun d =>
         Ok (str_in (property_type d)
               ["SFR"; "CONDO"; "TOWNHOUSE"; "DUPLEX"; "TRIPLEX"; "FOURPLEX";
                "MULTIFAMILY_5PLUS"]);
       Rule.message := fun d p =>
         Ok [Lit "Property type "; Lit (property_type d); Lit " "; pick p "is" "is not";
             Lit " eligible"] |};
    {| Rule.id := "PROP-002";
       Rule.name := "Rural Property";
       Rule.category := RuleCategory.PROPERTY;
       Rule.severity := RuleSeverity.EXCEPTION_REQUIRED;
       Rule.check := fun d => Ok (negb (is_rural d));
       Rule.message := fun d p =>
         Ok (if p then [Lit "Property is not in a rural area"]
             else [Lit "Property is in a rural area - exception required"]) |};
    (* Loan Amount Rules *)
    {| Rule.id := "LOAN-001";
       Rule.name := "Minimum Loan Amount";
       Rule.category := RuleCategory.ELIGIBILITY;
       Rule.severity := RuleSeverity.HARD_STOP;
       Rule.check := fun d => Ok (10000000 <=? loan_amount d);  (* $100,000 *)
       Rule.message := fun d p =>
         dollars <- int_truediv (loan_amount d) 100 ;;
         Ok [Lit "Loan amount $"; Grouped dollars; Lit " "; pick p "meets" "does not meet";
             Lit " minimum $100,000"] |};
    {| Rule.id := "LOAN-002";
       Rule.name := "Maximum Loan Amount";
       Rule.category := RuleCategory.ELIGIBILITY;
       Rule.severity := RuleSeverity.HARD_STOP;
       Rule.check := fun d => Ok (loan_amount d <=? 300000000);  (* $3,000,000 *)
       Rule.message := fun d p =>
         dollars <- int_truediv (loan_amount d) 100 ;;
         Ok [Lit "Loan amount $"; Grouped dollars; Lit " "; pick p "is within" "exceeds";
             Lit " maximum $3,000,000"] |};
    (* Reserve Rules *)
    {| Rule.id := "RESERVE-001";
       Rule.name := "Minimum Reserves";
       Rule.category := RuleCategory.ELIGIBILITY;
       Rule.severity := RuleSeverity.EXCEPTION_REQUIRED;
       Rule.check := fun d => Ok (6 <=? months_reserves d);
       Rule.message := fun d p =>
         months <- str_int (months_reserves d) ;;
         Ok [months; Lit " months reserves ";
             pick p "meets" "does not meet"; Lit " 6 month minimum"] |}
  ].

(** Evaluate a single rule: the check and the message are run under one
    [try]; whatever either raises is caught. *)
Definition _evaluate_rule (rule : Rule.t) (loan_data : LoanData) : RuleResult :=
  let severity := Rule.severity rule in
  let attempt :=
    passed <- Rule.check rule loan_data ;;
    let status :=
      if passed then RuleStatus.PASS
      else if RuleSeverity.eqb severity RuleSeverity.WARNING then RuleStatus.WARNING
      else RuleStatus.FAIL in
    message <- Rule.message rule loan_data passed ;;
    Ok (status, message) in
  let '(status, message) :=
    match attempt with
    | Ok sm => sm
    | Raise e => (RuleStatus.NOT_APPLICABLE, [Lit "Rule evaluation error: "; ExcText e])
    end in
  {| rule_id := Rule.id rule;
     rule_name := Rule.name rule;
     category := Rule.category rule;
     status := status;
     severity := severity;
     message := message;
     details := [];
     exception_eligible := RuleSeverity.eqb severity RuleSeverity.EXCEPTION_REQUIRED |}.

Definition is_hard_stop (r : RuleResult) : bool :=
  RuleStatus.eqb (status r) RuleStatus.FAIL
  && RuleSeverity.eqb (severity r) RuleSeverity.HARD_STOP.

Definition is_exception_required (r : RuleResult) : bool :=
  RuleStatus.eqb (status r) RuleStatus.FAIL
  && RuleSeverity.eqb (severity r) RuleSeverity.EXCEPTION_REQUIRED.

Definition has_status (s : RuleStatus.t) (r : RuleResult) : bool :=
  RuleStatus.eqb (status r) s.

Definition len {A : Type} (l : list A) : Z := Z.of_nat (List.length l).

(** Evaluate all rules against loan data. *)
Definition evaluate (self : RulesEngine) (loan_data : LoanData) (w : World)
    : RulesEvaluationResult * World :=
  let results := map (fun rule => _evaluate_rule rule loan_data) (rules self) in
  (* Categorize results *)
  let hard_stops := filter is_hard_stop results in
  let exceptions_required := filter is_exception_required results in
  let warnings := filter (has_status RuleStatus.WARNING) results in
  (* Determine overall status *)
  let overall_status :=
    match hard_stops with
    | _ :: _ => RuleStatus.FAIL
    | [] =>
        match exceptions_required with
        | _ :: _ => RuleStatus.WARNING
        | [] => RuleStatus.PASS
        end
    end in
  let passed_count := len (filter (has_status RuleStatus.PASS) results) in
  let failed_count := len (filter (has_status RuleStatus.FAIL) results) in
  let warning_count := len (filter (has_status RuleStatus.WARNING) results) in
  let '(new_id, w) := uuid4 w in
  let '(now, w) := utcnow w in
  ({| id := new_id;
      res_application_id := application_id loan_data;
      evaluated_at := now;
      overall_status := overall_status;
      rule_results := results;
      hard_stops := hard_stops;
      exceptions_required := exceptions_required;
      warnings := warnings;
      passed_count := passed_count;
      failed_count := failed_count;
      warning_count := warning_count |}, w).

(** The module's singleton. *)
Definition rules_engine : RulesEngine := {| rules := _init_rules |}.

End Rules.

(** ** pricing.py: the pricing engine *)

Module Pricing.
Import Py.

Module RiskTier.
Inductive t : Type := EXCELLENT | GOOD | ACCEPTABLE | MARGINAL | HIGH_RISK.

(** The enum member's string value. *)
Definition value (tier : t) : string :=
  match tier with
  | EXCELLENT => "EXCELLENT"
  | GOOD => "GOOD"
  | ACCEPTABLE => "ACCEPTABLE"
  | MARGINAL => "MARGINAL"
  | HIGH_RISK => "HIGH_RISK"
  end.
End RiskTier.

Record PricingInput : Type := {
  dscr : float;
  ltv : float;
  credit_score : Z;
  property_type : string;
  loan_amount : Z;  (* cents *)
  loan_purpose : string;
  state : string;
  is_cash_out : bool
}.

Record PricingAdjustment : Type := {
  factor : string;
  adjustment_bps : Z;  (* basis points *)
  reason : fstring
}.

Record PricingResult : Type := {
  base_rate : float;
  adjustments : list PricingAdjustment;
  total_adjustment_bps : Z;
  final_rate : float;
  risk_tier : RiskTier.t;
  eligible : bool;
  ineligibility_reasons : list fstring
}.

(** Base rates by risk tier. *)
Definition BASE_RATES (tier : RiskTier.t) : float :=
  match tier with
  | RiskTier.EXCELLENT => 6.50
  | RiskTier.GOOD => 6.875
  | RiskTier.ACCEPTABLE => 7.25
  | RiskTier.MARGINAL => 7.75
  | RiskTier.HIGH_RISK => 8.50
  end.

(** A band table: the dict from [(low, high)] to a value, in insertion order. *)
Definition bands (A : Type) : Type := list ((number * number) * A).

(** DSCR adjustments (bps). *)
Definition DSCR_ADJUSTMENTS : bands Z :=
  [ ((Float 1.50, Float inf), -25);   (* DSCR >= 1.50 *)
    ((Float 1.25, Float 1.50), 0);    (* 1.25 <= DSCR < 1.50 *)
    ((Float 1.10, Float 1.25), 25);   (* 1.10 <= DSCR < 1.25 *)
    ((Float 1.00, Float 1.10), 50);   (* 1.00 <= DSCR < 1.10 *)
    ((Float 0.0, Float 1.00), 125) ]. (* DSCR < 1.00 (No ratio) *)

(** LTV adjustments (bps). *)
Definition LTV_ADJUSTMENTS : bands Z :=
  [ ((Int 0, Int 65), -25);
    ((Int 65, Int 70), 0);
    ((Int 70, Int 75), 25);
    ((Int 75, Int 80), 50);
    ((Int 80, Float inf), 100) ].

(** Credit score adjustments (bps). *)
Definition CREDIT_ADJUSTMENTS : bands (option Z) :=
  [ ((Int 760, Float inf), Some (-25));
    ((Int 740, Int 760), Some 0);
    ((Int 720, Int 740), Some 25);
    ((Int 700, Int 720), Some 50);
    ((Int 680, Int 700), Some 100);
    ((Int 660, Int 680), Some 150);
    ((Int 0, Int 660), None) ].       (* Ineligible *)

(** Property type adjustments (bps). *)
Definition PROPERTY_TYPE_ADJUSTMENTS : list (string * Z) :=
  [ ("SFR", 0); ("CONDO", 25); ("TOWNHOUSE", 25); ("DUPLEX", 50);
    ("TRIPLEX", 75); ("FOURPLEX", 75); ("MULTIFAMILY_5PLUS", 125) ].

(** Minimum requirements. *)
Definition MIN_DSCR : float := 0.75.  (* No ratio allowed *)
Definition MIN_CREDIT_SCORE : Z := 660.
Definition MAX_LTV : Z := 80.

(** [for (low, high), adj in table.items(): if low <= x < high: return adj] *)
Fixpoint first_band {A : Type} (table : bands A) (x : number) : option A :=
  match table with
  | [] => None
  | ((low, high), adj) :: rest =>
      if Py.leb low x && Py.ltb x high then Some adj else first_band rest x
  end.

(** [d.get(key, default)] *)
Fixpoint dict_get {A : Type} (d : list (string * A)) (key : string) (default : A) : A :=
  match d with
  | [] => default
  | (k, v) :: rest => if String.eqb k key then v else dict_get rest key default
  end.

(** Get DSCR adjustment in basis points. *)
Definition _get_dscr_adjustment (dscr : float) : Z :=
  match first_band DSCR_ADJUSTMENTS (Float dscr) with
  | Some adj => adj
  | None => 0
  end.

(** Get LTV adjustment in basis points. *)
Definition _get_ltv_adjustment (ltv : float) : Z :=
  match first_band LTV_ADJUSTMENTS (Float ltv) with
  | Some adj => adj
  | None => 0
  end.

(** Get credit score adjustment in basis points. *)
Definition _get_credit_adjustment (score : Z) : option Z :=
  match first_band CREDIT_ADJUSTMENTS (Int score) with
  | Some adj => adj
  | None => None
  end.

(** Determine overall risk tier. *)
Definition _determine_risk_tier (input_data : PricingInput) : RiskTier.t :=
  let score := 0 in
  (* DSCR scoring *)
  let score :=
    if PrimFloat.leb 1.50 (dscr input_data) then score + 4
    else if PrimFloat.leb 1.25 (dscr input_data) then score + 3
    else if PrimFloat.leb 1.10 (dscr input_data) then score + 2
    else if PrimFloat.leb 1.00 (dscr input_data) then score + 1
    else score in
  (* Credit scoring *)
  let score :=
    if 760 <=? credit_score input_data then score + 4
    else if 740 <=? credit_score input_data then score + 3
    else if 720 <=? credit_score input_data then score + 2
    else if 700 <=? credit_score input_data then score + 1
    else score in
  (* LTV scoring (inverse) *)
  let score :=
    if Py.leb (Float (ltv input_data)) (Int 65) then score + 4
    else if Py.leb (Float (ltv input_data)) (Int 70) then score + 3
    else if Py.leb (Float (ltv input_data)) (Int 75) then score + 2
    else if Py.leb (Float (ltv input_data)) (Int 80) then score + 1
    else score in
  (* Map score to tier *)
  if 10 <=? score then RiskTier.EXCELLENT
  else if 7 <=? score then RiskTier.GOOD
  else if 4 <=? score then RiskTier.ACCEPTABLE
  else if 2 <=? score then RiskTier.MARGINAL
  else RiskTier.HIGH_RISK.

(** [sum(a.adjustment_bps for a in adjustments)] *)
Definition sum_bps (adjustments : list PricingAdjustment) : Z :=
  fold_left (fun acc a => acc + adjustment_bps a) adjustments 0.

(** [len(xs) == 0] *)
Definition len_is_zero {A : Type} (xs : list A) : bool :=
  Z.of_nat (List.length xs) =? 0.

(** [xs.append(x)] when [cond] holds. *)
Definition append_if {A : Type} (cond : bool) (xs : list A) (x : A) : list A :=
  if cond then xs ++ [x] else xs.

(** Calculate loan pricing. *)
Definition calculate_pricing (input_data : PricingInput) : result PricingResult :=
  let adjustments := [] in
  let ineligibility_reasons := [] in
  (* Check eligibility *)
  ineligibility_reasons <-
    (if credit_score input_data <? MIN_CREDIT_SCORE then
       score <- str_int (credit_score input_data) ;;
       Ok (ineligibility_reasons ++
           [[Lit "Credit score "; score; Lit " below minimum ";
             Str (Int MIN_CREDIT_SCORE)]])
     else Ok ineligibility_reasons) ;;
  let ineligibility_reasons :=
    append_if (Py.ltb (Int MAX_LTV) (Float (ltv input_data))) ineligibility_reasons
      [Lit "LTV "; Str (Float (ltv input_data)); Lit "% exceeds maximum ";
       Str (Int MAX_LTV); Lit "%"] in
  let ineligibility_reasons :=
    append_if (PrimFloat.ltb (dscr input_data) MIN_DSCR) ineligibility_reasons
      [Lit "DSCR "; Str (Float (dscr input_data)); Lit " below minimum ";
       Str (Float MIN_DSCR)] in
  (* Determine risk tier *)
  let risk_tier := _determine_risk_tier input_data in
  let base_rate := BASE_RATES risk_tier in
  (* DSCR adjustment *)
  let dscr_adj := _get_dscr_adjustment (dscr input_data) in
  let adjustments :=
    append_if (negb (dscr_adj =? 0)) adjustments
      {| factor := "DSCR"; adjustment_bps := dscr_adj;
         reason := [Lit "DSCR of "; Fixed 2 (dscr input_data)] |} in
  (* LTV adjustment *)
  let ltv_adj := _get_ltv_adjustment (ltv input_data) in
  let adjustments :=
    append_if (negb (ltv_adj =? 0)) adjustments
      {| factor := "LTV"; adjustment_bps := ltv_adj;
         reason := [Lit "LTV of "; Fixed 1 (ltv input_data); Lit "%"] |} in
  (* Credit adjustment *)
  adjustments <-
    match _get_credit_adjustment (credit_score input_data) with
    | Some credit_adj =>
        if negb (credit_adj =? 0) then
          score <- str_int (credit_score input_data) ;;
          Ok (adjustments ++
              [{| factor := "Credit Score"; adjustment_bps := credit_adj;
                  reason := [Lit "Credit score of "; score] |}])
        else Ok adjustments
    | None => Ok adjustments
    end ;;
  (* Property type adjustment *)
  let prop_adj := dict_get PROPERTY_TYPE_ADJUSTMENTS (property_type input_data) 50 in
  let adjustments :=
    append_if (negb (prop_adj =? 0)) adjustments
      {| factor := "Property Type"; adjustment_bps := prop_adj;
         reason := [Lit "Property type: "; Lit (property_type input_data)] |} in
  (* Cash out adjustment *)
  let adjustments :=
    append_if (is_cash_out input_data) adjustments
      {| factor := "Cash Out"; adjustment_bps := 50;
         reason := [Lit "Cash-out refinance"] |} in
  (* Calculate total *)
  let total_adjustment_bps := sum_bps adjustments in
  points <- int_truediv total_adjustment_bps 100 ;;
  let final_rate := (base_rate + points)%float in
  rounded <- round_ final_rate 3 ;;
  Ok {| base_rate := base_rate;
        adjustments := adjustments;
        total_adjustment_bps := total_adjustment_bps;
        final_rate := rounded;
        risk_tier := risk_tier;
        eligible := len_is_zero ineligibility_reasons;
        ineligibility_reasons := ineligibility_reasons |}.

End Pricing.

(** ** decision.py: the decision service *)

Module Decision.
Import Py.
Import Rules.
Import Pricing.

Module DecisionType.
Inductive t : Type :=
  | APPROVED
  | CONDITIONALLY_APPROVED
  | REFERRED   (* Needs manual review *)
  | DECLINED
  | SUSPENDED.
End DecisionType.

(** Reason codes for decisions. *)
Module DecisionReason.
Inductive t : Type :=
  | MEETS_GUIDELINES
  | EXCEPTION_REQUIRED
  | HARD_STOP_VIOLATION
  | HIGH_RISK
  | PRICING_INELIGIBLE
  | MANUAL_REVIEW_REQUIRED.
End DecisionReason.

(** Condition for approval. *)
Record Condition : Type := {
  cond_id : string;
  cond_category : string;  (* PTD, PTC, PTF *)
  description : fstring;
  required : bool;
  source : string          (* AUTOMATED, MANUAL *)
}.

(** The [details] dict of a decision, one field per key. *)
Record DecisionDetails : Type := {
  rules_evaluation_id : string;
  passed_rules : Z;
  failed_rules : Z
}.

Record DecisionResult : Type := {
  id : string;
  res_application_id : string;
  decision_type : DecisionType.t;
  decision_reason : DecisionReason.t;
  decided_at : Z;
  (* Rules evaluation *)
  rules_passed : bool;
  n_hard_stops : Z;
  n_exceptions_required : Z;
  n_warnings : Z;
  (* Pricing *)
  pricing : option PricingResult;
  res_final_rate : option float;
  eligible_for_pricing : bool;
  (* Conditions *)
  conditions : list Condition;
  (* Details *)
  res_details : DecisionDetails;
  notes : list fstring
}.

(** Determine decision type and reason. *)
Definition _determine_decision (rules_status : RuleStatus.t)
    (hard_stops exceptions : list RuleResult) (pricing : option PricingResult)
    : DecisionType.t * DecisionReason.t :=
  (* Hard stops = automatic decline *)
  match hard_stops with
  | _ :: _ => (DecisionType.DECLINED, DecisionReason.HARD_STOP_VIOLATION)
  | [] =>
  (* Pricing ineligible = decline *)
  if match pricing with Some p => negb (eligible p) | None => false end then
    (DecisionType.DECLINED, DecisionReason.PRICING_INELIGIBLE)
  else
  (* Exceptions required = referred for manual review *)
  match exceptions with
  | _ :: _ => (DecisionType.REFERRED, DecisionReason.EXCEPTION_REQUIRED)
  | [] =>
  (* High risk tier = referred *)
  if match pricing with
     | Some p => String.eqb (RiskTier.value (risk_tier p)) "HIGH_RISK"
     | None => false
     end then
    (DecisionType.REFERRED, DecisionReason.HIGH_RISK)
  else
  (* Everything passes = conditionally approved *)
    (DecisionType.CONDITIONALLY_APPROVED, DecisionReason.MEETS_GUIDELINES)
  end
  end.

(** [conditions.append(Condition(id=str(uuid4()), ...))], source AUTOMATED. *)
Definition append_condition (conditions : list Condition) (category : string)
    (description : fstring) (required : bool) (w : World) : list Condition * World :=
  let '(new_id, w) := uuid4 w in
  (conditions ++
   [{| cond_id := new_id; cond_category := category; description := description;
       required := required; source := "AUTOMATED" |}], w).

(** Generate conditions for approval. *)
Definition _generate_conditions (rules_result : RulesEvaluationResult)
    (pricing_result : option PricingResult) (loan_data : LoanData) (w : World)
    : list Condition * World :=
  let conditions := [] in
  (* Standard conditions (PTD - Prior to Docs) *)
  let '(conditions, w) :=
    append_condition conditions "PTD" [Lit "Verify borrower identity"] true w in
  let '(conditions, w) :=
    append_condition conditions "PTD" [Lit "Obtain credit report"] true w in
  let '(conditions, w) :=
    append_condition conditions "PTD"
      [Lit "Verify property ownership/purchase contract"] true w in
  (* DSCR-specific conditions *)
  let '(conditions, w) :=
    append_condition conditions "PTD"
      [Lit "Obtain rent schedule or lease agreements"] true w in
  let '(conditions, w) :=
    if 1 <? units loan_data then
      append_condition conditions "PTD" [Lit "Obtain rent roll for all units"] true w
    else (conditions, w) in
  (* Appraisal condition (PTC - Prior to Clear) *)
  let '(conditions, w) :=
    append_condition conditions "PTC" [Lit "Obtain satisfactory appraisal"] true w in
  (* Title condition (PTF - Prior to Funding) *)
  let '(conditions, w) :=
    append_condition conditions "PTF" [Lit "Clear title with no liens"] true w in
  let '(conditions, w) :=
    append_condition conditions "PTF" [Lit "Proof of hazard insurance"] true w in
  (* Add conditions based on rule warnings *)
  fold_left
    (fun '(conditions, w) warning =>
       append_condition conditions "PTD" (Lit "Address: " :: message warning) false w)
    (Rules.warnings rules_result) (conditions, w).

(** Evaluate loan for automated decision. *)
Definition evaluate (loan_data : LoanData) (pricing_input : option PricingInput)
    (w : World) : result (DecisionResult * World) :=
  let notes := [] in
  (* 1. Run rules engine *)
  let '(rules_result, w) := Rules.evaluate rules_engine loan_data w in
  (* 2. Run pricing (if eligible) *)
  pricing_result <-
    match pricing_input with
    | Some input => p <- calculate_pricing input ;; Ok (Some p)
    | None => Ok None
    end ;;
  (* 3. Determine decision *)
  let '(decision_type, decision_reason) :=
    _determine_decision (overall_status rules_result) (hard_stops rules_result)
      (exceptions_required rules_result) pricing_result in
  (* 4. Generate conditions *)
  let '(conditions, w) := _generate_conditions rules_result pricing_result loan_data w in
  (* 5. Add notes; the length of a list is rendered, an int of few digits *)
  let notes :=
    match hard_stops rules_result with
    | _ :: _ =>
        (notes ++ [[Lit "Hard stop violations: "; Str (Int (len (hard_stops rules_result)))]])
        ++ map (fun hs => Lit "  - " :: Lit (rule_name hs) :: Lit ": " :: message hs)
             (hard_stops rules_result)
    | [] => notes
    end in
  let notes :=
    match exceptions_required rules_result with
    | _ :: _ =>
        notes ++ [[Lit "Exceptions required: ";
                   Str (Int (len (exceptions_required rules_result)))]]
    | [] => notes
    end in
  let '(new_id, w) := uuid4 w in
  let '(now, w) := utcnow w in
  Ok ({| id := new_id;
         res_application_id := application_id loan_data;
         decision_type := decision_type;
         decision_reason := decision_reason;
         decided_at := now;
         rules_passed := RuleStatus.eqb (overall_status rules_result) RuleStatus.PASS;
         n_hard_stops := len (hard_stops rules_result);
         n_exceptions_required := len (exceptions_required rules_result);
         n_warnings := len (Rules.warnings rules_result);
         pricing := pricing_result;
         res_final_rate := option_map final_rate pricing_result;
         eligible_for_pricing :=
           match pricing_result with Some p => eligible p | None => false end;
         conditions := conditions;
         res_details := {| rules_evaluation_id := Rules.id rules_result;
                           passed_rules := passed_count rules_result;
                           failed_rules := failed_count rules_result |};
         notes := notes |}, w).

End Decision.

(** ** workflow.py: the workflow engine

    A [datetime] is its count of microseconds since the epoch (the readings of
    the [World]'s clock), so that [timedelta(hours=h)] is [h * 3 600 000 000]
    and [total_seconds()] divides a difference by [10**6]; the clock is taken
    to be far enough from [datetime.max] for the due dates to exist. *)

Module Workflow.
Import Py.

(** Loan milestones. *)
Module Milestone.
Inductive t : Type :=
  (* Funnel stages *)
  | LEADS
  | LEADS_VERIFIED
  | CONTACTED
  | REACHED_LANDING
  | VERIFIED_INFO
  (* Pipeline stages *)
  | STARTED
  | APPLICATION
  | PRE_APPROVED
  | PROCESSING
  | SUBMITTED
  | CONDITIONALLY_APPROVED
  | APPROVED
  | DOCS_OUT
  | DOCS_BACK
  | CLEAR_TO_CLOSE
  | CLOSING
  | FUNDED
  | COMPLETION
  (* Terminal states *)
  | DENIED
  | WITHDRAWN.

(** The enum member's string value. *)
Definition value (m : t) : string :=
  match m with
  | LEADS => "LEADS"
  | LEADS_VERIFIED => "LEADS_VERIFIED"
  | CONTACTED => "CONTACTED"
  | REACHED_LANDING => "REACHED_LANDING"
  | VERIFIED_INFO => "VERIFIED_INFO"
  | STARTED => "STARTED"
  | APPLICATION => "APPLICATION"
  | PRE_APPROVED => "PRE_APPROVED"
  | PROCESSING => "PROCESSING"
  | SUBMITTED => "SUBMITTED"
  | CONDITIONALLY_APPROVED => "CONDITIONALLY_APPROVED"
  | APPROVED => "APPROVED"
  | DOCS_OUT => "DOCS_OUT"
  | DOCS_BACK => "DOCS_BACK"
  | CLEAR_TO_CLOSE => "CLEAR_TO_CLOSE"
  | CLOSING => "CLOSING"
  | FUNDED => "FUNDED"
  | COMPLETION => "COMPLETION"
  | DENIED => "DENIED"
  | WITHDRAWN => "WITHDRAWN"
  end.

(** [a == b]: a [str] enum compares, and hashes, by its value. *)
Definition eqb (a b : t) : bool := String.eqb (value a) (value b).
End Milestone.

(** Task status. *)
Module TaskStatus.
Inductive t : Type := PENDING | IN_PROGRESS | COMPLETED | BLOCKED | CANCELLED.

Definition eqb (a b : t) : bool :=
  match a, b with
  | PENDING, PENDING | IN_PROGRESS, IN_PROGRESS | COMPLETED, COMPLETED
  | BLOCKED, BLOCKED | CANCELLED, CANCELLED => true
  | _, _ => false
  end.
End TaskStatus.

(** Task priority. *)
Module TaskPriority.
Inductive t : Type := LOW | MEDIUM | HIGH | URGENT.
End TaskPriority.

(** Workflow task. *)
Record Task : Type := {
  id : string;
  application_id : string;
  title : string;
  description : fstring;
  status : TaskStatus.t;
  priority : TaskPriority.t;
  assigned_role : string;
  assigned_user_id : option string;
  due_at : option Z;
  sla_hours : option Z;
  completed_at : option Z;
  created_at : Z
}.

(** Record of milestone transition. *)
Record MilestoneTransition : Type := {
  tr_id : string;
  tr_application_id : string;
  from_milestone : option Milestone.t;
  to_milestone : Milestone.t;
  transitioned_at : Z;
  transitioned_by : string;
  reason : option string;
  metadata : list (string * string)
}.

(** Current workflow state for an application. *)
Record WorkflowState : Type := {
  st_application_id : string;
  current_milestone : Milestone.t;
  entered_milestone_at : Z;
  days_in_milestone : float;
  pending_tasks : list Task;
  completed_tasks : list Task;
  sla_status : string;  (* ON_TRACK, AT_RISK, BREACHED *)
  next_milestones : list Milestone.t;
  blockers : list fstring
}.

(** SLA hours by milestone. *)
Definition MILESTONE_SLA : list (Milestone.t * Z) :=
  [ (Milestone.STARTED, 24);
    (Milestone.APPLICATION, 48);
    (Milestone.PRE_APPROVED, 24);
    (Milestone.PROCESSING, 72);
    (Milestone.SUBMITTED, 48);
    (Milestone.CONDITIONALLY_APPROVED, 24);
    (Milestone.APPROVED, 24);
    (Milestone.DOCS_OUT, 48);
    (Milestone.DOCS_BACK, 24);
    (Milestone.CLEAR_TO_CLOSE, 24);
    (Milestone.CLOSING, 48) ].

(** Valid milestone transitions. *)
Definition VALID_TRANSITIONS : list (Milestone.t * list Milestone.t) :=
  [ (Milestone.LEADS, [Milestone.LEADS_VERIFIED; Milestone.WITHDRAWN]);
    (Milestone.LEADS_VERIFIED, [Milestone.CONTACTED; Milestone.WITHDRAWN]);
    (Milestone.CONTACTED, [Milestone.REACHED_LANDING; Milestone.WITHDRAWN]);
    (Milestone.REACHED_LANDING, [Milestone.VERIFIED_INFO; Milestone.WITHDRAWN]);
    (Milestone.VERIFIED_INFO,
       [Milestone.STARTED; Milestone.FUNDED; Milestone.WITHDRAWN]);
    (Milestone.STARTED, [Milestone.APPLICATION; Milestone.WITHDRAWN]);
    (Milestone.APPLICATION,
       [Milestone.PRE_APPROVED; Milestone.DENIED; Milestone.WITHDRAWN]);
    (Milestone.PRE_APPROVED,
       [Milestone.PROCESSING; Milestone.DENIED; Milestone.WITHDRAWN]);
    (Milestone.PROCESSING,
       [Milestone.SUBMITTED; Milestone.DENIED; Milestone.WITHDRAWN]);
    (Milestone.SUBMITTED,
       [Milestone.CONDITIONALLY_APPROVED; Milestone.DENIED; Milestone.WITHDRAWN]);
    (Milestone.CONDITIONALLY_APPROVED,
       [Milestone.APPROVED; Milestone.DENIED; Milestone.WITHDRAWN]);
    (Milestone.APPROVED, [Milestone.DOCS_OUT; Milestone.WITHDRAWN]);
    (Milestone.DOCS_OUT, [Milestone.DOCS_BACK; Milestone.WITHDRAWN]);
    (Milestone.DOCS_BACK, [Milestone.CLEAR_TO_CLOSE; Milestone.WITHDRAWN]);
    (Milestone.CLEAR_TO_CLOSE, [Milestone.CLOSING; Milestone.WITHDRAWN]);
    (Milestone.CLOSING, [Milestone.FUNDED; Milestone.WITHDRAWN]);
    (Milestone.FUNDED, [Milestone.COMPLETION]) ].

(** Tasks generated at each milestone: title, role, SLA hours. *)
Definition MILESTONE_TASKS : list (Milestone.t * list (string * string * Z)) :=
  [ (Milestone.STARTED,
       [ ("Verify borrower identity", "PROCESSOR", 24);
         ("Order credit report", "PROCESSOR", 4);
         ("Collect income documentation", "PROCESSOR", 48) ]);
    (Milestone.APPLICATION,
       [ ("Review application completeness", "PROCESSOR", 24);
         ("Order AVM", "PROCESSOR", 4);
         ("Calculate DSCR", "PROCESSOR", 8) ]);
    (Milestone.PRE_APPROVED,
       [ ("Order appraisal", "PROCESSOR", 24);
         ("Order title", "PROCESSOR", 24);
         ("Send pre-approval letter", "LOAN_OFFICER", 4) ]);
    (Milestone.PROCESSING,
       [ ("Review appraisal", "UNDERWRITER", 24);
         ("Verify rent schedule", "PROCESSOR", 24);
         ("Clear conditions", "PROCESSOR", 72) ]);
    (Milestone.CONDITIONALLY_APPROVED,
       [ ("Review conditions", "UNDERWRITER", 24);
         ("Verify condition clearance", "UNDERWRITER", 24) ]);
    (Milestone.APPROVED,
       [ ("Prepare closing disclosure", "CLOSER", 24);
         ("Schedule closing", "CLOSER", 48) ]);
    (Milestone.DOCS_OUT,
       [ ("Send documents for signing", "CLOSER", 24);
         ("Confirm signing appointment", "CLOSER", 24) ]);
    (Milestone.CLEAR_TO_CLOSE,
       [ ("Final review", "CLOSER", 8);
         ("Wire funds", "CLOSER", 24) ]) ].

(** [table.get(m, default)] on a dict keyed by milestone. *)
Fixpoint milestone_get {A : Type} (table : list (Milestone.t * A)) (m : Milestone.t)
    (default : A) : A :=
  match table with
  | [] => default
  | (k, v) :: rest => if Milestone.eqb k m then v else milestone_get rest m default
  end.

(** [m in ms] *)
Definition milestone_in (m : Milestone.t) (ms : list Milestone.t) : bool :=
  existsb (Milestone.eqb m) ms.

(** A dict keyed by application id, as its items. *)
Definition store (A : Type) : Type := list (string * list A).

(** [key in d] *)
Definition contains {A : Type} (d : store A) (key : string) : bool :=
  existsb (fun kv => String.eqb (fst kv) key) d.

(** [d.get(key, [])] *)
Fixpoint get {A : Type} (d : store A) (key : string) : list A :=
  match d with
  | [] => []
  | (k, v) :: rest => if String.eqb k key then v else get rest key
  end.

(** [d[key] = v]: the value of an existing key is replaced, a new key is
    added last. *)
Fixpoint assign {A : Type} (d : store A) (key : string) (v : list A) : store A :=
  match d with
  | [] => [(key, v)]
  | (k, v0) :: rest =>
      if String.eqb k key then (k, v) :: rest else (k, v0) :: assign rest key v
  end.

(** [if key not in d: d[key] = []], then [d[key].append(x)]. *)
Definition append_to {A : Type} (d : store A) (key : string) (x : A) : store A :=
  let d := if contains d key then d else assign d key [] in
  assign d key (get d key ++ [x]).

(** The engine's in-memory storage. *)
Record WorkflowEngine : Type := {
  _transitions : store MilestoneTransition;
  _tasks : store Task
}.

Definition __init__ : WorkflowEngine := {| _transitions := []; _tasks := [] |}.

(** [timedelta(hours=h)] in microseconds. *)
Definition hours (h : Z) : Z := h * 3600000000.

(** Generate tasks for a milestone.  Each task draws an id, reads the clock
    for its due date and reads it again for its [created_at] default. *)
Definition _generate_milestone_tasks (self : WorkflowEngine) (application_id : string)
    (milestone : Milestone.t) (w : World) : WorkflowEngine * World :=
  let task_templates := milestone_get MILESTONE_TASKS milestone [] in
  let tasks :=
    if contains (_tasks self) application_id then _tasks self
    else assign (_tasks self) application_id [] in
  let '(tasks, w) :=
    fold_left
      (fun '(tasks, w) '(title, role, sla_hours) =>
         let '(new_id, w) := uuid4 w in
         let '(now, w) := utcnow w in
         let '(created, w) := utcnow w in
         let task :=
           {| id := new_id;
              application_id := application_id;
              title := title;
              description := [Lit "Task for "; Lit (Milestone.value milestone);
                              Lit " milestone"];
              status := TaskStatus.PENDING;
              priority := TaskPriority.MEDIUM;
              assigned_role := role;
              assigned_user_id := None;
              due_at := Some (now + hours sla_hours);
              sla_hours := Some sla_hours;
              completed_at := None;
              created_at := created |} in
         (assign tasks application_id (get tasks application_id ++ [task]), w))
      task_templates (tasks, w) in
  ({| _transitions := _transitions self; _tasks := tasks |}, w).

(** Record a milestone transition.  The engine is returned with the outcome:
    a refused transition raises before anything is stored. *)
Definition transition (self : WorkflowEngine) (application_id : string)
    (from_milestone : option Milestone.t) (to_milestone : Milestone.t)
    (transitioned_by : string) (reason : option string) (w : World)
    : result MilestoneTransition * WorkflowEngine * World :=
  (* Validate transition; a milestone is a non-empty string, hence truthy *)
  let refused :=
    match from_milestone with
    | Some m =>
        let valid_next := milestone_get VALID_TRANSITIONS m [] in
        negb (milestone_in to_milestone valid_next)
    | None => false
    end in
  if refused then (Raise ValueError, self, w)
  else
    let '(new_id, w) := uuid4 w in
    let '(now, w) := utcnow w in
    let transition :=
      {| tr_id := new_id;
         tr_application_id := application_id;
         from_milestone := from_milestone;
         to_milestone := to_milestone;
         transitioned_at := now;
         transitioned_by := transitioned_by;
         reason := reason;
         metadata := [] |} in
    (* Store transition *)
    let self :=
      {| _transitions := append_to (_transitions self) application_id transition;
         _tasks := _tasks self |} in
    (* Generate tasks for new milestone *)
    let '(self, w) := _generate_milestone_tasks self application_id to_milestone w in
    (Ok transition, self, w).

(** The first task with the given id marked complete at [now], with the list
    it was changed in. *)
Fixpoint complete_first (tasks : list Task) (task_id : string) (now : Z)
    : option (Task * list Task) :=
  match tasks with
  | [] => None
  | task :: rest =>
      if String.eqb (id task) task_id then
        let task :=
          {| id := id task;
             application_id := application_id task;
             title := title task;
             description := description task;
             status := TaskStatus.COMPLETED;
             priority := priority task;
             assigned_role := assigned_role task;
             assigned_user_id := assigned_user_id task;
             due_at := due_at task;
             sla_hours := sla_hours task;
             completed_at := Some now;
             created_at := created_at task |} in
        Some (task, task :: rest)
      else
        match complete_first rest task_id now with
        | Some (done, rest) => Some (done, task :: rest)
        | None => None
        end
  end.

(** Mark a task as complete.  The clock is read only when the task is found;
    the task is changed in place, in the list the engine holds. *)
Definition complete_task (self : WorkflowEngine) (application_id : string)
    (task_id : string) (w : World) : option Task * WorkflowEngine * World :=
  let tasks := get (_tasks self) application_id in
  if existsb (fun task => String.eqb (id task) task_id) tasks then
    let '(now, w) := utcnow w in
    match complete_first tasks task_id now with
    | Some (task, tasks) =>
        (Some task,
         {| _transitions := _transitions self;
            _tasks := assign (_tasks self) application_id tasks |}, w)
    | None => (None, self, w)
    end
  else (None, self, w).

(** Get all tasks for an application. *)
Definition get_tasks (self : WorkflowEngine) (application_id : string) : list Task :=
  get (_tasks self) application_id.

(** [t.status in [TaskStatus.PENDING, TaskStatus.IN_PROGRESS]] *)
Definition is_pending (t : Task) : bool :=
  existsb (TaskStatus.eqb (status t)) [TaskStatus.PENDING; TaskStatus.IN_PROGRESS].

(** Get current workflow state. *)
Definition get_state (self : WorkflowEngine) (application_id : string)
    (current_milestone : Milestone.t) (w : World) : result WorkflowState * World :=
  let transitions := get (_transitions self) application_id in
  let tasks := get (_tasks self) application_id in
  (* Find when we entered current milestone *)
  let '(entered_at, w) := utcnow w in
  let entered_at :=
    match find (fun t => Milestone.eqb (to_milestone t) current_milestone)
               (rev transitions) with
    | Some t => transitioned_at t
    | None => entered_at
    end in
  let '(now, w) := utcnow w in
  (seconds <- int_truediv (now - entered_at) 1000000 ;;
   day <- float_of_int 86400 ;;
   days_in_milestone <- float_truediv seconds day ;;
   (* Get SLA status *)
   let sla_hours := milestone_get MILESTONE_SLA current_milestone 48 in
   sla_status <-
     (if Py.ltb (Int sla_hours) (Float (days_in_milestone * 24)%float) then Ok "BREACHED"
      else
        at_risk <- int_mul sla_hours (Float 0.75) ;;
        if Py.ltb at_risk (Float (days_in_milestone * 24)%float) then Ok "AT_RISK"
        else Ok "ON_TRACK") ;;
   (* Get pending/completed tasks *)
   let pending_tasks := filter is_pending tasks in
   let completed_tasks :=
     filter (fun t => TaskStatus.eqb (status t) TaskStatus.COMPLETED) tasks in
   (* Get valid next milestones *)
   let next_milestones := milestone_get VALID_TRANSITIONS current_milestone [] in
   (* Identify blockers *)
   let blockers :=
     match pending_tasks with
     | _ :: _ => [[Str (Int (Z.of_nat (List.length pending_tasks))); Lit " pending tasks"]]
     | [] => []
     end in
   rounded <- round_ days_in_milestone 2 ;;
   Ok {| st_application_id := application_id;
         current_milestone := current_milestone;
         entered_milestone_at := entered_at;
         days_in_milestone := rounded;
         pending_tasks := pending_tasks;
         completed_tasks := completed_tasks;
         sla_status := sla_status;
         next_milestones := next_milestones;
         blockers := blockers |}, w).

(** The module's singleton, as created. *)
Definition workflow_engine : WorkflowEngine := __init__.

End Workflow.

(** ** valuation.py: reconciling an AVM value with an appraisal *)

Module Valuation.
Import Py.

(** The dict returned for a non-zero appraisal, one field per key. *)
Record Reconciliation : Type := {
  reconciled : bool;
  avm_value : Z;
  appraisal_value : Z;
  variance_pct : float;
  variance_direction : string;
  within_tolerance : bool;
  recommended_value : Z
}.

(** The two shapes of the returned dict. *)
Inductive Reconciled : Type :=
  | Failed (reconciled : bool) (error : string)
  | Report (r : Reconciliation).

(** Reconcile AVM and appraisal values; [tolerance] defaults to 0.10. *)
Definition reconcile_values (avm_value appraisal_value : Z) (tolerance : option float)
    : result Reconciled :=
  let tolerance := obj_or tolerance 0.10%float in
  if appraisal_value =? 0 then Ok (Failed false "Appraisal value is zero")
  else
    variance <- int_truediv (avm_value - appraisal_value) appraisal_value ;;
    let variance_pct := abs (variance * 100)%float in
    rounded <- round_ variance_pct 2 ;;
    Ok (Report
          {| reconciled := PrimFloat.leb variance_pct (tolerance * 100)%float;
             avm_value := avm_value;
             appraisal_value := appraisal_value;
             variance_pct := rounded;
             variance_direction :=
               if Py.ltb (Int 0) (Float variance) then "over" else "under";
             within_tolerance := PrimFloat.leb variance_pct (tolerance * 100)%float;
             recommended_value := appraisal_value |}).

End Valuation.


(** ** Vocabulary of the properties, and example inputs *)

Section PricingVocabulary.
Import Py Pricing.

(** The integers [lo, lo + n). *)
Definition Zrange (lo : Z) (n : nat) : list Z :=
  map (fun i => lo + Z.of_nat i) (seq 0 n).

(** The points added to the base rate and the rounding of the final rate
    both return, for one tier and one total of basis points. *)
Definition rate_returns (tier : RiskTier.t) (total : Z) : bool :=
  match int_truediv total 100 with
  | Ok points => returns (round_ (BASE_RATES tier + points)%float 3)
  | Raise _ => false
  end.

Definition all_tiers : list RiskTier.t :=
  [RiskTier.EXCELLENT; RiskTier.GOOD; RiskTier.ACCEPTABLE; RiskTier.MARGINAL;
   RiskTier.HIGH_RISK].

(** *** The pricing run in closed form *)
(** The ineligibility reasons of an input whose credit score is rendered. *)
Definition reasons_of (input : PricingInput) : list fstring :=
  append_if (PrimFloat.ltb (dscr input) MIN_DSCR)
    (append_if (Py.ltb (Int MAX_LTV) (Float (ltv input)))
       (append_if (credit_score input <? MIN_CREDIT_SCORE) []
          [Lit "Credit score "; Str (Int (credit_score input));
           Lit " below minimum "; Str (Int MIN_CREDIT_SCORE)])
       [Lit "LTV "; Str (Float (ltv input)); Lit "% exceeds maximum ";
        Str (Int MAX_LTV); Lit "%"])
    [Lit "DSCR "; Str (Float (dscr input)); Lit " below minimum ";
     Str (Float MIN_DSCR)].

(** The adjustments of an input whose credit score is rendered. *)
Definition adjustments_of (input : PricingInput) : list PricingAdjustment :=
  let adjustments :=
    append_if (negb (_get_ltv_adjustment (ltv input) =? 0))
      (append_if (negb (_get_dscr_adjustment (dscr input) =? 0)) []
         {| factor := "DSCR"; adjustment_bps := _get_dscr_adjustment (dscr input);
            reason := [Lit "DSCR of "; Fixed 2 (dscr input)] |})
      {| factor := "LTV"; adjustment_bps := _get_ltv_adjustment (ltv input);
         reason := [Lit "LTV of "; Fixed 1 (ltv input); Lit "%"] |} in
  let adjustments :=
    match _get_credit_adjustment (credit_score input) with
    | Some credit_adj =>
        append_if (negb (credit_adj =? 0)) adjustments
          {| factor := "Credit Score"; adjustment_bps := credit_adj;
             reason := [Lit "Credit score of "; Str (Int (credit_score input))] |}
    | None => adjustments
    end in
  append_if (is_cash_out input)
    (append_if (negb (dict_get PROPERTY_TYPE_ADJUSTMENTS (property_type input) 50 =? 0))
       adjustments
       {| factor := "Property Type";
          adjustment_bps := dict_get PROPERTY_TYPE_ADJUSTMENTS (property_type input) 50;
          reason := [Lit "Property type: "; Lit (property_type input)] |})
    {| factor := "Cash Out"; adjustment_bps := 50;
       reason := [Lit "Cash-out refinance"] |}.

End PricingVocabulary.

Section DecisionVocabulary.
Import Py Rules Pricing Decision.

(** *** The decision service *)
(** The pricing result the decision service works with: computed when an
    input is supplied. *)
Definition pricing_of (pricing_input : option PricingInput) : option PricingResult :=
  match pricing_input with
  | Some input =>
      match calculate_pricing input with
      | Ok p => Some p
      | Raise _ => None
      end
  | None => None
  end.

(** The credit score of the pricing input, when one is supplied, has at most
    4300 digits: the pricing engine can render it. *)
Definition renders (pricing_input : option PricingInput) : bool :=
  match pricing_input with
  | Some input => within_str_digits (Pricing.credit_score input)
  | None => true
  end.

(** The resolution order in the spec's words: the first condition that holds
    decides. *)
Definition first_match (hard_stop ineligible exception high_risk : bool)
    : DecisionType.t * DecisionReason.t :=
  if hard_stop then (DecisionType.DECLINED, DecisionReason.HARD_STOP_VIOLATION)
  else if ineligible then (DecisionType.DECLINED, DecisionReason.PRICING_INELIGIBLE)
  else if exception then (DecisionType.REFERRED, DecisionReason.EXCEPTION_REQUIRED)
  else if high_risk then (DecisionType.REFERRED, DecisionReason.HIGH_RISK)
  else (DecisionType.CONDITIONALLY_APPROVED, DecisionReason.MEETS_GUIDELINES).

(** Pricing was computed and found the loan ineligible. *)
Definition priced_ineligible (pricing : option PricingResult) : bool :=
  match pricing with
  | Some p => negb (eligible p)
  | None => false
  end.

(** Pricing was computed and put the loan in the HIGH_RISK tier. *)
Definition priced_high_risk (pricing : option PricingResult) : bool :=
  match pricing with
  | Some {| risk_tier := RiskTier.HIGH_RISK |} => true
  | _ => false
  end.

End DecisionVocabulary.

Section CalculatorVocabulary.
Import Py DSCR.

Definition severity_eqb (a b : WarningSeverity) : bool :=
  match a, b with
  | INFO, INFO | WARNING, WARNING | ERROR, ERROR => true
  | _, _ => false
  end.

(** A warning with the given code and severity is in the list. *)
Definition has_warning (c : string) (s : WarningSeverity) (ws : list DSCRWarning) : bool :=
  existsb (fun w => String.eqb (code w) c && severity_eqb (severity w) s) ws.

(** A warning with the given code is in the list, whatever its severity. *)
Definition has_code (c : string) (ws : list DSCRWarning) : bool :=
  existsb (fun w => String.eqb (code w) c) ws.

(** The income the expense ratio is taken over: effective rent plus other
    income, as [calculate] adds them. *)
Definition total_gross_income_of (r : DSCRCalculationResult) : Z :=
  amount (effective_gross_rent (income r))
  + amount (obj_or (income_other_income (income r)) (Money_ 0)).

(** The four components the calculator's expense check adds up. *)
Definition operating_expenses_of (e : DSCRExpenseBreakdown) : Z :=
  amount (property_tax_monthly e) + amount (insurance_monthly e)
  + amount (hoa_monthly e) + amount (management_fee_monthly e).

(** The binary64 ratio [a / b] exceeds one half. *)
Definition ratio_exceeds_half (a b : Z) : bool :=
  match int_truediv a b with
  | Ok ratio => PrimFloat.ltb 0.5 ratio
  | Raise _ => false
  end.

(** Two runs of the process: different random draws and clock readings. *)
Definition world_a : World :=
  {| entropy := fun _ => "11111111-1111-4111-8111-111111111111"; drawn := 0;
     clock := fun _ => 1700000000; read := 0 |}.

Definition world_b : World :=
  {| entropy := fun _ => "22222222-2222-4222-8222-222222222222"; drawn := 0;
     clock := fun _ => 1700000060; read := 0 |}.

(** An input with a stated monthly rent, optional vacancy rate, annual tax and
    insurance, monthly flood insurance and other expenses, and the loan terms;
    every other field at its default. *)
Definition stated_rent_input (rent : Z) (vacancy : option float)
    (tax insurance flood other : option Z)
    (loan : Z) (rate : float) (term : Z) (io_months : option Z) : DSCRCalculationInput :=
  {| application_id := "app-1";
     property_id := "prop-1";
     gross_monthly_rent := Some (Money_ rent);
     rent_roll := None;
     vacancy_rate := vacancy;
     other_income := None;
     annual_property_tax := option_map Money_ tax;
     annual_insurance := option_map Money_ insurance;
     monthly_hoa := None;
     management_fee_rate := None;
     monthly_flood_insurance := option_map Money_ flood;
     other_monthly_expenses := option_map Money_ other;
     loan_amount := Money_ loan;
     interest_rate := rate;
     term_months := term;
     interest_only_months := io_months;
     is_short_term_rental := false;
     str_annualized_income := None |}.

(** [DSCRCalculationInput(..., gross_monthly_rent=m)] with every other field
    of [i] kept. *)
Definition with_gross_monthly_rent (i : DSCRCalculationInput) (m : Money)
    : DSCRCalculationInput :=
  {| application_id := application_id i;
     property_id := property_id i;
     gross_monthly_rent := Some m;
     rent_roll := rent_roll i;
     vacancy_rate := vacancy_rate i;
     other_income := other_income i;
     annual_property_tax := annual_property_tax i;
     annual_insurance := annual_insurance i;
     monthly_hoa := monthly_hoa i;
     management_fee_rate := management_fee_rate i;
     monthly_flood_insurance := monthly_flood_insurance i;
     other_monthly_expenses := other_monthly_expenses i;
     loan_amount := loan_amount i;
     interest_rate := interest_rate i;
     term_months := term_months i;
     interest_only_months := interest_only_months i;
     is_short_term_rental := is_short_term_rental i;
     str_annualized_income := str_annualized_income i |}.

(** $3,500 rent, 5% vacancy, $7,200 tax, $1,800 insurance, $1,500 a month of
    flood insurance, a $450,000 interest-only loan at 7.25%. *)
Definition flood_heavy_input : DSCRCalculationInput :=
  stated_rent_input 350000 (Some 0.05%float) (Some 720000) (Some 180000)
    (Some 150000) None 45000000 0.0725 360 (Some 120).

(** The same property with $48,000 of annual tax and no flood insurance. *)
Definition tax_heavy_input : DSCRCalculationInput :=
  stated_rent_input 350000 (Some 0.05%float) (Some 4800000) (Some 180000)
    None None 45000000 0.0725 360 (Some 120).

(** The run of [calculate] on [tax_heavy_input] in [world_a], evaluated. *)
Definition tax_heavy_run : result (DSCRCalculationResult * World) :=
  Eval vm_compute in calculate tax_heavy_input world_a.

(** No loan and no tax, insurance or dues: the debt service is zero. *)
Definition debt_free_input : DSCRCalculationInput :=
  stated_rent_input 100000 None None None None None 0 0 360 None.

(** The same with a vacancy rate that is not a number. *)
Definition nan_vacancy_input : DSCRCalculationInput :=
  stated_rent_input 100000 (Some nan) None None None None 0 0 360 None.

End CalculatorVocabulary.

Section RulesVocabulary.
Import Py Rules.

(** The rule evaluated without a verdict: its check or its message raised. *)
Definition produced_verdict (loan_data : LoanData) (rule : Rule.t) : bool :=
  negb (has_status RuleStatus.NOT_APPLICABLE (_evaluate_rule rule loan_data)).

(** The engine whose table keeps only the rules that produce a verdict on
    [loan_data]. *)
Definition verdicts_only (engine : RulesEngine) (loan_data : LoanData) : RulesEngine :=
  {| rules := filter (produced_verdict loan_data) (rules engine) |}.

(** An overlay rule: at least $50,000 of loan per unit.  Its check divides by
    the unit count. *)
Definition per_unit_rule : Rule.t :=
  {| Rule.id := "OVERLAY-001";
     Rule.name := "Minimum Loan Per Unit";
     Rule.category := RuleCategory.ELIGIBILITY;
     Rule.severity := RuleSeverity.HARD_STOP;
     Rule.check := fun d =>
       per_unit <- int_truediv (loan_amount d) (units d) ;;
       Ok (PrimFloat.leb 5000000 per_unit);
     Rule.message := fun d p =>
       Ok [Lit "Loan per unit "; pick p "meets" "does not meet"; Lit " the minimum"] |}.

Definition overlay_engine : RulesEngine :=
  {| rules := _init_rules ++ [per_unit_rule] |}.

(** A $200,000 single-family purchase loan with the given DSCR, LTV and
    credit score and every other fact passing. *)
Definition loan_facts (dscr ltv : float) (credit_score units : Z) : LoanData :=
  {| application_id := "app-1";
     dscr := dscr;
     ltv := ltv;
     cltv := ltv;
     credit_score := credit_score;
     property_type := "SFR";
     property_state := "TX";
     loan_amount := 20000000;
     loan_purpose := "PURCHASE";
     occupancy_type := "INVESTMENT";
     units := units;
     is_rural := false;
     months_reserves := 12;
     prior_bankruptcies := 0;
     prior_foreclosures := 0;
     current_delinquencies := 0 |}.

(** What the try block of [_evaluate_rule] raises on a rule, if anything: the
    exception of the check or, when the check returns, that of the message. *)
Definition raised (rule : Rule.t) (loan_data : LoanData) : option exc :=
  match Rule.check rule loan_data with
  | Raise e => Some e
  | Ok passed =>
      match Rule.message rule loan_data passed with
      | Raise e => Some e
      | Ok _ => None
      end
  end.

(** The status of a rule whose check returned [passed]. *)
Definition verdict (severity : RuleSeverity.t) (passed : bool) : RuleStatus.t :=
  if passed then RuleStatus.PASS
  else if RuleSeverity.eqb severity RuleSeverity.WARNING then RuleStatus.WARNING
  else RuleStatus.FAIL.

(** A borrower whose count of prior bankruptcies has more than 4300 digits,
    every other fact passing. *)
Definition countless_bankruptcies : LoanData :=
  {| application_id := "app-1";
     dscr := 1.3;
     ltv := 70;
     cltv := 70;
     credit_score := 720;
     property_type := "SFR";
     property_state := "TX";
     loan_amount := 20000000;
     loan_purpose := "PURCHASE";
     occupancy_type := "INVESTMENT";
     units := 1;
     is_rural := false;
     months_reserves := 12;
     prior_bankruptcies := 2 ^ 14290;
     prior_foreclosures := 0;
     current_delinquencies := 0 |}.

End RulesVocabulary.

Section RunsVocabulary.
Import Py.

(** A DSCR result with its drawn id and its timestamp blanked. *)
Definition dscr_unstamped (r : DSCR.DSCRCalculationResult) : DSCR.DSCRCalculationResult :=
  {| DSCR.id := "";
     DSCR.res_application_id := DSCR.res_application_id r;
     DSCR.res_property_id := DSCR.res_property_id r;
     DSCR.income := DSCR.income r;
     DSCR.expenses := DSCR.expenses r;
     DSCR.noi := DSCR.noi r;
     DSCR.debt_service := DSCR.debt_service r;
     DSCR.dscr_ratio := DSCR.dscr_ratio r;
     DSCR.calculated_at := 0;
     DSCR.calculator_version := DSCR.calculator_version r;
     DSCR.inputs := DSCR.inputs r;
     DSCR.formula := DSCR.formula r;
     DSCR.warnings := DSCR.warnings r;
     DSCR.meets_minimum := DSCR.meets_minimum r;
     DSCR.minimum_required := DSCR.minimum_required r |}.

(** A rules evaluation with its drawn id and its timestamp blanked. *)
Definition rules_unstamped (r : Rules.RulesEvaluationResult) : Rules.RulesEvaluationResult :=
  {| Rules.id := "";
     Rules.res_application_id := Rules.res_application_id r;
     Rules.evaluated_at := 0;
     Rules.overall_status := Rules.overall_status r;
     Rules.rule_results := Rules.rule_results r;
     Rules.hard_stops := Rules.hard_stops r;
     Rules.exceptions_required := Rules.exceptions_required r;
     Rules.warnings := Rules.warnings r;
     Rules.passed_count := Rules.passed_count r;
     Rules.failed_count := Rules.failed_count r;
     Rules.warning_count := Rules.warning_count r |}.

Definition condition_unstamped (c : Decision.Condition) : Decision.Condition :=
  {| Decision.cond_id := "";
     Decision.cond_category := Decision.cond_category c;
     Decision.description := Decision.description c;
     Decision.required := Decision.required c;
     Decision.source := Decision.source c |}.

(** A decision with every drawn id (its own, its conditions', the rules
    evaluation's) and its timestamp blanked. *)
Definition decision_unstamped (d : Decision.DecisionResult) : Decision.DecisionResult :=
  {| Decision.id := "";
     Decision.res_application_id := Decision.res_application_id d;
     Decision.decision_type := Decision.decision_type d;
     Decision.decision_reason := Decision.decision_reason d;
     Decision.decided_at := 0;
     Decision.rules_passed := Decision.rules_passed d;
     Decision.n_hard_stops := Decision.n_hard_stops d;
     Decision.n_exceptions_required := Decision.n_exceptions_required d;
     Decision.n_warnings := Decision.n_warnings d;
     Decision.pricing := Decision.pricing d;
     Decision.res_final_rate := Decision.res_final_rate d;
     Decision.eligible_for_pricing := Decision.eligible_for_pricing d;
     Decision.conditions := map condition_unstamped (Decision.conditions d);
     Decision.res_details :=
       {| Decision.rules_evaluation_id := "";
          Decision.passed_rules := Decision.passed_rules (Decision.res_details d);
          Decision.failed_rules := Decision.failed_rules (Decision.res_details d) |};
     Decision.notes := Decision.notes d |}.

End RunsVocabulary.

Section EvaluationsVocabulary.
Import Py.

(** $3,500 rent, 5% vacancy, $7,200 tax, $1,800 insurance, $500 a month of
    other expenses, a $240,000 interest-only loan at 6%. *)
Definition other_expenses_input : DSCR.DSCRCalculationInput :=
  stated_rent_input 350000 (Some 0.05%float) (Some 720000) (Some 180000)
    None (Some 50000) 24000000 0.06 360 (Some 120).

(** A $360,000 amortizing loan over 360 months at the given annual rate, with
    $7,200 tax and $1,800 insurance. *)
Definition amortizing_input (rate : float) : DSCR.DSCRCalculationInput :=
  stated_rent_input 350000 (Some 0.05%float) (Some 720000) (Some 180000)
    None None 36000000 rate 360 None.

(** A single-family purchase priced at the given DSCR, 70% LTV, credit 720. *)
Definition pricing_facts (dscr : float) : Pricing.PricingInput :=
  {| Pricing.dscr := dscr;
     Pricing.ltv := 70;
     Pricing.credit_score := 720;
     Pricing.property_type := "SFR";
     Pricing.loan_amount := 20000000;
     Pricing.loan_purpose := "PURCHASE";
     Pricing.state := "TX";
     Pricing.is_cash_out := false |}.

(** The total PITIA of the debt service, when it is computed. *)
Definition pitia_of (input : DSCR.DSCRCalculationInput) : option Z :=
  match DSCR._calculate_debt_service input with
  | Ok ds => Some (DSCR.amount (DSCR.total_pitia ds))
  | Raise _ => None
  end.

(** The factors of the adjustments a pricing run records, with its total. *)
Definition priced_factors (input : Pricing.PricingInput) : option (list (string * Z) * Z) :=
  match Pricing.calculate_pricing input with
  | Ok p => Some (map (fun a => (Pricing.factor a, Pricing.adjustment_bps a))
                      (Pricing.adjustments p),
                  Pricing.total_adjustment_bps p)
  | Raise _ => None
  end.

(** A pricing input whose credit score has more than 4300 digits. *)
Definition unrenderable_pricing : Pricing.PricingInput :=
  {| Pricing.dscr := 1.3;
     Pricing.ltv := 70;
     Pricing.credit_score := 2 ^ 14290;
     Pricing.property_type := "SFR";
     Pricing.loan_amount := 20000000;
     Pricing.loan_purpose := "PURCHASE";
     Pricing.state := "TX";
     Pricing.is_cash_out := false |}.

End EvaluationsVocabulary.

Section OffersVocabulary.
Import Py Rules Pricing Decision.

(** The final rate of one tier and one total of basis points is computed and
    lies between 5.75 and 14. *)
Definition rate_within (tier : RiskTier.t) (total : Z) : bool :=
  match int_truediv total 100 with
  | Ok points =>
      match round_ (BASE_RATES tier + points)%float 3 with
      | Ok rate => PrimFloat.leb 5.75 rate && PrimFloat.leb rate 14
      | Raise _ => false
      end
  | Raise _ => false
  end.

(** The pricing input that repeats the DSCR, LTV and credit score of the
    loan data. *)
Definition mirrors (pricing_input : PricingInput) (loan_data : LoanData) : Prop :=
  Pricing.dscr pricing_input = Rules.dscr loan_data /\
  Pricing.ltv pricing_input = Rules.ltv loan_data /\
  Pricing.credit_score pricing_input = Rules.credit_score loan_data.

(** The number of standard conditions: seven, and the rent roll for a
    property of several units. *)
Definition standard_conditions (loan_data : LoanData) : nat :=
  if 1 <? units loan_data then 8%nat else 7%nat.

(** The identifiers a decision carries: that of the rules evaluation, those of
    the conditions, its own. *)
Definition decision_ids (d : DecisionResult) : list string :=
  rules_evaluation_id (res_details d) :: map cond_id (conditions d) ++ [Decision.id d].

End OffersVocabulary.

Section VerdictsVocabulary.
Import Py Rules.

(** A failed rule of severity INFO: it is counted as failed and listed
    nowhere. *)
Definition is_failed_info (r : RuleResult) : bool :=
  RuleStatus.eqb (status r) RuleStatus.FAIL
  && RuleSeverity.eqb (severity r) RuleSeverity.INFO.

(** The results that are NOT_APPLICABLE. *)
Definition not_applicable (rr : RulesEvaluationResult) : list RuleResult :=
  filter (has_status RuleStatus.NOT_APPLICABLE) (rule_results rr).

(** The loan amount in dollars can be formatted: its quotient by 100 is a
    float. *)
Definition formattable (loan_data : LoanData) : bool :=
  returns (int_truediv (loan_amount loan_data) 100).

(** The number of rules lost when a number their message shows cannot be
    shown. *)
Definition lost (shown : bool) (rules : Z) : Z := if shown then 0 else rules.

(** The rules of the static table whose message shows a number of the loan
    data. *)
Definition showing_rules : list string :=
  ["CREDIT-001"; "CREDIT-002"; "CREDIT-003"; "CREDIT-004"; "LOAN-001"; "LOAN-002";
   "RESERVE-001"].

(** A loan whose amount in cents is too large for a float, every other fact
    passing. *)
Definition oversized_loan : LoanData :=
  {| application_id := "app-1";
     dscr := 1.3;
     ltv := 70;
     cltv := 70;
     credit_score := 720;
     property_type := "SFR";
     property_state := "TX";
     loan_amount := 10 ^ 311;
     loan_purpose := "PURCHASE";
     occupancy_type := "INVESTMENT";
     units := 1;
     is_rural := false;
     months_reserves := 12;
     prior_bankruptcies := 0;
     prior_foreclosures := 0;
     current_delinquencies := 0 |}.

End VerdictsVocabulary.

Section SummariesVocabulary.
Import Py Rules Pricing Decision.

(** *** The conditions of a decision *)
(** The world after [n] more draws of an id. *)
Definition after_draws (w : World) (n : nat) : World :=
  {| entropy := entropy w; drawn := (n + drawn w)%nat; clock := clock w; read := read w |}.

End SummariesVocabulary.


(** ** Proof steps used below *)

Import Py.

(** Split a conjunction into its conjuncts, leaving each conjunct as stated. *)
Ltac conjuncts := repeat match goal with |- _ /\ _ => split end.

Ltac split_ifs :=
  repeat match goal with
         | |- context [if ?b then _ else _] => destruct b
         end.

(** Case analysis on the next step of a monadic computation in a hypothesis. *)
Ltac step_in H :=
  match type of H with
  | bind ?m _ = _ =>
      let E := fresh "E" in
      revert H; destruct m eqn:E; intros H; cbn [bind] in H; [|discriminate H]
  end.

(** The status of one rule of the table, by cases on its check, once the
    hypotheses say which of the numbers its message shows can be shown. *)
Ltac rule_status :=
  unfold Rules.has_status, Rules._evaluate_rule, Py.str_int;
  cbn -[Py.int_truediv Py.within_str_digits];
  repeat match goal with
         | H : ?l = _ |- context [?l] => rewrite H
         end;
  cbn -[Py.int_truediv Py.within_str_digits];
  repeat match goal with
         | |- context [if ?b then _ else _] => destruct b
         end;
  reflexivity.


(** ** Properties *)

Section PricingProperties.
Import Py Pricing.

Lemma dscr_adjustment_values : forall x,
  In (_get_dscr_adjustment x) [-25; 0; 25; 50; 125].
Proof.
  intros x. unfold _get_dscr_adjustment. simpl.
  split_ifs; simpl; tauto.
Qed.

Lemma ltv_adjustment_values : forall x,
  In (_get_ltv_adjustment x) [-25; 0; 25; 50; 100].
Proof.
  intros x. unfold _get_ltv_adjustment. simpl.
  split_ifs; simpl; tauto.
Qed.

Lemma credit_adjustment_values : forall s,
  In (_get_credit_adjustment s) [Some (-25); Some 0; Some 25; Some 50; Some 100; Some 150; None].
Proof.
  intros s. unfold _get_credit_adjustment. simpl.
  split_ifs; simpl; tauto.
Qed.

Lemma property_adjustment_values : forall s,
  In (dict_get PROPERTY_TYPE_ADJUSTMENTS s 50) [0; 25; 50; 75; 125].
Proof.
  intros s. simpl. split_ifs; simpl; tauto.
Qed.

Lemma sum_bps_snoc : forall xs x, sum_bps (xs ++ [x]) = sum_bps xs + adjustment_bps x.
Proof. intros. unfold sum_bps. rewrite fold_left_app. reflexivity. Qed.

Lemma sum_bps_append_if : forall c xs x,
  sum_bps (append_if c xs x) = sum_bps xs + (if c then adjustment_bps x else 0).
Proof.
  intros [] xs x; unfold append_if.
  - apply sum_bps_snoc.
  - lia.
Qed.

Lemma Zrange_In : forall lo n z, lo <= z < lo + Z.of_nat n -> In z (Zrange lo n).
Proof.
  intros lo n z H. unfold Zrange. apply in_map_iff.
  exists (Z.to_nat (z - lo)). split; [lia|]. apply in_seq. lia.
Qed.

Lemma rate_returns_in_range : forall tier total,
  -75 <= total <= 550 -> rate_returns tier total = true.
Proof.
  intros tier total H.
  assert (E : forallb (fun t => forallb (rate_returns t) (Zrange (-75) 626)) all_tiers = true)
    by (vm_compute; reflexivity).
  rewrite forallb_forall in E.
  assert (Ht : In tier all_tiers) by (destruct tier; simpl; tauto).
  specialize (E tier Ht). rewrite forallb_forall in E.
  apply E, Zrange_In. lia.
Qed.

Lemma total_adjustment_range : forall i (c1 c2 : bool) (c3 : Z -> bool) (c4 c5 : bool),
  let adj := _get_credit_adjustment (credit_score i) in
  -75 <=
  (if c1 then _get_dscr_adjustment (dscr i) else 0)
  + (if c2 then _get_ltv_adjustment (ltv i) else 0)
  + match adj with Some a => if c3 a then a else 0 | None => 0 end
  + (if c4 then dict_get PROPERTY_TYPE_ADJUSTMENTS (property_type i) 50 else 0)
  + (if c5 then 50 else 0) <= 550.
Proof.
  intros i c1 c2 c3 c4 c5 adj.
  pose proof (dscr_adjustment_values (dscr i)) as H1.
  pose proof (ltv_adjustment_values (ltv i)) as H2.
  pose proof (credit_adjustment_values (credit_score i)) as H3. fold adj in H3.
  pose proof (property_adjustment_values (property_type i)) as H4.
  unfold In in H1, H2, H3, H4.
  assert (-25 <= match adj with Some a => if c3 a then a else 0 | None => 0 end <= 150).
  { destruct adj as [a|]; [|lia]. destruct (c3 a); [|lia].
    repeat destruct H3 as [H3|H3]; try discriminate; try tauto; inversion H3; lia. }
  destruct c1, c2, c4, c5; lia.
Qed.

(** *** Rendering an int *)
Lemma str_int_ok : forall n,
  within_str_digits n = true -> str_int n = Ok (Str (Int n)).
Proof. intros n H. unfold str_int. rewrite H. reflexivity. Qed.

Lemma str_int_raise : forall n,
  within_str_digits n = false -> str_int n = Raise ValueError.
Proof. intros n H. unfold str_int. rewrite H. reflexivity. Qed.

(** An int that cannot be rendered is large: its absolute value is at least
    2^14284. *)
Lemma beyond_str_digits_large : forall n,
  within_str_digits n = false -> 1024 <= Z.abs n.
Proof.
  intros n H. unfold within_str_digits in H.
  destruct (Z.log2 (Z.abs n) <? 14284) eqn:B; [discriminate H|].
  apply Z.ltb_ge in B.
  assert (P : 0 < Z.abs n).
  { destruct (Z.abs n) eqn:A; try lia; cbn in B; lia. }
  pose proof (Z.log2_spec (Z.abs n) P) as [L _].
  assert (Q : 2 ^ 10 <= 2 ^ Z.log2 (Z.abs n)) by (apply Z.pow_le_mono_r; lia).
  change (2 ^ 10) with 1024 in Q. lia.
Qed.

Lemma calculate_pricing_rendered : forall input,
  within_str_digits (credit_score input) = true ->
  calculate_pricing input =
    (points <- int_truediv (sum_bps (adjustments_of input)) 100 ;;
     rounded <- round_ (BASE_RATES (_determine_risk_tier input) + points)%float 3 ;;
     Ok {| base_rate := BASE_RATES (_determine_risk_tier input);
           adjustments := adjustments_of input;
           total_adjustment_bps := sum_bps (adjustments_of input);
           final_rate := rounded;
           risk_tier := _determine_risk_tier input;
           eligible := len_is_zero (reasons_of input);
           ineligibility_reasons := reasons_of input |}).
Proof.
  intros input H. unfold calculate_pricing, adjustments_of, reasons_of.
  rewrite (str_int_ok _ H). unfold append_if.
  destruct (credit_score input <? MIN_CREDIT_SCORE); cbn [bind];
    (destruct (_get_credit_adjustment (credit_score input)) as [a|];
     [destruct (negb (a =? 0))|]; cbn [bind]; reflexivity).
Qed.

Lemma credit_adjustment_top : forall s,
  760 <= s -> _get_credit_adjustment s = Some (-25).
Proof.
  intros s H. unfold _get_credit_adjustment. cbn [CREDIT_ADJUSTMENTS first_band].
  replace (Py.leb (Int 760) (Int s)) with true by (symmetry; apply Z.leb_le; exact H).
  reflexivity.
Qed.

(** A credit score of more than 4300 digits cannot be rendered: the run raises
    ValueError, in the ineligibility reason when the score is negative, in the
    credit adjustment when it is positive. *)
Lemma calculate_pricing_raises : forall input,
  within_str_digits (credit_score input) = false ->
  calculate_pricing input = Raise ValueError.
Proof.
  intros input H. pose proof (beyond_str_digits_large _ H) as L.
  unfold calculate_pricing. rewrite (str_int_raise _ H).
  destruct (credit_score input <? MIN_CREDIT_SCORE) eqn:C; [reflexivity|].
  cbn [bind]. apply Z.ltb_ge in C. unfold MIN_CREDIT_SCORE in C.
  rewrite credit_adjustment_top by lia. reflexivity.
Qed.

Lemma adjustments_of_range : forall input, -75 <= sum_bps (adjustments_of input) <= 550.
Proof.
  intros input. unfold adjustments_of. cbv zeta. rewrite !sum_bps_append_if.
  pose proof (total_adjustment_range input
                  (negb (_get_dscr_adjustment (dscr input) =? 0))
                  (negb (_get_ltv_adjustment (ltv input) =? 0))
                  (fun a => negb (a =? 0))
                  (negb (dict_get PROPERTY_TYPE_ADJUSTMENTS (property_type input) 50 =? 0))
                  (is_cash_out input)) as T.
  cbv zeta in T.
  destruct (_get_credit_adjustment (credit_score input)) as [a|] eqn:E;
    rewrite !sum_bps_append_if; cbn [adjustment_bps];
    change (sum_bps []) with 0; lia.
Qed.

(** A run on a credit score that can be rendered returns. *)
Lemma calculate_pricing_returns : forall input,
  within_str_digits (credit_score input) = true ->
  exists p, calculate_pricing input = Ok p.
Proof.
  intros input H. rewrite (calculate_pricing_rendered _ H).
  pose proof (rate_returns_in_range (_determine_risk_tier input) _
                (adjustments_of_range input)) as Q.
  unfold rate_returns in Q.
  destruct (int_truediv (sum_bps (adjustments_of input)) 100) as [points|e]; [|discriminate].
  cbn [bind].
  destruct (round_ _ 3) as [r|e]; [|discriminate].
  eexists. reflexivity.
Qed.

End PricingProperties.

Section DecisionProperties.
Import Py Rules Pricing Decision.

(** *** The rules engine's aggregate *)
Lemma filter_cons_existsb : forall (A : Type) (f : A -> bool) (l : list A),
  existsb f l = match filter f l with [] => false | _ :: _ => true end.
Proof.
  intros A f l. induction l as [|a l IH]; simpl; [reflexivity|].
  destruct (f a); simpl; [reflexivity|exact IH].
Qed.

Lemma evaluate_rule_results : forall engine d w,
  rule_results (fst (Rules.evaluate engine d w))
  = map (fun rule => _evaluate_rule rule d) (rules engine).
Proof. reflexivity. Qed.

Lemma evaluate_hard_stops : forall engine d w,
  hard_stops (fst (Rules.evaluate engine d w))
  = filter is_hard_stop (rule_results (fst (Rules.evaluate engine d w))).
Proof. reflexivity. Qed.

Lemma evaluate_exceptions_required : forall engine d w,
  exceptions_required (fst (Rules.evaluate engine d w))
  = filter is_exception_required (rule_results (fst (Rules.evaluate engine d w))).
Proof. reflexivity. Qed.

Lemma evaluate_warnings : forall engine d w,
  Rules.warnings (fst (Rules.evaluate engine d w))
  = filter (has_status RuleStatus.WARNING) (rule_results (fst (Rules.evaluate engine d w))).
Proof. reflexivity. Qed.

Lemma evaluate_overall_status : forall engine d w,
  let rr := fst (Rules.evaluate engine d w) in
  overall_status rr =
    match hard_stops rr with
    | _ :: _ => RuleStatus.FAIL
    | [] => match exceptions_required rr with
            | _ :: _ => RuleStatus.WARNING
            | [] => RuleStatus.PASS
            end
    end.
Proof. reflexivity. Qed.

(** The pricing step of [evaluate]. *)
Lemma pricing_step : forall pricing_input,
  match pricing_input with
  | Some input => p <- calculate_pricing input ;; Ok (Some p)
  | None => Ok None
  end = if renders pricing_input then Ok (pricing_of pricing_input) else Raise ValueError.
Proof.
  intros [input|]; [|reflexivity]. unfold renders, pricing_of.
  destruct (within_str_digits (Pricing.credit_score input)) eqn:R.
  - destruct (calculate_pricing_returns input R) as [p Hp]. rewrite Hp. reflexivity.
  - rewrite (calculate_pricing_raises input R). reflexivity.
Qed.

(** [evaluate] raises exactly when the pricing engine cannot render the
    credit score. *)
Lemma evaluate_raises : forall loan_data pricing_input w,
  renders pricing_input = false ->
  Decision.evaluate loan_data pricing_input w = Raise ValueError.
Proof.
  intros loan_data pricing_input w R. unfold Decision.evaluate.
  destruct (Rules.evaluate rules_engine loan_data w) as [rr w1].
  rewrite pricing_step, R. reflexivity.
Qed.

Lemma evaluate_decision : forall loan_data pricing_input w,
  renders pricing_input = true ->
  exists d w',
    Decision.evaluate loan_data pricing_input w = Ok (d, w') /\
    pricing d = pricing_of pricing_input /\
    (decision_type d, decision_reason d) =
      let rr := fst (Rules.evaluate rules_engine loan_data w) in
      _determine_decision (overall_status rr) (hard_stops rr) (exceptions_required rr)
        (pricing_of pricing_input).
Proof.
  intros loan_data pricing_input w R. unfold Decision.evaluate.
  destruct (Rules.evaluate rules_engine loan_data w) as [rr w1].
  cbn [fst].
  rewrite pricing_step, R. cbn [bind].
  destruct (_determine_decision _ _ _ _) as [dt dr].
  destruct (_generate_conditions _ _ _ _) as [cs w2].
  destruct (uuid4 w2) as [i w3]. destruct (utcnow w3) as [t w4].
  eexists. eexists. split; [reflexivity|]. split; reflexivity.
Qed.

Lemma determine_decision_first_match : forall status results pricing,
  _determine_decision status (filter is_hard_stop results)
    (filter is_exception_required results) pricing
  = first_match (existsb is_hard_stop results) (priced_ineligible pricing)
      (existsb is_exception_required results) (priced_high_risk pricing).
Proof.
  intros status results pricing.
  rewrite (filter_cons_existsb _ is_hard_stop), (filter_cons_existsb _ is_exception_required).
  unfold _determine_decision, first_match.
  destruct (filter is_hard_stop results); [|reflexivity].
  fold (priced_ineligible pricing).
  destruct (priced_ineligible pricing); [reflexivity|].
  destruct (filter is_exception_required results); [|reflexivity].
  destruct pricing as [[? ? ? ? tier ? ?]|]; [|reflexivity].
  destruct tier; reflexivity.
Qed.

(** C1. For every LoanData and optional PricingInput: when a pricing input
    is supplied whose credit score has more than 4300 digits, the pricing
    engine raises ValueError rendering it and so does [evaluate]; in every
    other case [evaluate] returns, and its decision is the first match of: a
    failed HARD_STOP rule among the rule results gives DECLINED /
    HARD_STOP_VIOLATION; else pricing supplied and not eligible gives DECLINED
    / PRICING_INELIGIBLE; else a failed EXCEPTION_REQUIRED rule gives REFERRED
    / EXCEPTION_REQUIRED; else pricing computed with tier HIGH_RISK gives
    REFERRED / HIGH_RISK; else CONDITIONALLY_APPROVED / MEETS_GUIDELINES. *)
Theorem decision_is_ordered_first_match : forall loan_data pricing_input w,
  if renders pricing_input then
    exists d w',
      Decision.evaluate loan_data pricing_input w = Ok (d, w') /\
      pricing d = pricing_of pricing_input /\
      (decision_type d, decision_reason d) =
        let results := rule_results (fst (Rules.evaluate rules_engine loan_data w)) in
        first_match (existsb is_hard_stop results)
                    (priced_ineligible (pricing d))
                    (existsb is_exception_required results)
                    (priced_high_risk (pricing d))
  else Decision.evaluate loan_data pricing_input w = Raise ValueError.
Proof.
  intros loan_data pricing_input w.
  destruct (renders pricing_input) eqn:R; [|apply evaluate_raises; exact R].
  destruct (evaluate_decision loan_data pricing_input w R) as (d & w' & E & P & D).
  exists d, w'. split; [exact E|]. split; [exact P|].
  rewrite D, P. cbv zeta.
  rewrite evaluate_hard_stops, evaluate_exceptions_required.
  apply determine_decision_first_match.
Qed.

(** C10. For every LoanData and optional PricingInput, [evaluate] either
    raises ValueError, which it does exactly when a pricing input is supplied
    whose credit score has more than 4300 digits, or returns a decision whose
    type is DECLINED, REFERRED or CONDITIONALLY_APPROVED; APPROVED and
    SUSPENDED are never produced. *)
Theorem decision_type_is_one_of_three : forall loan_data pricing_input w,
  if renders pricing_input then
    exists d w',
      Decision.evaluate loan_data pricing_input w = Ok (d, w') /\
      In (decision_type d)
         [DecisionType.DECLINED; DecisionType.REFERRED;
          DecisionType.CONDITIONALLY_APPROVED] /\
      decision_type d <> DecisionType.APPROVED /\
      decision_type d <> DecisionType.SUSPENDED
  else Decision.evaluate loan_data pricing_input w = Raise ValueError.
Proof.
  intros loan_data pricing_input w.
  destruct (renders pricing_input) eqn:R; [|apply evaluate_raises; exact R].
  destruct (evaluate_decision loan_data pricing_input w R) as (d & w' & E & _ & D).
  exists d, w'. split; [exact E|].
  cbv zeta in D. revert D.
  generalize (overall_status (fst (Rules.evaluate rules_engine loan_data w))).
  generalize (hard_stops (fst (Rules.evaluate rules_engine loan_data w))).
  generalize (exceptions_required (fst (Rules.evaluate rules_engine loan_data w))).
  intros exceptions stops status. unfold _determine_decision.
  destruct stops; [|intros D; inversion D; simpl; intuition congruence].
  destruct (match pricing_of pricing_input with Some p => negb (eligible p) | None => false end);
    [intros D; inversion D; simpl; intuition congruence|].
  destruct exceptions; [|intros D; inversion D; simpl; intuition congruence].
  destruct (match pricing_of pricing_input with
            | Some p => (RiskTier.value (risk_tier p) =? "HIGH_RISK")%string
            | None => false end);
    intros D; inversion D; simpl; intuition congruence.
Qed.

End DecisionProperties.

Section CalculatorProperties.
Import Py DSCR.

Lemma multiply_money_int : forall a n,
  _multiply_money a (Int n) = Ok {| amount := amount a * n; currency := currency a |}.
Proof. reflexivity. Qed.

Lemma has_warning_app : forall c s ws1 ws2,
  has_warning c s (ws1 ++ ws2) = has_warning c s ws1 || has_warning c s ws2.
Proof. intros. apply existsb_app. Qed.

Lemma validate_result_keeps : forall c s ratio ws,
  c <> "BELOW_MINIMUM_DSCR"%string -> c <> "BELOW_PREFERRED_DSCR"%string ->
  c <> "UNUSUALLY_HIGH_DSCR"%string ->
  has_warning c s (_validate_result ratio ws) = has_warning c s ws.
Proof.
  intros c s ratio ws H1 H2 H3. unfold _validate_result.
  apply String.eqb_neq in H1, H2, H3. rewrite String.eqb_sym in H1, H2, H3.
  repeat match goal with
         | |- context [if ?b then _ else _] => destruct b
         end;
    rewrite ?has_warning_app; cbn [has_warning existsb code];
    rewrite ?H1, ?H2, ?H3; cbn [andb orb]; rewrite ?orb_false_r; reflexivity.
Qed.

Lemma gross_rent_keeps : forall c s input ws g ws',
  c <> "RENT_DISCREPANCY"%string -> c <> "NO_RENT_DATA"%string ->
  _calculate_gross_rent input ws = Ok (g, ws') ->
  has_warning c s ws' = has_warning c s ws.
Proof.
  intros c s input ws g ws' H1 H2 H. unfold _calculate_gross_rent in H.
  apply String.eqb_neq in H1, H2. rewrite String.eqb_sym in H1, H2.
  assert (K1 : forall m, has_warning c s
            (ws ++ [{| code := "RENT_DISCREPANCY"; message := m; severity := WARNING |}])
            = has_warning c s ws).
  { intros m. rewrite has_warning_app. cbn [has_warning existsb code].
    rewrite H1. cbn. apply orb_false_r. }
  assert (K2 : forall m, has_warning c s
            (ws ++ [{| code := "NO_RENT_DATA"; message := m; severity := ERROR |}])
            = has_warning c s ws).
  { intros m. rewrite has_warning_app. cbn [has_warning existsb code].
    rewrite H2. cbn. apply orb_false_r. }
  repeat match type of H with
         | match ?x with _ => _ end = _ => destruct x
         | (if ?b then _ else _) = _ => destruct b
         | bind ?m _ = _ => step_in H
         | Ok _ = Ok _ => inversion H; subst; clear H
         end; auto.
Qed.

Lemma calculate_expenses_warning : forall input total ws e ws',
  _calculate_expenses input total ws = Ok (e, ws') ->
  has_warning "HIGH_EXPENSE_RATIO" WARNING ws' =
    has_warning "HIGH_EXPENSE_RATIO" WARNING ws
    || ((0 <? amount total) && ratio_exceeds_half (operating_expenses_of e) (amount total)).
Proof.
  intros input total ws e ws' H. unfold _calculate_expenses in H.
  step_in H. step_in H. step_in H. step_in H.
  inversion H; subst; clear H.
  unfold operating_expenses_of, ratio_exceeds_half. cbn [property_tax_monthly insurance_monthly hoa_monthly management_fee_monthly].
  destruct (0 <? amount total); cbn [andb].
  - step_in E2.
    match type of E2 with
    | (if ?b then _ else _) = _ => destruct b; inversion E2; subst
    end.
    + rewrite has_warning_app. reflexivity.
    + rewrite orb_false_r. reflexivity.
  - inversion E2; subst. rewrite orb_false_r. reflexivity.
Qed.

Lemma calculate_steps : forall input w r w',
  calculate input w = Ok (r, w') ->
  exists gross ws1 eff exp ws2 ds ratio,
    _calculate_gross_rent input [] = Ok (gross, ws1) /\
    _apply_vacancy gross (float_or (vacancy_rate input) DEFAULT_VACANCY_RATE) = Ok eff /\
    _calculate_expenses input (_add_money eff (obj_or (other_income input) (Money_ 0))) ws1
      = Ok (exp, ws2) /\
    _calculate_debt_service input = Ok ds /\
    _calculate_ratio
      (_subtract_money (_add_money eff (obj_or (other_income input) (Money_ 0)))
         (total_expenses exp)) (total_pitia ds) = Ok ratio /\
    effective_gross_rent (income r) = eff /\
    income_other_income (income r) = other_income input /\
    expenses r = exp /\
    debt_service r = ds /\
    dscr_ratio r = ratio /\
    warnings r = _validate_result ratio ws2.
Proof.
  intros input w r w' H. unfold calculate in H.
  repeat (step_in H; try match goal with x : (_ * _)%type |- _ => destruct x end).
  destruct (uuid4 w) as [i w1]. destruct (utcnow w1) as [t w2].
  inversion H; subst; clear H. cbn.
  repeat eexists; eassumption.
Qed.

(** C7 as stated fails: with $1,500 of monthly flood insurance the total
    expenses are 75% of the income, and no HIGH_EXPENSE_RATIO warning is
    emitted. *)
Lemma flood_insurance_is_not_counted :
  exists r w',
    calculate flood_heavy_input world_a = Ok (r, w') /\
    total_gross_income_of r = 332500 /\
    amount (total_expenses (expenses r)) = 251600 /\
    ratio_exceeds_half (amount (total_expenses (expenses r))) (total_gross_income_of r) = true /\
    has_code "HIGH_EXPENSE_RATIO" (warnings r) = false.
Proof.
  eexists. eexists. split; [vm_compute; reflexivity|].
  conjuncts; vm_compute; reflexivity.
Qed.

(** C7, amended. Whenever [calculate] returns and the total effective gross
    income is positive, a HIGH_EXPENSE_RATIO warning of severity WARNING is
    emitted exactly when the binary64 ratio of monthly tax + monthly insurance
    + HOA + management fee to that income exceeds 0.5; flood insurance and
    other expenses are not part of the ratio. *)
Theorem high_expense_ratio_warning : forall input w r w',
  calculate input w = Ok (r, w') ->
  0 < total_gross_income_of r ->
  has_warning "HIGH_EXPENSE_RATIO" WARNING (warnings r)
  = ratio_exceeds_half (operating_expenses_of (expenses r)) (total_gross_income_of r).
Proof.
  intros input w r w' H Hpos.
  destruct (calculate_steps _ _ _ _ H)
    as (gross & ws1 & eff & exp & ws2 & ds & ratio & G & V & X & D & Q & Re & Ro & Rx & Rd & Rr & Rw).
  unfold total_gross_income_of in *. rewrite Re, Ro in *. rewrite Rx, Rw.
  rewrite (validate_result_keeps "HIGH_EXPENSE_RATIO" WARNING)
    by (intros K; discriminate K).
  rewrite (calculate_expenses_warning _ _ _ _ _ X).
  rewrite (gross_rent_keeps "HIGH_EXPENSE_RATIO" WARNING _ _ _ _
             ltac:(intros K; discriminate K) ltac:(intros K; discriminate K) G).
  cbn [has_warning existsb orb _add_money amount].
  apply Z.ltb_lt in Hpos. rewrite Hpos. reflexivity.
Qed.

Lemma high_expense_ratio_warning_witness :
  exists r w',
    calculate tax_heavy_input world_a = Ok (r, w') /\
    0 < total_gross_income_of r /\
    has_warning "HIGH_EXPENSE_RATIO" WARNING (warnings r) = true.
Proof.
  assert (E : calculate tax_heavy_input world_a = tax_heavy_run)
    by (vm_compute; reflexivity).
  unfold tax_heavy_run in E.
  assert (P : 0 < 332500) by reflexivity.
  eexists. eexists. split; [exact E|]. split; [exact P|].
  rewrite (high_expense_ratio_warning _ _ _ _ E P). vm_compute. reflexivity.
Defined.

(** C3 as stated fails: with a NaN vacancy rate the debt service is computed
    as zero, yet [calculate] raises when it converts the effective rent. *)
Lemma zero_pitia_run_can_raise :
  exists ds,
    _calculate_debt_service nan_vacancy_input = Ok ds /\
    amount (total_pitia ds) = 0 /\
    calculate nan_vacancy_input world_a = Raise ValueError.
Proof.
  eexists. split; [vm_compute; reflexivity|]. split; vm_compute; reflexivity.
Qed.

(** C3, amended. When the income, expense and debt-service steps of a run
    return and the computed total PITIA is zero cents, [calculate] returns a
    result whose dscr_ratio is positive infinity; the ratio step never raises
    on a zero debt service, whatever the NOI. *)
Theorem zero_pitia_gives_infinite_ratio : forall input w gross ws1 eff exp ws2 ds,
  _calculate_gross_rent input [] = Ok (gross, ws1) ->
  _apply_vacancy gross (float_or (vacancy_rate input) DEFAULT_VACANCY_RATE) = Ok eff ->
  _calculate_expenses input (_add_money eff (obj_or (other_income input) (Money_ 0))) ws1
    = Ok (exp, ws2) ->
  _calculate_debt_service input = Ok ds ->
  amount (total_pitia ds) = 0 ->
  (exists r w', calculate input w = Ok (r, w') /\
                debt_service r = ds /\ dscr_ratio r = inf /\ meets_minimum r = true) /\
  (forall noi, _calculate_ratio noi (total_pitia ds) = Ok inf).
Proof.
  intros input w gross ws1 eff exp ws2 ds G V X D Z0.
  assert (Q : forall noi, _calculate_ratio noi (total_pitia ds) = Ok inf).
  { intros noi. unfold _calculate_ratio. rewrite Z0. reflexivity. }
  split; [|exact Q].
  unfold calculate. rewrite G. cbn [bind]. rewrite V. cbn [bind].
  rewrite X. cbn [bind]. rewrite multiply_money_int. cbn [bind].
  rewrite D. cbn [bind]. rewrite Q. cbn [bind].
  destruct (uuid4 w) as [i w1]. destruct (utcnow w1) as [t w2].
  eexists. eexists. split; [reflexivity|]. cbn. repeat split.
Qed.

Lemma zero_pitia_gives_infinite_ratio_witness :
  exists r w', calculate debt_free_input world_a = Ok (r, w') /\ dscr_ratio r = inf.
Proof.
  destruct (zero_pitia_gives_infinite_ratio debt_free_input world_a
              (Money_ 100000) [] (Money_ 95000)
              {| property_tax_monthly := Money_ 0; insurance_monthly := Money_ 0;
                 hoa_monthly := Money_ 0; management_fee_monthly := Money_ 7600;
                 flood_insurance_monthly := Money_ 0; other_expenses := Money_ 0;
                 total_expenses := Money_ 7600 |} []
              {| principal_and_interest := Money_ 0; total_pitia := Money_ 0 |})
    as [(r & w' & E & _ & R & _) _];
    try (vm_compute; reflexivity).
  exists r, w'. split; assumption.
Defined.

End CalculatorProperties.

Section RulesProperties.
Import Py Rules.

Lemma is_hard_stop_iff : forall r,
  is_hard_stop r = true <->
  status r = RuleStatus.FAIL /\ severity r = RuleSeverity.HARD_STOP.
Proof.
  intros r. unfold is_hard_stop.
  destruct (status r), (severity r); simpl; split; intros H;
    try discriminate; try (destruct H; discriminate); auto.
Qed.

Lemma is_exception_required_iff : forall r,
  is_exception_required r = true <->
  status r = RuleStatus.FAIL /\ severity r = RuleSeverity.EXCEPTION_REQUIRED.
Proof.
  intros r. unfold is_exception_required.
  destruct (status r), (severity r); simpl; split; intros H;
    try discriminate; try (destruct H; discriminate); auto.
Qed.

Lemma has_status_iff : forall s r, has_status s r = true <-> status r = s.
Proof.
  intros s r. unfold has_status.
  destruct (status r), s; simpl; split; intros H; try discriminate; auto.
Qed.

Lemma partition_membership : forall engine loan_data w,
  let rr := fst (Rules.evaluate engine loan_data w) in
  (forall r, In r (hard_stops rr) <->
             In r (rule_results rr) /\ status r = RuleStatus.FAIL
             /\ severity r = RuleSeverity.HARD_STOP) /\
  (forall r, In r (exceptions_required rr) <->
             In r (rule_results rr) /\ status r = RuleStatus.FAIL
             /\ severity r = RuleSeverity.EXCEPTION_REQUIRED) /\
  (forall r, In r (Rules.warnings rr) <->
             In r (rule_results rr) /\ status r = RuleStatus.WARNING).
Proof.
  intros engine loan_data w rr. subst rr.
  split; [|split]; intros r.
  - rewrite evaluate_hard_stops, filter_In, is_hard_stop_iff. tauto.
  - rewrite evaluate_exceptions_required, filter_In, is_exception_required_iff. tauto.
  - rewrite evaluate_warnings, filter_In, has_status_iff. tauto.
Qed.


Lemma filter_verdicts : forall (f : RuleResult -> bool) d rs,
  (forall r, f (_evaluate_rule r d) = true -> produced_verdict d r = true) ->
  filter f (map (fun r => _evaluate_rule r d) (filter (produced_verdict d) rs))
  = filter f (map (fun r => _evaluate_rule r d) rs).
Proof.
  intros f d rs H. induction rs as [|r rs IH]; [reflexivity|].
  cbn [filter map]. destruct (produced_verdict d r) eqn:V.
  - cbn [filter map]. rewrite IH. reflexivity.
  - rewrite IH. destruct (f (_evaluate_rule r d)) eqn:F; [|reflexivity].
    apply H in F. congruence.
Qed.

Lemma status_not_applicable_excluded : forall d r,
  (is_hard_stop (_evaluate_rule r d) = true -> produced_verdict d r = true) /\
  (is_exception_required (_evaluate_rule r d) = true -> produced_verdict d r = true) /\
  (has_status RuleStatus.WARNING (_evaluate_rule r d) = true -> produced_verdict d r = true).
Proof.
  intros d r. unfold produced_verdict, is_hard_stop, is_exception_required, has_status.
  destruct (status (_evaluate_rule r d)); simpl; repeat split; intros; congruence.
Qed.

Lemma verdicts_only_same_aggregate : forall engine d w1 w2,
  let a := fst (Rules.evaluate engine d w1) in
  let b := fst (Rules.evaluate (verdicts_only engine d) d w2) in
  hard_stops a = hard_stops b /\
  exceptions_required a = exceptions_required b /\
  Rules.warnings a = Rules.warnings b /\
  overall_status a = overall_status b.
Proof.
  intros engine d w1 w2 a b.
  assert (H : hard_stops a = hard_stops b).
  { subst a b. rewrite !evaluate_hard_stops, !evaluate_rule_results. symmetry.
    apply filter_verdicts. intros r. apply status_not_applicable_excluded. }
  assert (X : exceptions_required a = exceptions_required b).
  { subst a b. rewrite !evaluate_exceptions_required, !evaluate_rule_results. symmetry.
    apply filter_verdicts. intros r. apply status_not_applicable_excluded. }
  assert (W : Rules.warnings a = Rules.warnings b).
  { subst a b. rewrite !evaluate_warnings, !evaluate_rule_results. symmetry.
    apply filter_verdicts. intros r. apply status_not_applicable_excluded. }
  repeat split; try assumption.
  subst a b. rewrite !evaluate_overall_status. cbv zeta. rewrite H, X. reflexivity.
Qed.

Lemma raised_not_applicable : forall rule d e,
  raised rule d = Some e ->
  status (_evaluate_rule rule d) = RuleStatus.NOT_APPLICABLE /\
  message (_evaluate_rule rule d) = [Lit "Rule evaluation error: "; ExcText e].
Proof.
  intros rule d e H. unfold raised in H. unfold _evaluate_rule.
  destruct (Rule.check rule d) as [passed|e1]; cbn [bind].
  - destruct (Rule.message rule d passed) as [text|e2]; [discriminate H|].
    injection H as <-. split; reflexivity.
  - injection H as <-. split; reflexivity.
Qed.

Lemma returned_verdict : forall rule d passed text,
  Rule.check rule d = Ok passed ->
  Rule.message rule d passed = Ok text ->
  status (_evaluate_rule rule d) = verdict (Rule.severity rule) passed /\
  message (_evaluate_rule rule d) = text.
Proof.
  intros rule d passed text C M. unfold _evaluate_rule, verdict.
  rewrite C. cbn [bind]. rewrite M. split; reflexivity.
Qed.

(** C8. For every rule table, LoanData and rule of the table whose try block
    raises, in the predicate or in the message: the rule's result has status
    NOT_APPLICABLE and carries the error text; the batch is not aborted, every
    rule of the table gets its result, in table order, and each rule whose
    predicate and message return keeps its own verdict (PASS when the
    predicate holds, else WARNING for a rule of severity WARNING and FAIL for
    another) and message; the raising rule's result is in none of hard_stops,
    exceptions_required and warnings; and the three lists and overall_status
    are those of the table without the rules that gave no verdict. *)
Theorem raising_rule_is_not_applicable : forall engine loan_data w rule e,
  In rule (rules engine) ->
  raised rule loan_data = Some e ->
  let rr := fst (Rules.evaluate engine loan_data w) in
  let res := _evaluate_rule rule loan_data in
  status res = RuleStatus.NOT_APPLICABLE /\
  message res = [Lit "Rule evaluation error: "; ExcText e] /\
  rule_results rr = map (fun r => _evaluate_rule r loan_data) (rules engine) /\
  (forall other passed text,
     In other (rules engine) ->
     Rule.check other loan_data = Ok passed ->
     Rule.message other loan_data passed = Ok text ->
     In (_evaluate_rule other loan_data) (rule_results rr) /\
     status (_evaluate_rule other loan_data) = verdict (Rule.severity other) passed /\
     message (_evaluate_rule other loan_data) = text) /\
  In res (rule_results rr) /\
  ~ In res (hard_stops rr) /\
  ~ In res (exceptions_required rr) /\
  ~ In res (Rules.warnings rr) /\
  let vv := fst (Rules.evaluate (verdicts_only engine loan_data) loan_data w) in
  ~ In rule (rules (verdicts_only engine loan_data)) /\
  hard_stops rr = hard_stops vv /\
  exceptions_required rr = exceptions_required vv /\
  Rules.warnings rr = Rules.warnings vv /\
  overall_status rr = overall_status vv.
Proof.
  intros engine loan_data w rule e Hin Hraise rr res.
  destruct (raised_not_applicable _ _ _ Hraise) as [S M]. fold res in S, M.
  destruct (partition_membership engine loan_data w) as (PH & PX & PW).
  split; [exact S|]. split; [exact M|]. split; [reflexivity|].
  split.
  { intros other passed text Oin C T. split.
    - subst rr. rewrite evaluate_rule_results.
      apply (in_map (fun r => _evaluate_rule r loan_data)). exact Oin.
    - apply returned_verdict; assumption. }
  split; [subst rr; rewrite evaluate_rule_results;
          apply (in_map (fun r => _evaluate_rule r loan_data)); exact Hin|].
  split; [intros K; apply PH in K; destruct K as (_ & K & _); congruence|].
  split; [intros K; apply PX in K; destruct K as (_ & K & _); congruence|].
  split; [intros K; apply PW in K; destruct K as (_ & K); congruence|].
  cbv zeta. split.
  - unfold verdicts_only. cbn [rules]. rewrite filter_In. intros [_ K].
    unfold produced_verdict, has_status in K. fold res in K. rewrite S in K. discriminate K.
  - apply verdicts_only_same_aggregate.
Qed.

Lemma raising_rule_is_not_applicable_witness :
  In per_unit_rule (rules overlay_engine) /\
  Rule.check per_unit_rule (loan_facts 1.3 70 650 0) = Raise ZeroDivisionError /\
  status (_evaluate_rule per_unit_rule (loan_facts 1.3 70 650 0))
    = RuleStatus.NOT_APPLICABLE /\
  map status (rule_results (fst (Rules.evaluate overlay_engine (loan_facts 1.3 70 650 0)
                                   world_a)))
    = [RuleStatus.PASS; RuleStatus.PASS; RuleStatus.PASS; RuleStatus.PASS;
       RuleStatus.FAIL; RuleStatus.WARNING; RuleStatus.PASS; RuleStatus.PASS;
       RuleStatus.PASS; RuleStatus.PASS; RuleStatus.PASS; RuleStatus.PASS;
       RuleStatus.PASS; RuleStatus.NOT_APPLICABLE] /\
  map rule_id (hard_stops (fst (Rules.evaluate overlay_engine (loan_facts 1.3 70 650 0)
                                  world_a)))
    = ["CREDIT-001"] /\
  overall_status (fst (Rules.evaluate overlay_engine (loan_facts 1.3 70 650 0) world_a))
    = RuleStatus.FAIL.
Proof.
  assert (I : In per_unit_rule (rules overlay_engine)).
  { unfold overlay_engine. cbn [rules]. apply in_or_app. right. left. reflexivity. }
  assert (R : raised per_unit_rule (loan_facts 1.3 70 650 0) = Some ZeroDivisionError)
    by reflexivity.
  split; [exact I|]. split; [reflexivity|].
  pose proof (raising_rule_is_not_applicable overlay_engine (loan_facts 1.3 70 650 0)
                world_a per_unit_rule ZeroDivisionError I R) as T.
  cbv zeta in T. destruct T as (S & _).
  split; [exact S|]. split; [vm_compute; reflexivity|].
  split; vm_compute; reflexivity.
Defined.

(** In the static table itself a message can raise: a count of prior
    bankruptcies of more than 4300 digits cannot be rendered, so CREDIT-003,
    whose check fails, gives no verdict and the evaluation passes. *)
Example static_rule_message_raises :
  exists rule,
    nth_error _init_rules 6 = Some rule /\
    Rule.id rule = "CREDIT-003" /\
    Rule.check rule countless_bankruptcies = Ok false /\
    raised rule countless_bankruptcies = Some ValueError /\
    status (_evaluate_rule rule countless_bankruptcies) = RuleStatus.NOT_APPLICABLE /\
    hard_stops (fst (Rules.evaluate rules_engine countless_bankruptcies world_a)) = [] /\
    overall_status (fst (Rules.evaluate rules_engine countless_bankruptcies world_a))
      = RuleStatus.PASS.
Proof.
  eexists. split; [reflexivity|]. conjuncts; vm_compute; reflexivity.
Qed.

End RulesProperties.

Section RunsProperties.
Import Py.

(** C5 as stated fails: two runs on the same input draw different ids and
    read different clocks, inside each of the three components. *)
Lemma runs_differ_in_ids_and_timestamps :
  fst (Rules.evaluate Rules.rules_engine (loan_facts 1.3 70 720 1) world_a)
    <> fst (Rules.evaluate Rules.rules_engine (loan_facts 1.3 70 720 1) world_b)
  /\ DSCR.calculate debt_free_input world_a <> DSCR.calculate debt_free_input world_b
  /\ Decision.evaluate (loan_facts 1.3 70 720 1) None world_a
     <> Decision.evaluate (loan_facts 1.3 70 720 1) None world_b.
Proof.
  split; [|split].
  - intros H. apply (f_equal Rules.evaluated_at) in H. vm_compute in H. discriminate H.
  - intros H.
    apply (f_equal (fun x => match x with
                             | Ok (r, _) => DSCR.calculated_at r
                             | Raise _ => 0 end)) in H.
    vm_compute in H. discriminate H.
  - intros H.
    apply (f_equal (fun x => match x with
                             | Ok (r, _) => Decision.decided_at r
                             | Raise _ => 0 end)) in H.
    vm_compute in H. discriminate H.
Qed.

Lemma calculate_agrees : forall input w1 w2,
  match DSCR.calculate input w1, DSCR.calculate input w2 with
  | Ok (r1, _), Ok (r2, _) => dscr_unstamped r1 = dscr_unstamped r2
  | Raise e1, Raise e2 => e1 = e2
  | _, _ => False
  end.
Proof.
  intros input w1 w2. unfold DSCR.calculate.
  repeat match goal with
         | |- context [bind ?m _] =>
             destruct m as [?|?]; cbn [bind]; [|reflexivity];
             try match goal with x : (_ * _)%type |- _ => destruct x end
         end.
  reflexivity.
Qed.

Lemma rules_evaluate_agrees : forall engine d w1 w2,
  rules_unstamped (fst (Rules.evaluate engine d w1))
  = rules_unstamped (fst (Rules.evaluate engine d w2)).
Proof. reflexivity. Qed.

Lemma append_condition_unstamped : forall cs1 cs2 cat desc req w1 w2,
  map condition_unstamped cs1 = map condition_unstamped cs2 ->
  map condition_unstamped (fst (Decision.append_condition cs1 cat desc req w1))
  = map condition_unstamped (fst (Decision.append_condition cs2 cat desc req w2)).
Proof.
  intros cs1 cs2 cat desc req w1 w2 H. unfold Decision.append_condition.
  cbn. rewrite !map_app, H. reflexivity.
Qed.

Lemma warning_conditions_unstamped : forall (ws : list Rules.RuleResult) s1 s2,
  map condition_unstamped (fst s1) = map condition_unstamped (fst s2) ->
  map condition_unstamped
    (fst (fold_left
            (fun '(conditions, w) warning =>
               Decision.append_condition conditions "PTD"
                 (Lit "Address: " :: Rules.message warning) false w) ws s1))
  = map condition_unstamped
      (fst (fold_left
              (fun '(conditions, w) warning =>
                 Decision.append_condition conditions "PTD"
                   (Lit "Address: " :: Rules.message warning) false w) ws s2)).
Proof.
  induction ws as [|x ws IH]; intros [cs1 w1] [cs2 w2] H; [exact H|].
  cbn [fold_left]. apply IH. apply append_condition_unstamped. exact H.
Qed.

Lemma generate_conditions_agrees : forall rr pr d w1 w2,
  map condition_unstamped (fst (Decision._generate_conditions rr pr d w1))
  = map condition_unstamped (fst (Decision._generate_conditions rr pr d w2)).
Proof.
  intros rr pr d w1 w2. unfold Decision._generate_conditions.
  cbn [Decision.append_condition uuid4 app fst snd].
  destruct (1 <? Rules.units d); apply warning_conditions_unstamped; reflexivity.
Qed.

Lemma decision_evaluate_agrees : forall d p w1 w2,
  match Decision.evaluate d p w1, Decision.evaluate d p w2 with
  | Ok (d1, _), Ok (d2, _) => decision_unstamped d1 = decision_unstamped d2
  | Raise e1, Raise e2 => e1 = e2
  | _, _ => False
  end.
Proof.
  intros d p w1 w2.
  destruct (renders p) eqn:Rn;
    [|rewrite !(evaluate_raises d p _ Rn); reflexivity].
  unfold Decision.evaluate.
  pose proof (rules_evaluate_agrees Rules.rules_engine d w1 w2) as R.
  destruct (Rules.evaluate Rules.rules_engine d w1) as [r1 u1].
  destruct (Rules.evaluate Rules.rules_engine d w2) as [r2 u2].
  cbn [fst] in R.
  rewrite pricing_step, Rn. cbn [bind].
  assert (F : forall (A : Type) (f : Rules.RulesEvaluationResult -> A),
             f (rules_unstamped r1) = f (rules_unstamped r2))
    by (intros; f_equal; exact R).
  pose proof (F _ Rules.overall_status) as F1. pose proof (F _ Rules.hard_stops) as F2.
  pose proof (F _ Rules.exceptions_required) as F3. pose proof (F _ Rules.warnings) as F4.
  pose proof (F _ Rules.passed_count) as F5. pose proof (F _ Rules.failed_count) as F6.
  pose proof (F _ Rules.res_application_id) as F7.
  cbn in F1, F2, F3, F4, F5, F6, F7.
  rewrite F1, F2, F3.
  destruct (Decision._determine_decision _ _ _ _) as [dt dr].
  pose proof (generate_conditions_agrees r1 (pricing_of p) d u1 u2) as G.
  assert (G2 : map condition_unstamped (fst (Decision._generate_conditions r1 (pricing_of p) d u2))
               = map condition_unstamped (fst (Decision._generate_conditions r2 (pricing_of p) d u2))).
  { unfold Decision._generate_conditions. rewrite F4. reflexivity. }
  destruct (Decision._generate_conditions r1 (pricing_of p) d u1) as [c1 v1].
  destruct (Decision._generate_conditions r2 (pricing_of p) d u2) as [c2 v2].
  cbn [fst] in G, G2.
  cbn [uuid4 utcnow]. unfold decision_unstamped. cbn.
  rewrite G, G2, F4, F5, F6. reflexivity.
Qed.

(** C5, amended. Two runs of a component on identical inputs agree on every
    field of the result except the ids drawn from uuid4() (the result's own,
    each condition's, the rules evaluation id kept in the decision's details)
    and the timestamp read from utcnow(), which the components attach
    themselves; they also raise alike (the calculator on an input it cannot
    convert, the decision service on a credit score the pricing engine cannot
    render).  calculate_pricing draws no id and reads no clock: it is a
    function of its input alone. *)
Theorem runs_agree_up_to_ids_and_timestamps : forall w1 w2,
  (forall input,
     match DSCR.calculate input w1, DSCR.calculate input w2 with
     | Ok (r1, _), Ok (r2, _) => dscr_unstamped r1 = dscr_unstamped r2
     | Raise e1, Raise e2 => e1 = e2
     | _, _ => False
     end) /\
  (forall engine loan_data,
     rules_unstamped (fst (Rules.evaluate engine loan_data w1))
     = rules_unstamped (fst (Rules.evaluate engine loan_data w2))) /\
  (forall loan_data pricing_input,
     match Decision.evaluate loan_data pricing_input w1,
           Decision.evaluate loan_data pricing_input w2 with
     | Ok (d1, _), Ok (d2, _) =>
         decision_unstamped d1 = decision_unstamped d2 /\
         Decision.pricing d1 = pricing_of pricing_input
     | Raise e1, Raise e2 => e1 = e2
     | _, _ => False
     end).
Proof.
  intros w1 w2. split; [|split].
  - intros input. apply calculate_agrees.
  - intros engine loan_data. apply rules_evaluate_agrees.
  - intros loan_data pricing_input.
    pose proof (decision_evaluate_agrees loan_data pricing_input w1 w2) as A.
    destruct (renders pricing_input) eqn:Rn.
    + destruct (evaluate_decision loan_data pricing_input w1 Rn) as (d & w' & E & P & _).
      rewrite E in *.
      destruct (Decision.evaluate loan_data pricing_input w2) as [[d2 u2]|]; [|exact A].
      split; [exact A|exact P].
    + rewrite !(evaluate_raises loan_data pricing_input _ Rn) in *. exact A.
Qed.

End RunsProperties.

Section EvaluationsProperties.
Import Py.

(** C4 at the failing input: the rent required for a target of 1.25 is
    $3,647.02; fed back as the stated rent it yields an NOI of $1,937.49
    against the $2,437.50 the target needs, a DSCR of 0.9936: the $500 of
    other monthly expenses are missing from the required rent. *)
Theorem required_rent_omits_other_expenses :
  DSCR.calculate_required_rent other_expenses_input (Some 1.25%float)
    = Ok (DSCR.Money_ 364702) /\
  exists r w',
    DSCR.calculate
      (with_gross_monthly_rent other_expenses_input (DSCR.Money_ 364702)) world_a
      = Ok (r, w') /\
    DSCR.amount (DSCR.total_pitia (DSCR.debt_service r)) = 195000 /\
    DSCR.amount (DSCR.monthly (DSCR.noi r)) = 193749 /\
    DSCR.amount (DSCR.other_expenses (DSCR.expenses r)) = 50000 /\
    DSCR.dscr_ratio r = 0.9935846153846154%float /\
    PrimFloat.ltb (DSCR.dscr_ratio r) 1.25 = true /\
    DSCR.meets_minimum r = false.
Proof.
  split; [vm_compute; reflexivity|].
  eexists. eexists. split; [vm_compute; reflexivity|].
  conjuncts; vm_compute; reflexivity.
Qed.

(** C6 at the failing inputs: a negative DSCR and an infinite DSCR fall in no
    band, so the adjustment is 0 and no DSCR adjustment is recorded; 0.5 and
    2.0 get +125 and -25. *)
Theorem dscr_adjustment_outside_bands :
  Pricing._get_dscr_adjustment (-0.5) = 0 /\
  Pricing._get_dscr_adjustment inf = 0 /\
  Pricing._get_dscr_adjustment 0.5 = 125 /\
  Pricing._get_dscr_adjustment 2.0 = -25 /\
  priced_factors (pricing_facts (-0.5)) = Some ([("LTV", 25); ("Credit Score", 25)], 50) /\
  priced_factors (pricing_facts inf) = Some ([("LTV", 25); ("Credit Score", 25)], 50) /\
  priced_factors (pricing_facts 0.5)
    = Some ([("DSCR", 125); ("LTV", 25); ("Credit Score", 25)], 175).
Proof. conjuncts; vm_compute; reflexivity. Qed.

(** C9 at the failing inputs: raising the annual rate from 0 to 1.5e-15
    lowers the PITIA from $1,750.00 to $1,312.94, and raising it from 3.6e-15
    to 4.2e-15 lowers it from $2,101.07 to $1,538.12; at 1e-18 the debt
    service raises ZeroDivisionError. *)
Theorem pitia_not_monotone_in_rate :
  pitia_of (amortizing_input 0) = Some 175000 /\
  pitia_of (amortizing_input 1.5e-15) = Some 131294 /\
  pitia_of (amortizing_input 3.6e-15) = Some 210107 /\
  pitia_of (amortizing_input 4.2e-15) = Some 153812 /\
  DSCR._calculate_debt_service (amortizing_input 1e-18) = Raise ZeroDivisionError /\
  PrimFloat.ltb 0 1.5e-15 = true /\ PrimFloat.ltb 3.6e-15 4.2e-15 = true.
Proof. conjuncts; vm_compute; reflexivity. Qed.

(** The spec's scenario for the decision order: dscr = 0.95 with every other
    fact passing gives no hard stop, the one exception DSCR-002, and a
    REFERRED / EXCEPTION_REQUIRED decision, with or without pricing. *)
Example scenario_dscr_below_one :
  let rr := fst (Rules.evaluate Rules.rules_engine (loan_facts 0.95 70 720 1) world_a) in
  Rules.hard_stops rr = [] /\
  map Rules.rule_id (Rules.exceptions_required rr) = ["DSCR-002"] /\
  (exists d w', Decision.evaluate (loan_facts 0.95 70 720 1) None world_a = Ok (d, w') /\
                Decision.decision_type d = Decision.DecisionType.REFERRED /\
                Decision.decision_reason d = Decision.DecisionReason.EXCEPTION_REQUIRED) /\
  (exists d w', Decision.evaluate (loan_facts 0.95 70 720 1)
                  (Some (pricing_facts 0.95)) world_a = Ok (d, w') /\
                Decision.decision_type d = Decision.DecisionType.REFERRED /\
                Decision.decision_reason d = Decision.DecisionReason.EXCEPTION_REQUIRED).
Proof.
  cbv zeta. split; [vm_compute; reflexivity|]. split; [vm_compute; reflexivity|].
  split; eexists; eexists; (split; [vm_compute; reflexivity|]); split; reflexivity.
Qed.

(** The pricing engine cannot render such a credit score: it raises
    ValueError, and the decision service, which does not catch it, raises
    too. *)
Example unrenderable_credit_score_raises :
  Pricing.calculate_pricing unrenderable_pricing = Raise ValueError /\
  Decision.evaluate (loan_facts 1.3 70 720 1) (Some unrenderable_pricing) world_a
    = Raise ValueError.
Proof. split; vm_compute; reflexivity. Qed.

End EvaluationsProperties.

Section ComparisonsProperties.
Import Py.

(** *** Comparisons of binary64 values *)
Lemma SFcompare_antisym : forall x y,
  SFcompare y x = option_map CompOpp (SFcompare x y).
Proof.
  intros x y.
  destruct x as [sx|sx| |sx mx ex], y as [sy|sy| |sy my ey]; simpl;
    try reflexivity; try (destruct sx; reflexivity); try (destruct sy; reflexivity);
    try (destruct sx, sy; reflexivity).
  destruct sx, sy; simpl; try reflexivity.
  - rewrite (Z.compare_antisym ex ey).
    destruct (ex ?= ey); simpl; try reflexivity.
    pose proof (Pos.compare_cont_antisym mx my Eq) as A. simpl in A. rewrite <- A.
    destruct (Pos.compare_cont Eq mx my); reflexivity.
  - rewrite (Z.compare_antisym ex ey).
    destruct (ex ?= ey); simpl; try reflexivity.
    pose proof (Pos.compare_cont_antisym mx my Eq) as A. simpl in A. rewrite <- A.
    destruct (Pos.compare_cont Eq mx my); reflexivity.
Qed.

(** [x < y] excludes [y <= x]. *)
Lemma float_ltb_leb : forall x y,
  PrimFloat.ltb x y = true -> PrimFloat.leb y x = false.
Proof.
  intros x y. rewrite FloatAxioms.ltb_spec, FloatAxioms.leb_spec.
  unfold SFltb, SFleb. rewrite (SFcompare_antisym (Prim2SF x) (Prim2SF y)).
  destruct (SFcompare (Prim2SF x) (Prim2SF y)) as [[| |]|]; simpl; congruence.
Qed.

(** [x <= y] excludes [y < x]. *)
Lemma float_leb_ltb : forall x y,
  PrimFloat.leb x y = true -> PrimFloat.ltb y x = false.
Proof.
  intros x y H. destruct (PrimFloat.ltb y x) eqn:E; [|reflexivity].
  apply float_ltb_leb in E. congruence.
Qed.

(** Two values that are not NaN compare one way or the other. *)
Lemma float_leb_total : forall x y,
  PrimFloat.eqb x x = true -> PrimFloat.eqb y y = true ->
  PrimFloat.leb x y = negb (PrimFloat.ltb y x).
Proof.
  intros x y. rewrite !FloatAxioms.eqb_spec, FloatAxioms.ltb_spec, FloatAxioms.leb_spec.
  unfold SFeqb, SFltb, SFleb. rewrite (SFcompare_antisym (Prim2SF x) (Prim2SF y)).
  destruct (Prim2SF x) as [sx|sx| |sx mx ex], (Prim2SF y) as [sy|sy| |sy my ey];
    simpl; try discriminate; intros _ _;
    try reflexivity; try (destruct sx; reflexivity); try (destruct sy; reflexivity);
    try (destruct sx, sy; reflexivity).
  destruct sx, sy; simpl; try reflexivity.
  - destruct (ex ?= ey); simpl; try reflexivity.
    destruct (Pos.compare_cont Eq mx my); reflexivity.
  - destruct (ex ?= ey); simpl; try reflexivity.
    destruct (Pos.compare_cont Eq mx my); reflexivity.
Qed.

End ComparisonsProperties.

Section OffersProperties.
Import Py Rules Pricing Decision.

(** *** The pricing engine *)
Lemma rate_within_range : forall tier total,
  -75 <= total <= 550 -> rate_within tier total = true.
Proof.
  intros tier total H.
  assert (E : forallb (fun t => forallb (rate_within t) (Zrange (-75) 626)) all_tiers = true)
    by (vm_compute; reflexivity).
  rewrite forallb_forall in E.
  assert (Ht : In tier all_tiers) by (destruct tier; simpl; tauto).
  specialize (E tier Ht). rewrite forallb_forall in E.
  apply E, Zrange_In. lia.
Qed.

Lemma Forall_append_if : forall (A : Type) (P : A -> Prop) (c : bool) xs x,
  Forall P xs -> (c = true -> P x) -> Forall P (append_if c xs x).
Proof.
  intros A P c xs x H Hx. unfold append_if. destruct c; [|exact H].
  apply Forall_app. split; [exact H|]. constructor; [auto|constructor].
Qed.

Lemma length_append_if : forall (A : Type) (c : bool) (xs : list A) x,
  (List.length (append_if c xs x) <= S (List.length xs))%nat.
Proof.
  intros A c xs x. unfold append_if. destruct c; [|lia].
  rewrite length_app. simpl. lia.
Qed.

Lemma adjustments_of_nonzero : forall input,
  Forall (fun a => adjustment_bps a <> 0) (adjustments_of input).
Proof.
  intros input. unfold adjustments_of. cbv zeta.
  apply Forall_append_if; [|intros _; cbn; lia].
  apply Forall_append_if;
    [|intros K; cbn; apply negb_true_iff, Z.eqb_neq in K; exact K].
  assert (F : Forall (fun a => adjustment_bps a <> 0)
                (append_if (negb (_get_ltv_adjustment (Pricing.ltv input) =? 0))
                   (append_if (negb (_get_dscr_adjustment (Pricing.dscr input) =? 0)) []
                      {| factor := "DSCR";
                         adjustment_bps := _get_dscr_adjustment (Pricing.dscr input);
                         reason := [Lit "DSCR of "; Fixed 2 (Pricing.dscr input)] |})
                   {| factor := "LTV";
                      adjustment_bps := _get_ltv_adjustment (Pricing.ltv input);
                      reason := [Lit "LTV of "; Fixed 1 (Pricing.ltv input); Lit "%"] |})).
  { apply Forall_append_if;
      [|intros K; cbn; apply negb_true_iff, Z.eqb_neq in K; exact K].
    apply Forall_append_if;
      [constructor|intros K; cbn; apply negb_true_iff, Z.eqb_neq in K; exact K]. }
  destruct (_get_credit_adjustment (Pricing.credit_score input)) as [a|]; [|exact F].
  apply Forall_append_if;
    [exact F|intros K; cbn; apply negb_true_iff, Z.eqb_neq in K; exact K].
Qed.

Lemma adjustments_of_length : forall input,
  (List.length (adjustments_of input) <= 5)%nat.
Proof.
  intros input. unfold adjustments_of. cbv zeta.
  repeat match goal with
         | |- (List.length (append_if ?c ?xs ?x) <= _)%nat =>
             let L := fresh "L" in
             pose proof (length_append_if _ c xs x) as L; revert L;
             generalize (List.length (append_if c xs x)); intros ? L
         end.
  destruct (_get_credit_adjustment (Pricing.credit_score input)) as [a|];
    repeat match goal with
           | H : context [List.length (append_if ?c ?xs ?x)] |- _ =>
               let L := fresh "L" in
               pose proof (length_append_if _ c xs x) as L; revert L H;
               generalize (List.length (append_if c xs x)); intros ? L H
           end;
    simpl in *; lia.
Qed.

(** X. A pricing run raises ValueError exactly when the credit score has more
    than 4300 digits, which the engine cannot render.  Every other run
    returns: its total adjustment is the sum of the recorded adjustments,
    between -75 and +550 basis points; at most five adjustments are recorded
    and none of them is of zero basis points; the base rate is the rate of the
    risk tier and the final rate lies between 5.75 and 14 percent. *)
Theorem pricing_is_bounded : forall input,
  if within_str_digits (Pricing.credit_score input) then
    exists p,
      calculate_pricing input = Ok p /\
      total_adjustment_bps p = sum_bps (adjustments p) /\
      -75 <= total_adjustment_bps p <= 550 /\
      Forall (fun a => adjustment_bps a <> 0) (adjustments p) /\
      (List.length (adjustments p) <= 5)%nat /\
      base_rate p = BASE_RATES (risk_tier p) /\
      PrimFloat.leb 5.75 (final_rate p) = true /\
      PrimFloat.leb (final_rate p) 14 = true
  else calculate_pricing input = Raise ValueError.
Proof.
  intros input.
  destruct (within_str_digits (Pricing.credit_score input)) eqn:W;
    [|apply calculate_pricing_raises; exact W].
  rewrite (calculate_pricing_rendered input W).
  pose proof (adjustments_of_range input) as R.
  pose proof (rate_within_range (_determine_risk_tier input) _ R) as Q.
  unfold rate_within in Q.
  destruct (int_truediv (sum_bps (adjustments_of input)) 100) as [points|e];
    [|discriminate Q].
  cbn [bind].
  destruct (round_ _ 3) as [rate|e]; [|discriminate Q].
  apply andb_true_iff in Q. destruct Q as [Q1 Q2].
  eexists. split; [reflexivity|]. cbn.
  split; [reflexivity|]. split; [exact R|].
  split; [apply adjustments_of_nonzero|]. split; [apply adjustments_of_length|].
  split; [reflexivity|]. split; assumption.
Qed.

(** *** The decision service *)
(** What [evaluate] returns, field by field. *)
Lemma evaluate_fields : forall loan_data pricing_input w,
  renders pricing_input = true ->
  let rr := fst (Rules.evaluate rules_engine loan_data w) in
  let w1 := snd (Rules.evaluate rules_engine loan_data w) in
  let pr := pricing_of pricing_input in
  let cw := _generate_conditions rr pr loan_data w1 in
  exists d w',
    Decision.evaluate loan_data pricing_input w = Ok (d, w') /\
    (decision_type d, decision_reason d)
      = _determine_decision (overall_status rr) (hard_stops rr) (exceptions_required rr) pr /\
    pricing d = pr /\
    res_final_rate d = option_map final_rate pr /\
    eligible_for_pricing d = match pr with Some p => eligible p | None => false end /\
    rules_passed d = RuleStatus.eqb (overall_status rr) RuleStatus.PASS /\
    n_hard_stops d = len (hard_stops rr) /\
    n_exceptions_required d = len (exceptions_required rr) /\
    n_warnings d = len (Rules.warnings rr) /\
    conditions d = fst cw /\
    res_details d = {| rules_evaluation_id := Rules.id rr;
                       passed_rules := passed_count rr;
                       failed_rules := failed_count rr |} /\
    Decision.id d = fst (uuid4 (snd cw)) /\
    w' = snd (utcnow (snd (uuid4 (snd cw)))).
Proof.
  intros loan_data pricing_input w Rn. cbv zeta. unfold Decision.evaluate.
  destruct (Rules.evaluate rules_engine loan_data w) as [rr w1].
  cbn [fst snd].
  rewrite pricing_step, Rn. cbn [bind].
  destruct (_determine_decision _ _ _ _) as [dt dr].
  destruct (_generate_conditions _ _ _ _) as [cs w2].
  unfold uuid4, utcnow.
  eexists. eexists. split; [reflexivity|]. cbn. repeat split.
Qed.

Lemma hard_stop_of_rule : forall (rule : Rule.t) loan_data w,
  In rule (rules rules_engine) ->
  is_hard_stop (_evaluate_rule rule loan_data) = true ->
  exists r rs, hard_stops (fst (Rules.evaluate rules_engine loan_data w)) = r :: rs.
Proof.
  intros rule loan_data w I H.
  rewrite evaluate_hard_stops, evaluate_rule_results.
  assert (E : existsb is_hard_stop
                (map (fun rule => _evaluate_rule rule loan_data) (rules rules_engine)) = true).
  { apply existsb_exists. exists (_evaluate_rule rule loan_data). split; [|exact H].
    apply (in_map (fun rule => _evaluate_rule rule loan_data)). exact I. }
  rewrite filter_cons_existsb in E.
  destruct (filter is_hard_stop _) as [|r rs]; [discriminate E|].
  exists r, rs. reflexivity.
Qed.

(** The three eligibility tests of the pricing engine. *)
Lemma pricing_eligible : forall input p,
  calculate_pricing input = Ok p ->
  eligible p =
    negb (Pricing.credit_score input <? MIN_CREDIT_SCORE)
    && negb (Py.ltb (Int MAX_LTV) (Float (Pricing.ltv input)))
    && negb (PrimFloat.ltb (Pricing.dscr input) MIN_DSCR).
Proof.
  intros input p H.
  destruct (within_str_digits (Pricing.credit_score input)) eqn:W;
    [|rewrite (calculate_pricing_raises input W) in H; discriminate H].
  rewrite (calculate_pricing_rendered input W) in H. unfold reasons_of in H.
  remember (Pricing.credit_score input <? MIN_CREDIT_SCORE) as c1.
  remember (Py.ltb (Int MAX_LTV) (Float (Pricing.ltv input))) as c2.
  remember (PrimFloat.ltb (Pricing.dscr input) MIN_DSCR) as c3.
  destruct (int_truediv (sum_bps (adjustments_of input)) 100) as [points|e];
    [|discriminate H].
  cbn [bind] in H.
  destruct (round_ _ 3) as [rate|e]; [|discriminate H].
  inversion H; subst p; clear H. cbn [eligible].
  destruct c1, c2, c3; reflexivity.
Qed.

(** A failed HARD_STOP rule of the table, by its position. *)
Lemma hard_stop_at : forall (n : nat) (rule : Rule.t) loan_data w,
  nth_error _init_rules n = Some rule ->
  is_hard_stop (_evaluate_rule rule loan_data) = true ->
  exists r rs, hard_stops (fst (Rules.evaluate rules_engine loan_data w)) = r :: rs.
Proof.
  intros n rule loan_data w N H.
  apply (hard_stop_of_rule rule); [|exact H].
  apply nth_error_In in N. exact N.
Qed.

(** A pricing input that mirrors the loan data and is not eligible meets a
    hard stop of the rule table: CREDIT-001, LTV-001 or DSCR-001. *)
Lemma mirrored_ineligible_hard_stop : forall loan_data input p w,
  mirrors input loan_data ->
  calculate_pricing input = Ok p ->
  eligible p = false ->
  exists r rs, hard_stops (fst (Rules.evaluate rules_engine loan_data w)) = r :: rs.
Proof.
  intros loan_data input p w (Md & Ml & Mc) H El.
  assert (W : within_str_digits (Rules.credit_score loan_data) = true).
  { rewrite <- Mc. destruct (within_str_digits (Pricing.credit_score input)) eqn:W;
      [reflexivity|]. rewrite (calculate_pricing_raises input W) in H. discriminate H. }
  rewrite (pricing_eligible _ _ H), Md, Ml, Mc in El.
  destruct (Rules.credit_score loan_data <? MIN_CREDIT_SCORE) eqn:C.
  { eapply (hard_stop_at 4); [reflexivity|].
    unfold _evaluate_rule, is_hard_stop. cbn -[str_int].
    unfold MIN_CREDIT_SCORE in C. apply Z.ltb_lt in C.
    assert (K : (660 <=? Rules.credit_score loan_data) = false) by (apply Z.leb_gt; lia).
    rewrite K, (str_int_ok _ W). reflexivity. }
  destruct (Py.ltb (Int MAX_LTV) (Float (Rules.ltv loan_data))) eqn:L.
  { eapply (hard_stop_at 2); [reflexivity|].
    unfold _evaluate_rule, is_hard_stop. cbn.
    unfold MAX_LTV in L. cbn in L.
    destruct (compare_int_float 80 (Rules.ltv loan_data)) as [[| |]|];
      try discriminate L; reflexivity. }
  destruct (PrimFloat.ltb (Rules.dscr loan_data) MIN_DSCR) eqn:D; [|discriminate El].
  eapply (hard_stop_at 0); [reflexivity|].
  unfold _evaluate_rule, is_hard_stop. cbn.
  unfold MIN_DSCR in D. apply float_ltb_leb in D. rewrite D. reflexivity.
Qed.

(** X. When the pricing input repeats the DSCR, LTV and credit score of the
    loan data, pricing ineligibility never decides: an ineligible pricing
    result comes with a failed hard stop of the rule table (CREDIT-001,
    LTV-001 or DSCR-001), so the decision a run returns is DECLINED for
    HARD_STOP_VIOLATION, never for PRICING_INELIGIBLE. *)
Theorem mirrored_pricing_never_decides : forall loan_data pricing_input w d w',
  mirrors pricing_input loan_data ->
  Decision.evaluate loan_data (Some pricing_input) w = Ok (d, w') ->
  decision_reason d <> DecisionReason.PRICING_INELIGIBLE /\
  (eligible_for_pricing d = false ->
     decision_type d = DecisionType.DECLINED /\
     decision_reason d = DecisionReason.HARD_STOP_VIOLATION /\
     0 < n_hard_stops d).
Proof.
  intros loan_data pricing_input w d0 w0 M E0.
  assert (Rn : renders (Some pricing_input) = true).
  { destruct (renders (Some pricing_input)) eqn:Rn; [reflexivity|].
    rewrite (evaluate_raises _ _ _ Rn) in E0. discriminate E0. }
  destruct (evaluate_fields loan_data (Some pricing_input) w Rn)
    as (d & w' & E & D & _ & _ & El & _ & N & _).
  rewrite E0 in E. injection E as <- <-.
  cbv zeta in *. unfold pricing_of in *.
  destruct (calculate_pricing_returns pricing_input Rn) as [p Hp]. rewrite Hp in *.
  destruct (eligible p) eqn:G.
  - split; [|intros K; congruence].
    unfold _determine_decision in D. rewrite G in D. cbn [negb] in D.
    destruct (hard_stops _); [|injection D as T R; rewrite R; discriminate].
    destruct (exceptions_required _); [|injection D as T R; rewrite R; discriminate].
    destruct (String.eqb _ _); injection D as T R; rewrite R; discriminate.
  - destruct (mirrored_ineligible_hard_stop loan_data pricing_input p w M Hp G)
      as (r & rs & S).
    rewrite S in D, N. unfold _determine_decision in D. injection D as T R.
    rewrite T, R.
    split; [discriminate|]. intros _. split; [reflexivity|]. split; [reflexivity|].
    rewrite N. unfold len. cbn [List.length]. lia.
Qed.

Lemma mirrored_pricing_never_decides_witness :
  exists d w',
    Decision.evaluate (loan_facts 0.5 70 720 1) (Some (pricing_facts 0.5)) world_a
      = Ok (d, w') /\
    eligible_for_pricing d = false /\
    decision_reason d = DecisionReason.HARD_STOP_VIOLATION.
Proof.
  destruct (Decision.evaluate (loan_facts 0.5 70 720 1) (Some (pricing_facts 0.5)) world_a)
    as [[d w']|e] eqn:E; [|exfalso; revert E; vm_compute; discriminate].
  assert (M : mirrors (pricing_facts 0.5) (loan_facts 0.5 70 720 1))
    by (unfold mirrors; repeat split; reflexivity).
  destruct (mirrored_pricing_never_decides _ _ _ _ _ M E) as (_ & K).
  assert (El : eligible_for_pricing d = false).
  { revert E. vm_compute. intros E. injection E as <- _. reflexivity. }
  exists d, w'. split; [reflexivity|]. split; [exact El|]. apply K. exact El.
Defined.

End OffersProperties.

Section VerdictsProperties.
Import Py Rules.

(** *** Counting the results *)
Lemma len_cons : forall (A : Type) (a : A) l, len (a :: l) = 1 + len l.
Proof. intros A a l. unfold len. cbn [List.length]. lia. Qed.

Lemma len_nonneg : forall (A : Type) (l : list A), 0 <= len l.
Proof. intros A l. unfold len. lia. Qed.

Lemma status_partition : forall results,
  len (filter (has_status RuleStatus.PASS) results)
  + len (filter (has_status RuleStatus.FAIL) results)
  + len (filter (has_status RuleStatus.WARNING) results)
  + len (filter (has_status RuleStatus.NOT_APPLICABLE) results)
  = len results.
Proof.
  induction results as [|r results IH]; [reflexivity|].
  rewrite len_cons, <- IH. cbn [filter]. unfold has_status.
  destruct (status r); cbn [RuleStatus.eqb]; rewrite ?len_cons; lia.
Qed.

(** What [_evaluate_rule] can produce: WARNING only for a rule of severity
    WARNING, FAIL only for another severity. *)
Lemma evaluate_rule_status : forall rule loan_data,
  let r := _evaluate_rule rule loan_data in
  rule_id r = Rule.id rule /\
  severity r = Rule.severity rule /\
  (status r = RuleStatus.WARNING -> severity r = RuleSeverity.WARNING) /\
  (status r = RuleStatus.FAIL -> severity r <> RuleSeverity.WARNING) /\
  exception_eligible r
    = RuleSeverity.eqb (severity r) RuleSeverity.EXCEPTION_REQUIRED.
Proof.
  intros rule loan_data. unfold _evaluate_rule.
  destruct (Rule.check rule loan_data) as [passed|e]; cbn [bind].
  - destruct (Rule.message rule loan_data passed) as [m|e]; cbn [bind].
    + destruct passed; cbn; [repeat split; intros K; discriminate K|].
      destruct (Rule.severity rule); cbn; repeat split; intros K; try discriminate K;
        try reflexivity; intros J; discriminate J.
    + cbn. repeat split; intros K; discriminate K.
  - cbn. repeat split; intros K; discriminate K.
Qed.

Lemma failed_partition : forall results,
  Forall (fun r => status r = RuleStatus.FAIL -> severity r <> RuleSeverity.WARNING) results ->
  len (filter (has_status RuleStatus.FAIL) results)
  = len (filter is_hard_stop results)
    + len (filter is_exception_required results)
    + len (filter is_failed_info results).
Proof.
  induction 1 as [|r results H F IH]; [reflexivity|].
  cbn [filter].
  replace (has_status RuleStatus.FAIL r) with (RuleStatus.eqb (status r) RuleStatus.FAIL)
    by reflexivity.
  unfold is_hard_stop at 1, is_exception_required at 1, is_failed_info at 1.
  destruct (status r) eqn:S; cbn [RuleStatus.eqb andb]; try exact IH.
  specialize (H eq_refl).
  destruct (severity r); cbn [RuleSeverity.eqb]; rewrite ?len_cons; try lia.
  exfalso. apply H. reflexivity.
Qed.

Lemma results_never_fail_warning : forall (rs : list Rule.t) loan_data,
  Forall (fun r => status r = RuleStatus.FAIL -> severity r <> RuleSeverity.WARNING)
    (map (fun rule => _evaluate_rule rule loan_data) rs).
Proof.
  intros rs loan_data. apply Forall_forall. intros r I.
  apply in_map_iff in I. destruct I as (rule & E & _). subst r.
  apply (evaluate_rule_status rule loan_data).
Qed.

(** X. For every rule table: each rule yields one result, in the table's
    order; the passed, failed, warning and not-applicable results add up to
    the number of rules; warning_count is the length of the warnings list;
    and failed_count is the number of hard stops plus the number of required
    exceptions plus the failed rules of severity INFO, which are listed
    nowhere. *)
Theorem rule_counts_add_up : forall engine loan_data w,
  let rr := fst (Rules.evaluate engine loan_data w) in
  map rule_id (rule_results rr) = map Rule.id (rules engine) /\
  passed_count rr + failed_count rr + warning_count rr + len (not_applicable rr)
    = len (rules engine) /\
  warning_count rr = len (Rules.warnings rr) /\
  failed_count rr
    = len (hard_stops rr) + len (exceptions_required rr)
      + len (filter is_failed_info (rule_results rr)).
Proof.
  intros engine loan_data w. cbv zeta. unfold not_applicable. cbn.
  split; [|split; [|split]].
  - rewrite map_map. apply map_ext. intros rule.
    apply (evaluate_rule_status rule loan_data).
  - rewrite status_partition. unfold len. rewrite length_map. reflexivity.
  - reflexivity.
  - apply failed_partition, results_never_fail_warning.
Qed.

(** X. For every rule table and every result of an evaluation: a result of
    status WARNING comes from a rule of severity WARNING, a result of status
    FAIL from a rule of another severity; so the warnings list holds exactly
    the failed WARNING rules, and every hard stop is not exception-eligible
    while every required exception is. *)
Theorem warnings_are_failed_warning_rules : forall engine loan_data w r,
  let rr := fst (Rules.evaluate engine loan_data w) in
  In r (rule_results rr) ->
  (status r = RuleStatus.WARNING <-> In r (Rules.warnings rr)) /\
  (In r (Rules.warnings rr) -> severity r = RuleSeverity.WARNING) /\
  (status r = RuleStatus.FAIL -> severity r <> RuleSeverity.WARNING) /\
  (In r (hard_stops rr) -> exception_eligible r = false) /\
  (In r (exceptions_required rr) -> exception_eligible r = true).
Proof.
  intros engine loan_data w r rr I.
  assert (I' := I). subst rr. rewrite evaluate_rule_results in I'.
  apply in_map_iff in I'. destruct I' as (rule & E & _).
  destruct (evaluate_rule_status rule loan_data) as (_ & _ & W & F & X).
  cbv zeta in W, F, X. rewrite E in W, F, X.
  destruct (partition_membership engine loan_data w) as (Hs & Ex & Wa).
  split; [|split; [|split; [|split]]].
  - rewrite Wa. tauto.
  - intros K. apply Wa in K. apply W. tauto.
  - exact F.
  - intros K. apply Hs in K. destruct K as (_ & _ & V). rewrite X, V. reflexivity.
  - intros K. apply Ex in K. destruct K as (_ & _ & V). rewrite X, V. reflexivity.
Qed.

Lemma warnings_are_failed_warning_rules_witness :
  exists r,
    nth_error
      (rule_results (fst (Rules.evaluate rules_engine (loan_facts 1.3 78 720 1) world_a))) 3
      = Some r /\
    In r (Rules.warnings (fst (Rules.evaluate rules_engine (loan_facts 1.3 78 720 1) world_a))) /\
    severity r = RuleSeverity.WARNING.
Proof.
  eexists. split; [reflexivity|].
  match goal with
  | |- In ?r _ /\ _ =>
      assert (I : In r (rule_results
                          (fst (Rules.evaluate rules_engine (loan_facts 1.3 78 720 1) world_a))))
        by (apply (nth_error_In _ 3); reflexivity);
      destruct (warnings_are_failed_warning_rules _ _ _ _ I) as (A & B & _)
  end.
  split; [apply A; reflexivity|apply B, A; reflexivity].
Defined.

(** *** The static rule table *)
Lemma count_by_severity : forall (s : RuleStatus.t) (v : RuleSeverity.t)
    (rs : list Rule.t) loan_data,
  (forall rule, status (_evaluate_rule rule loan_data) = s -> Rule.severity rule = v) ->
  len (filter (has_status s) (map (fun rule => _evaluate_rule rule loan_data) rs))
  <= len (filter (fun rule => RuleSeverity.eqb (Rule.severity rule) v) rs).
Proof.
  intros s v rs loan_data H. induction rs as [|rule rs IH]; [reflexivity|].
  cbn [map filter]. unfold has_status at 1.
  destruct (RuleStatus.eqb (status (_evaluate_rule rule loan_data)) s) eqn:E.
  - assert (S : status (_evaluate_rule rule loan_data) = s).
    { destruct (status (_evaluate_rule rule loan_data)), s; try discriminate E; reflexivity. }
    rewrite (H rule S).
    replace (RuleSeverity.eqb v v) with true by (destruct v; reflexivity).
    rewrite !len_cons. lia.
  - destruct (RuleSeverity.eqb (Rule.severity rule) v); rewrite ?len_cons; lia.
Qed.

Lemma failed_info_by_severity : forall (rs : list Rule.t) loan_data,
  len (filter is_failed_info (map (fun rule => _evaluate_rule rule loan_data) rs))
  <= len (filter (fun rule => RuleSeverity.eqb (Rule.severity rule) RuleSeverity.INFO) rs).
Proof.
  intros rs loan_data. induction rs as [|rule rs IH]; [reflexivity|].
  cbn [map filter]. unfold is_failed_info at 1.
  destruct (evaluate_rule_status rule loan_data) as (_ & S & _). cbv zeta in S. rewrite S.
  destruct (RuleStatus.eqb _ _), (RuleSeverity.eqb _ _);
    cbn [andb]; rewrite ?len_cons; lia.
Qed.

Lemma beyond_str_digits_nonzero : forall n,
  within_str_digits n = false -> (n =? 0) = false.
Proof.
  intros n H. apply beyond_str_digits_large in H. apply Z.eqb_neq. lia.
Qed.

(** Which results of the static table are NOT_APPLICABLE: those of the rules
    whose message shows a number that cannot be shown. *)
Lemma static_not_applicable : forall loan_data,
  map (fun rule => has_status RuleStatus.NOT_APPLICABLE (_evaluate_rule rule loan_data))
      _init_rules
  = [false; false; false; false;
     negb (within_str_digits (credit_score loan_data));
     negb (within_str_digits (credit_score loan_data));
     negb (within_str_digits (prior_bankruptcies loan_data));
     negb (within_str_digits (prior_foreclosures loan_data));
     false; false;
     negb (formattable loan_data); negb (formattable loan_data);
     negb (within_str_digits (months_reserves loan_data))].
Proof.
  intros loan_data. unfold _init_rules. cbn [map].
  unfold formattable.
  destruct (int_truediv (loan_amount loan_data) 100) as [dollars|e] eqn:D;
    destruct (within_str_digits (credit_score loan_data)) eqn:Wc;
    destruct (within_str_digits (prior_bankruptcies loan_data)) eqn:Wb;
    destruct (within_str_digits (prior_foreclosures loan_data)) eqn:Wf;
    destruct (within_str_digits (months_reserves loan_data)) eqn:Wm;
    try pose proof (beyond_str_digits_nonzero _ Wb) as Zb;
    try pose proof (beyond_str_digits_nonzero _ Wf) as Zf;
    repeat (f_equal; [rule_status|]); f_equal; rule_status.
Qed.

Lemma filter_length_map : forall (A : Type) (p : A -> bool) (l : list A),
  len (filter p l) = len (filter (fun b => b) (map p l)).
Proof.
  intros A p l. induction l as [|a l IH]; [reflexivity|].
  cbn [map filter]. destruct (p a); rewrite ?len_cons, IH; reflexivity.
Qed.

Lemma static_not_applicable_count : forall loan_data w,
  len (not_applicable (fst (Rules.evaluate rules_engine loan_data w)))
  = lost (formattable loan_data) 2
    + lost (within_str_digits (credit_score loan_data)) 2
    + lost (within_str_digits (prior_bankruptcies loan_data)) 1
    + lost (within_str_digits (prior_foreclosures loan_data)) 1
    + lost (within_str_digits (months_reserves loan_data)) 1.
Proof.
  intros loan_data w. unfold not_applicable. rewrite evaluate_rule_results.
  rewrite filter_length_map, map_map. cbn [rules rules_engine].
  rewrite static_not_applicable.
  destruct (formattable loan_data),
           (within_str_digits (credit_score loan_data)),
           (within_str_digits (prior_bankruptcies loan_data)),
           (within_str_digits (prior_foreclosures loan_data)),
           (within_str_digits (months_reserves loan_data)); reflexivity.
Qed.

(** X. The static table of thirteen rules: every evaluation yields thirteen
    results, which are verdicts (passed, failed or warning) except for the
    rules whose message shows a number that cannot be shown: LOAN-001 and
    LOAN-002 when the loan amount in dollars is no float, CREDIT-001 and
    CREDIT-002 when the credit score has more than 4300 digits, CREDIT-003,
    CREDIT-004 and RESERVE-001 when their count has; every failed rule is a
    hard stop or a required exception; and at most two warnings are given. *)
Theorem static_table_verdicts : forall loan_data w,
  let rr := fst (Rules.evaluate rules_engine loan_data w) in
  len (rule_results rr) = 13 /\
  passed_count rr + failed_count rr + warning_count rr + len (not_applicable rr) = 13 /\
  len (not_applicable rr)
    = lost (formattable loan_data) 2
      + lost (within_str_digits (credit_score loan_data)) 2
      + lost (within_str_digits (prior_bankruptcies loan_data)) 1
      + lost (within_str_digits (prior_foreclosures loan_data)) 1
      + lost (within_str_digits (months_reserves loan_data)) 1 /\
  failed_count rr = len (hard_stops rr) + len (exceptions_required rr) /\
  len (Rules.warnings rr) <= 2 /\
  (forall r, In r (not_applicable rr) -> In (rule_id r) showing_rules).
Proof.
  intros loan_data w rr.
  destruct (rule_counts_add_up rules_engine loan_data w) as (Ids & Sum & Wc & Fc).
  fold rr in Ids, Sum, Wc, Fc.
  assert (L : len (rule_results rr) = 13).
  { unfold len. rewrite <- (length_map rule_id), Ids. reflexivity. }
  split; [exact L|]. split; [exact Sum|].
  split; [apply static_not_applicable_count|]. split; [|split].
  - rewrite Fc.
    pose proof (failed_info_by_severity _init_rules loan_data) as I.
    change (len (filter _ _init_rules)) with 0 in I.
    pose proof (len_nonneg _ (filter is_failed_info (rule_results rr))) as P.
    subst rr. rewrite evaluate_rule_results in *. cbn [rules rules_engine] in *. lia.
  - pose proof (count_by_severity RuleStatus.WARNING RuleSeverity.WARNING _init_rules
                  loan_data) as C.
    change (len (filter _ _init_rules)) with 2 in C.
    subst rr. rewrite evaluate_warnings, evaluate_rule_results. cbn [rules rules_engine].
    apply C. intros rule S.
    destruct (evaluate_rule_status rule loan_data) as (_ & V & W & _).
    cbv zeta in V, W. rewrite <- V. apply W. exact S.
  - intros r I. unfold not_applicable in I. apply filter_In in I. destruct I as [I N].
    subst rr. rewrite evaluate_rule_results in I. apply in_map_iff in I.
    destruct I as (rule & E & I). subst r.
    destruct (evaluate_rule_status rule loan_data) as (Id & _). cbv zeta in Id.
    rewrite Id. clear Id.
    pose proof (static_not_applicable loan_data) as T.
    cbn [rules rules_engine] in I. unfold _init_rules in I, T.
    cbn [map] in T. cbn [In] in I. unfold showing_rules.
    repeat (destruct I as [I|I];
            [subst rule;
             first [ solve [cbn; repeat (first [left; reflexivity | right])]
                   | exfalso; injection T; intros; congruence ]|]).
    destruct I.
Qed.

(** X. When the loan amount in dollars is no float (the amount in cents is
    beyond the range of a float), formatting the message of LOAN-001 and of
    LOAN-002 raises inside the rule's try block: both results are
    NOT_APPLICABLE, whatever their checks found, and neither loan amount limit
    is among the hard stops. *)
Theorem unformattable_loan_amount_skips_limits : forall loan_data w r,
  formattable loan_data = false ->
  In r (rule_results (fst (Rules.evaluate rules_engine loan_data w))) ->
  rule_id r = "LOAN-001" \/ rule_id r = "LOAN-002" ->
  status r = RuleStatus.NOT_APPLICABLE /\
  ~ In r (hard_stops (fst (Rules.evaluate rules_engine loan_data w))).
Proof.
  intros loan_data w r F I Id.
  assert (S : status r = RuleStatus.NOT_APPLICABLE).
  { rewrite evaluate_rule_results in I. apply in_map_iff in I.
    destruct I as (rule & E & I). subst r.
    destruct (evaluate_rule_status rule loan_data) as (Ir & _). cbv zeta in Ir.
    rewrite Ir in Id. clear Ir.
    pose proof (static_not_applicable loan_data) as T. rewrite F in T.
    cbn [rules rules_engine] in I. unfold _init_rules in I, T.
    cbn [map negb] in T. cbn [In] in I.
    apply has_status_iff.
    repeat (destruct I as [I|I];
            [subst rule;
             first [ exfalso; cbn in Id; destruct Id as [Id|Id]; discriminate Id
                   | injection T; intros; assumption ]|]).
    destruct I. }
  split; [exact S|].
  intros K. apply (partition_membership rules_engine loan_data w) in K.
  destruct K as (_ & K & _). congruence.
Qed.

Lemma unformattable_loan_amount_skips_limits_witness :
  exists r,
    nth_error (rule_results (fst (Rules.evaluate rules_engine oversized_loan world_a))) 11
      = Some r /\
    rule_id r = "LOAN-002" /\
    status r = RuleStatus.NOT_APPLICABLE /\
    300000000 < loan_amount oversized_loan /\
    overall_status (fst (Rules.evaluate rules_engine oversized_loan world_a))
      = RuleStatus.PASS.
Proof.
  eexists. split; [vm_compute; reflexivity|].
  split; [reflexivity|].
  split.
  - match goal with
    | |- status ?r = _ =>
        apply (unformattable_loan_amount_skips_limits oversized_loan world_a r)
    end.
    + vm_compute. reflexivity.
    + apply (nth_error_In _ 11). vm_compute. reflexivity.
    + right. reflexivity.
  - split; vm_compute; reflexivity.
Defined.

End VerdictsProperties.

Section SummariesProperties.
Import Py Rules Pricing Decision.

(** *** The summary of a decision *)
(** The verdict of [_determine_decision], by what was found. *)
Lemma determine_decision_declined : forall status stops exceptions pricing,
  fst (_determine_decision status stops exceptions pricing) = DecisionType.DECLINED <->
  stops <> [] \/ (exists p, pricing = Some p /\ eligible p = false).
Proof.
  intros status stops exceptions pricing. unfold _determine_decision.
  destruct stops as [|h hs].
  - destruct pricing as [p|].
    + destruct (eligible p) eqn:G; cbn [negb].
      * destruct exceptions; [destruct (String.eqb _ _)|]; cbn [fst];
          (split; [discriminate|]); intros [K|(q & Q & K)]; try congruence.
      * cbn [fst]. split; [intros _|reflexivity]. right. exists p. split; [reflexivity|exact G].
    + destruct exceptions; cbn [fst]; (split; [discriminate|]);
        intros [K|(q & Q & K)]; congruence.
  - cbn [fst]. split; [intros _|reflexivity]. left. discriminate.
Qed.

Lemma determine_decision_approved : forall status stops exceptions pricing,
  fst (_determine_decision status stops exceptions pricing)
    = DecisionType.CONDITIONALLY_APPROVED ->
  stops = [] /\ exceptions = [].
Proof.
  intros status stops exceptions pricing. unfold _determine_decision.
  destruct stops as [|h hs]; [|discriminate].
  destruct (match pricing with Some p => negb (eligible p) | None => false end);
    [discriminate|].
  destruct exceptions; [|discriminate]. intros _. split; reflexivity.
Qed.

Lemma len_zero : forall (A : Type) (l : list A), len l = 0 <-> l = [].
Proof.
  intros A l. destruct l; [split; reflexivity|].
  rewrite len_cons. pose proof (len_nonneg _ l). split; [lia|discriminate].
Qed.

(** X. The summary fields of a decision that is returned agree with its
    verdict: rules_passed holds exactly when there is no hard stop and no
    required exception; failed_rules is their sum; the decision is DECLINED
    exactly when there is a hard stop or a computed pricing that is not
    eligible, and CONDITIONALLY_APPROVED only when the rules passed; the final
    rate is that of the pricing result; and without a pricing input there is
    no final rate and eligible_for_pricing is false, also for an approved
    loan. *)
Theorem decision_summary_is_consistent : forall loan_data pricing_input w,
  if renders pricing_input then
    exists d w',
      Decision.evaluate loan_data pricing_input w = Ok (d, w') /\
      (rules_passed d = true <-> n_hard_stops d = 0 /\ n_exceptions_required d = 0) /\
      failed_rules (res_details d) = n_hard_stops d + n_exceptions_required d /\
      (decision_type d = DecisionType.DECLINED <->
         0 < n_hard_stops d \/ (pricing d <> None /\ eligible_for_pricing d = false)) /\
      (decision_type d = DecisionType.CONDITIONALLY_APPROVED -> rules_passed d = true) /\
      res_final_rate d = option_map final_rate (pricing d) /\
      (pricing_input = None ->
         pricing d = None /\ res_final_rate d = None /\ eligible_for_pricing d = false)
  else Decision.evaluate loan_data pricing_input w = Raise ValueError.
Proof.
  intros loan_data pricing_input w.
  destruct (renders pricing_input) eqn:Rn; [|apply evaluate_raises; exact Rn].
  destruct (evaluate_fields loan_data pricing_input w Rn)
    as (d & w' & E & D & P & Fr & El & Rp & Nh & Ne & _ & _ & Dt & _).
  cbv zeta in D, P, Fr, El, Rp, Nh, Ne, Dt.
  destruct (static_table_verdicts loan_data w) as (_ & _ & _ & Fc & _).
  cbv zeta in Fc.
  pose proof (evaluate_overall_status rules_engine loan_data w) as Os. cbv zeta in Os.
  exists d, w'. split; [exact E|].
  rewrite Rp, Nh, Ne, Dt, Fr, El, P. cbn [failed_rules].
  assert (T : decision_type d
              = fst (_determine_decision
                       (overall_status (fst (Rules.evaluate rules_engine loan_data w)))
                       (hard_stops (fst (Rules.evaluate rules_engine loan_data w)))
                       (exceptions_required (fst (Rules.evaluate rules_engine loan_data w)))
                       (pricing_of pricing_input)))
    by (rewrite <- D; reflexivity).
  rewrite T. clear T D E Rp Nh Ne Dt Fr El P.
  revert Fc Os.
  generalize (fst (Rules.evaluate rules_engine loan_data w)). intros rr Fc Os.
  split; [|split; [exact Fc|split; [|split; [|split; [reflexivity|]]]]].
  - rewrite Os, !len_zero.
    destruct (hard_stops rr), (exceptions_required rr); cbn [RuleStatus.eqb];
      split; try discriminate; try tauto; intros [A B]; discriminate.
  - rewrite determine_decision_declined. split.
    + intros [K|(p & Q & K)].
      * left. destruct (hard_stops rr); [congruence|].
        rewrite len_cons. pose proof (len_nonneg _ l). lia.
      * right. rewrite Q. split; [discriminate|exact K].
    + intros [K|[K1 K2]].
      * left. intros Z. rewrite Z in K. unfold len in K. cbn in K. lia.
      * right. destruct (pricing_of pricing_input) as [p|]; [|congruence].
        exists p. split; [reflexivity|exact K2].
  - intros K. apply determine_decision_approved in K. destruct K as [K1 K2].
    rewrite Os, K1, K2. reflexivity.
  - intros N. subst pricing_input. cbn. repeat split.
Qed.

Lemma append_condition_spec : forall cs cat desc req w,
  append_condition cs cat desc req w
  = (cs ++ [{| cond_id := entropy w (drawn w); cond_category := cat;
               description := desc; required := req; source := "AUTOMATED" |}],
     {| entropy := entropy w; drawn := S (drawn w); clock := clock w; read := read w |}).
Proof. reflexivity. Qed.

(** The conditions added for the rule warnings: one each, not required. *)
Lemma warning_conditions : forall (ws : list RuleResult) cs w,
  let cw := fold_left
              (fun '(conditions, w) warning =>
                 append_condition conditions "PTD" (Lit "Address: " :: message warning)
                   false w)
              ws (cs, w) in
  map required (fst cw) = map required cs ++ repeat false (List.length ws) /\
  map source (fst cw) = map source cs ++ repeat "AUTOMATED" (List.length ws) /\
  map cond_id (fst cw)
    = map cond_id cs ++ map (entropy w) (seq (drawn w) (List.length ws)) /\
  snd cw = after_draws w (List.length ws).
Proof.
  induction ws as [|x ws IH]; intros cs w.
  - cbn. rewrite !app_nil_r. destruct w. repeat split.
  - cbn [fold_left List.length repeat seq map].
    rewrite !append_condition_spec.
    match goal with
    | |- context [fold_left ?f ws (?c, ?v)] => specialize (IH c v)
    end.
    cbv zeta in IH. destruct IH as (R & Sr & I & W).
    cbv zeta. rewrite R, Sr, I, W. rewrite !map_app, <- !app_assoc.
    cbn [map app required source cond_id drawn entropy].
    unfold after_draws. cbn [drawn entropy clock read].
    rewrite Nat.add_succ_r. repeat split.
Qed.

(** The conditions [_generate_conditions] builds: the standard ones, all
    required, then one for each rule warning, not required; each draws its
    id. *)
Lemma generate_conditions_spec : forall rr pr loan_data w,
  let cw := _generate_conditions rr pr loan_data w in
  let n := (standard_conditions loan_data + List.length (Rules.warnings rr))%nat in
  map required (fst cw)
    = repeat true (standard_conditions loan_data)
      ++ repeat false (List.length (Rules.warnings rr)) /\
  map source (fst cw) = repeat "AUTOMATED" n /\
  map cond_id (fst cw) = map (entropy w) (seq (drawn w) n) /\
  snd cw = after_draws w n.
Proof.
  intros rr pr loan_data w. cbv zeta.
  unfold _generate_conditions, standard_conditions.
  repeat (rewrite append_condition_spec; cbv beta iota zeta;
          cbn [entropy drawn clock read]).
  destruct (1 <? units loan_data);
    repeat (rewrite append_condition_spec; cbv beta iota zeta;
            cbn [entropy drawn clock read]);
    match goal with
    | |- context [fold_left ?f ?ws (?cs, ?w0)] =>
        destruct (warning_conditions ws cs w0) as (R & Sr & I & W)
    end;
    cbv zeta in R, Sr, I, W; rewrite R, Sr, I, W;
    unfold after_draws;
    cbn [drawn entropy clock read map app cond_id required source repeat seq Nat.add];
    rewrite ?repeat_app, ?seq_app, ?map_app, ?Nat.add_succ_r, ?Nat.add_0_r;
    cbn [drawn entropy clock read map app cond_id required source repeat seq Nat.add];
    repeat split.
Qed.

Lemma rules_evaluate_world : forall engine loan_data w,
  Rules.id (fst (Rules.evaluate engine loan_data w)) = entropy w (drawn w) /\
  snd (Rules.evaluate engine loan_data w)
  = {| entropy := entropy w; drawn := S (drawn w); clock := clock w; read := S (read w) |}.
Proof. intros engine loan_data w. split; reflexivity. Qed.

Lemma Forall_repeat_map : forall (A B : Type) (f : A -> B) (b : B) (l : list A) n,
  map f l = repeat b n -> Forall (fun a => f a = b) l.
Proof.
  intros A B f b l. induction l as [|a l IH]; intros n H; [constructor|].
  destruct n as [|n]; [discriminate H|]. cbn in H. injection H as H1 H2.
  constructor; [exact H1|]. apply (IH n). exact H2.
Qed.

(** X. The conditions of a decision that is returned, whatever its type: the
    seven standard conditions, eight for a property of several units, all
    required, followed by one condition that is not required for each rule
    warning, hence seven to ten in all, every one from the AUTOMATED source.
    The ids of the rules evaluation, of the conditions and of the decision are
    successive draws of uuid4, and the clock is read twice. *)
Theorem decision_conditions_follow_warnings : forall loan_data pricing_input w,
  if renders pricing_input then
    exists d w',
      Decision.evaluate loan_data pricing_input w = Ok (d, w') /\
      map required (conditions d)
        = repeat true (standard_conditions loan_data)
          ++ repeat false (Z.to_nat (n_warnings d)) /\
      Forall (fun c => source c = "AUTOMATED") (conditions d) /\
      len (conditions d) = Z.of_nat (standard_conditions loan_data) + n_warnings d /\
      7 <= len (conditions d) <= 10 /\
      decision_ids d
        = map (entropy w) (seq (drawn w) (2 + List.length (conditions d))) /\
      w' = {| entropy := entropy w;
              drawn := (2 + List.length (conditions d) + drawn w)%nat;
              clock := clock w;
              read := (2 + read w)%nat |}
  else Decision.evaluate loan_data pricing_input w = Raise ValueError.
Proof.
  intros loan_data pricing_input w.
  destruct (renders pricing_input) eqn:Rn; [|apply evaluate_raises; exact Rn].
  destruct (evaluate_fields loan_data pricing_input w Rn)
    as (d & w' & E & _ & _ & _ & _ & _ & _ & _ & Nw & Cs & Dt & Id & Wd).
  cbv zeta in Nw, Cs, Dt, Id, Wd.
  destruct (static_table_verdicts loan_data w) as (_ & _ & _ & _ & W2 & _).
  cbv zeta in W2.
  destruct (rules_evaluate_world rules_engine loan_data w) as (Ri & Rw).
  destruct (generate_conditions_spec (fst (Rules.evaluate rules_engine loan_data w))
              (pricing_of pricing_input) loan_data
              (snd (Rules.evaluate rules_engine loan_data w))) as (R & Sr & I & W).
  cbv zeta in R, Sr, I, W. rewrite <- Cs in R, Sr, I.
  rewrite Rw in I, W, Id, Wd. cbn [entropy drawn] in I.
  assert (L : List.length (conditions d)
              = (standard_conditions loan_data
                 + List.length (Rules.warnings (fst (Rules.evaluate rules_engine loan_data w))))%nat).
  { rewrite <- (length_map source), Sr, repeat_length. reflexivity. }
  exists d, w'. split; [exact E|].
  rewrite Nw. unfold len in *. rewrite Nat2Z.id.
  split; [exact R|]. split; [exact (Forall_repeat_map _ _ _ _ _ _ Sr)|].
  split; [rewrite L; lia|].
  split; [rewrite L; unfold standard_conditions; destruct (1 <? units loan_data); lia|].
  split.
  - unfold decision_ids. rewrite Dt, Id, I, W, Ri. cbn [rules_evaluation_id].
    unfold uuid4, after_draws. cbn [fst entropy drawn].
    rewrite <- L.
    change (2 + List.length (conditions d))%nat with (S (S (List.length (conditions d)))).
    rewrite <- cons_seq. cbn [map]. f_equal.
    rewrite seq_S, map_app. cbn [map]. do 3 f_equal. lia.
  - rewrite Wd, W. unfold uuid4, utcnow, after_draws.
    cbn [fst snd entropy drawn clock read]. rewrite <- L. f_equal. lia.
Qed.

End SummariesProperties.
